(** * Printer costume generators: a shallow embedding

    The repository holds two near-identical Python scripts that build the
    costumes of the Scratch "Printer" sprite:

    - [src/create_vector_costumes.py] (SVG costumes, module [Vector] below),
    - [archived/raster_costumes/create_raster_costumes.py] (PNG costumes,
      module [Raster] below).

    [name_for], [md5sum_file], [load_sprite_code] and [assemble_sprite] are
    textually the same in both scripts and are embedded once.

    Python values are modelled as follows.  A [str] is the list of its code
    points, [bytes] is a list of [Byte.byte], a JSON document is the tree
    [json] whose objects are association lists with the update discipline
    of a Python [dict].  Code that touches the file system or starts a
    process runs in the monad [M]: a function from the [world] to a result
    (a value or a raised exception) and the new world; an exception keeps
    the effects that happened before it, as in Python. *)

From Stdlib Require Import NArith ZArith String Ascii DecimalString List Bool Lia.
From stdpp Require Import base option list gmap.

#[local] Set Warnings "-clear-no-such-hyp".

Local Open Scope N_scope.

(** ** Strings *)

(** A Python [str]: the sequence of its Unicode code points. *)
Abbreviation str := (list N).

Abbreviation bytes := (list Byte.byte).

(** An ASCII literal as a [str]. *)
Definition lit (s : string) : str := map N_of_ascii (list_ascii_of_string s).

Fixpoint starts_with (needle hay : str) : bool :=
  match needle, hay with
  | [], _ => true
  | _ :: _, [] => false
  | a :: needle', b :: hay' => (a =? b) && starts_with needle' hay'
  end.

(** [needle in hay] on two [str]: the substring test. *)
Fixpoint str_in (needle hay : str) : bool :=
  starts_with needle hay ||
  match hay with
  | [] => false
  | _ :: hay' => str_in needle hay'
  end.

(** [s.replace(a, b)] for one-character [a] and [b]. *)
Definition str_replace (a b : N) (s : str) : str :=
  map (λ c, if c =? a then b else c) s.

Definition is_upper (c : N) : bool := (65 <=? c) && (c <=? 90).
Definition is_lower (c : N) : bool := (97 <=? c) && (c <=? 122).
Definition is_digit (c : N) : bool := (48 <=? c) && (c <=? 57).

(** [str.lower] restricted to ASCII: what Python does on a [str] whose code
    points are all below 128. *)
Definition ascii_lower (c : N) : N := if is_upper c then c + 32 else c.

(** A [str] of ASCII code points none of which is an upper-case letter; the
    font ids of the data model ("short lowercase token") are of this form. *)
Definition lowercase_ascii (s : str) : bool :=
  forallb (λ c, (c <? 128) && negb (is_upper c)) s.

(** ** Exceptions and results *)

Inductive exn :=
  | KeyError | TypeError | ValueError
  | FileNotFoundError | SameFileError
  | UnicodeEncodeError | CalledProcessError
  | BadZipFile | JSONDecodeError
  | UnicodeDecodeError | PermissionError | IsADirectoryError.

Inductive result (A : Type) :=
  | Ok (a : A)
  | Raise (e : exn).
Arguments Ok {A} a.
Arguments Raise {A} e.

#[global] Instance result_ret : MRet result := λ A a, Ok a.
#[global] Instance result_bind : MBind result := λ A B f m,
  match m with
  | Ok a => f a
  | Raise e => Raise e
  end.

(** ** JSON documents and Python dictionaries *)

#[local] Unset Elimination Schemes.
Inductive json :=
  | JNull
  | JBool (b : bool)
  | JInt (n : Z)
  | JFloat (ieee754 : N)
  | JStr (s : str)
  | JArr (items : list json)
  | JObj (fields : list (str * json)).
#[local] Set Elimination Schemes.

(** A [dict] with [str] keys keeps its keys in insertion order. *)
Abbreviation dict := (list (str * json)).

Fixpoint dict_get {V} (k : str) (d : list (str * V)) : option V :=
  match d with
  | [] => None
  | (k', v) :: d' => if decide (k = k') then Some v else dict_get k d'
  end.

(** [d[k] = v]: an existing key keeps its place, a new key goes last. *)
Fixpoint dict_set {V} (k : str) (v : V) (d : list (str * V)) : list (str * V) :=
  match d with
  | [] => [(k, v)]
  | (k', v') :: d' =>
      if decide (k = k') then (k, v) :: d' else (k', v') :: dict_set k v d'
  end.

(** [v[k]] for a [str] key [k]. *)
Definition py_getitem (v : json) (k : str) : result json :=
  match v with
  | JObj d =>
      match dict_get k d with
      | Some x => Ok x
      | None => Raise KeyError
      end
  | _ => Raise TypeError
  end.

(** [v[k] = x] for a [str] key [k]. *)
Definition py_setitem (v : json) (k : str) (x : json) : result json :=
  match v with
  | JObj d => Ok (JObj (dict_set k x d))
  | _ => Raise TypeError
  end.

(** The items a [for] loop over [v] visits: the elements of a list, the keys
    of a dict, the characters of a [str]. *)
Definition py_iter (v : json) : result (list json) :=
  match v with
  | JArr items => Ok items
  | JObj d => Ok (map (λ kv, JStr (fst kv)) d)
  | JStr s => Ok (map (λ c, JStr [c]) s)
  | _ => Raise TypeError
  end.

(** ** Files and archives *)

Inductive compression := ZIP_STORED | ZIP_DEFLATED.

(** A member of a zip archive, as the call that wrote it gave it. *)
Record zip_entry := {
  arcname : str;
  data : bytes;
  compress_type : compression
}.

Inductive file :=
  | Regular (content : bytes)
  | ZipArchive (members : list zip_entry).

(** The file system (regular files and zip archives by path) and the
    command lines of the processes started so far, oldest first.
    Directories are not part of the world.  The scripts create files in two
    places.  One is the staging directory, which is taken to exist and to
    hold files only: [main] has just created it, empty, and the module's
    default is [/tmp/].  The other is the output path, whose directory the
    scripts never create: whether a file can be created there is the field
    [create_error] of [Platform]. *)
Record world := {
  fs : gmap str file;
  processes : list (list str)
}.

Definition with_file (path : str) (f : file) (w : world) : world :=
  {| fs := <[path := f]> (fs w); processes := processes w |}.

(** ** The Python library the scripts call

    The scripts rely on [unicodedata], [str.lower], [json], [zipfile] and on
    the ImageMagick [convert] program.  None of them is code of the
    repository; what the model cannot compute of them is a field of
    [Platform], and the facts about them that a theorem needs are stated as
    its premises. *)

(** How a command line that does not succeed ends: the program could not
    be started ([subprocess] raises the error of the operating system,
    [FileNotFoundError] when [convert] is not installed, and no process
    exists), or it ran and left with an exit status other than 0, having
    written to its output file the bytes [partial], if any. *)
Inductive render_failure :=
  | NotStarted (e : exn)
  | ExitStatus (partial : option bytes).

Class Platform := {
  (** [unicodedata.name(chr(c))]; [None] when it raises [ValueError]. *)
  unicodedata_name : N → option str;
  (** [s.lower()]. *)
  str_lower : str → str;
  (** [json.load] of a byte stream; [None] when it raises. *)
  json_loads : bytes → option json;
  (** The exception that [json.load] raises on bytes that it does not
      read: [JSONDecodeError], or [UnicodeDecodeError] when the bytes are no
      text in a Unicode encoding. *)
  json_error : bytes → exn;
  (** [json.dumps(v)], as the bytes [ZipFile.writestr] stores for it. *)
  json_dumps : json → bytes;
  (** The bytes of a zip file with the given members. *)
  zip_bytes : list zip_entry → bytes;
  (** Running the ImageMagick command line [argv] with success: the bytes
      it writes to the file named by its last argument; [None] when the
      command line does not succeed. *)
  convert : list str → option bytes;
  (** How the command line [argv] ends when it does not succeed. *)
  convert_failure : list str → render_failure;
  (** Creating a file at the output path [path]: the error of
      [open(path, 'w+b')], if it fails ([FileNotFoundError] when the
      directory is missing, [PermissionError], [IsADirectoryError]). *)
  create_error : str → option exn
}.

(** [str.lower] on ASCII input maps [A-Z] to [a-z] and keeps the rest. *)
Definition lower_ascii_law `{Platform} : Prop :=
  ∀ s, Forall (λ c, c < 128) s → str_lower s = map ascii_lower s.

(** ** [name_for] (both scripts) *)

Section name_for.
Context `{Platform}.

(** [unicodedata.name(character)]: the argument must be one character. *)
Definition py_unicodedata_name (character : str) : result str :=
  match character with
  | [c] =>
      match unicodedata_name c with
      | Some n => Ok n
      | None => Raise ValueError
      end
  | _ => Raise TypeError
  end.

Definition name_for (font_id character : str) : result str :=
  if str_in character (lit "abcdefghijklmnopqrstuvwxyz0123456789") then
    Ok (str_lower (font_id ++ lit "-" ++ character))
  else if str_in character (lit "ABCDEFGHIJKLMNOPQRSTUVWXYZ") then
    Ok (font_id ++ lit "-upper-" ++ character)
  else
    name ← py_unicodedata_name character;
    let name := str_replace 32 45 (str_replace 95 45 (str_lower name)) in
    Ok (str_lower (font_id ++ lit "-special-" ++ name)).
End name_for.

(** ** Bytes, UTF-8 and hexadecimal *)

Definition byte_of_N (n : N) : Byte.byte :=
  match Byte.of_N n with
  | Some b => b
  | None => Byte.x00
  end.

(** The UTF-8 encoding of one code point; [None] for a surrogate (and for a
    number that is no code point), where Python raises [UnicodeEncodeError]. *)
Definition utf8_char (c : N) : option (list N) :=
  if c <? 0x80 then Some [c]
  else if c <? 0x800 then Some [0xC0 + c / 64; 0x80 + c mod 64]
  else if c <? 0x10000 then
    if (0xD800 <=? c) && (c <=? 0xDFFF) then None
    else Some [0xE0 + c / 4096; 0x80 + (c / 64) mod 64; 0x80 + c mod 64]
  else if c <? 0x110000 then
    Some [0xF0 + c / 262144; 0x80 + (c / 4096) mod 64;
          0x80 + (c / 64) mod 64; 0x80 + c mod 64]
  else None.

(** [s.encode('utf-8')]. *)
Fixpoint utf8_encode (s : str) : result bytes :=
  match s with
  | [] => Ok []
  | c :: s' =>
      match utf8_char c with
      | Some bs => rest ← utf8_encode s'; Ok (map byte_of_N bs ++ rest)
      | None => Raise UnicodeEncodeError
      end
  end.

Definition hex_digit (n : N) : N :=
  if n <? 10 then 48 + n else 87 + n.

Definition hex_byte (b : Byte.byte) : str :=
  let n := Byte.to_N b in [hex_digit (n / 16); hex_digit (n mod 16)].

Definition hex_of_bytes (bs : bytes) : str := concat (map hex_byte bs).

Definition is_lower_hex (c : N) : bool :=
  is_digit c || ((97 <=? c) && (c <=? 102)).

(** ** [hashlib.md5] (RFC 1321) *)

Module MD5.

Definition add32 (a b : N) : N := (a + b) mod 2 ^ 32.

Definition rotl32 (x n : N) : N :=
  N.lor (N.shiftl x n mod 2 ^ 32) (N.shiftr x (32 - n)).

Definition not32 (x : N) : N := N.lxor x 0xFFFFFFFF.

Definition K : list N :=
  [ 0xd76aa478; 0xe8c7b756; 0x242070db; 0xc1bdceee;
    0xf57c0faf; 0x4787c62a; 0xa8304613; 0xfd469501;
    0x698098d8; 0x8b44f7af; 0xffff5bb1; 0x895cd7be;
    0x6b901122; 0xfd987193; 0xa679438e; 0x49b40821;
    0xf61e2562; 0xc040b340; 0x265e5a51; 0xe9b6c7aa;
    0xd62f105d; 0x02441453; 0xd8a1e681; 0xe7d3fbc8;
    0x21e1cde6; 0xc33707d6; 0xf4d50d87; 0x455a14ed;
    0xa9e3e905; 0xfcefa3f8; 0x676f02d9; 0x8d2a4c8a;
    0xfffa3942; 0x8771f681; 0x6d9d6122; 0xfde5380c;
    0xa4beea44; 0x4bdecfa9; 0xf6bb4b60; 0xbebfbc70;
    0x289b7ec6; 0xeaa127fa; 0xd4ef3085; 0x04881d05;
    0xd9d4d039; 0xe6db99e5; 0x1fa27cf8; 0xc4ac5665;
    0xf4292244; 0x432aff97; 0xab9423a7; 0xfc93a039;
    0x655b59c3; 0x8f0ccc92; 0xffeff47d; 0x85845dd1;
    0x6fa87e4f; 0xfe2ce6e0; 0xa3014314; 0x4e0811a1;
    0xf7537e82; 0xbd3af235; 0x2ad7d2bb; 0xeb86d391 ].

Definition shifts : list N :=
  [ 7; 12; 17; 22; 7; 12; 17; 22; 7; 12; 17; 22; 7; 12; 17; 22;
    5; 9; 14; 20; 5; 9; 14; 20; 5; 9; 14; 20; 5; 9; 14; 20;
    4; 11; 16; 23; 4; 11; 16; 23; 4; 11; 16; 23; 4; 11; 16; 23;
    6; 10; 15; 21; 6; 10; 15; 21; 6; 10; 15; 21; 6; 10; 15; 21 ].

Record state := { A : N; B : N; C : N; D : N }.

Definition init : state :=
  {| A := 0x67452301; B := 0xefcdab89; C := 0x98badcfe; D := 0x10325476 |}.

Definition word_le (b0 b1 b2 b3 : N) : N :=
  b0 + 256 * b1 + 65536 * b2 + 16777216 * b3.

(** The sixteen little-endian words of a 64-byte block. *)
Fixpoint words (block : list N) : list N :=
  match block with
  | b0 :: b1 :: b2 :: b3 :: rest => word_le b0 b1 b2 b3 :: words rest
  | _ => []
  end.

Definition step (m : list N) (s : state) (i : nat) : state :=
  let n := N.of_nat i in
  let '(f, g) :=
    if n <? 16 then
      (N.lor (N.land (B s) (C s)) (N.land (not32 (B s)) (D s)), n)
    else if n <? 32 then
      (N.lor (N.land (D s) (B s)) (N.land (not32 (D s)) (C s)),
       (5 * n + 1) mod 16)
    else if n <? 48 then
      (N.lxor (B s) (N.lxor (C s) (D s)), (3 * n + 5) mod 16)
    else
      (N.lxor (C s) (N.lor (B s) (not32 (D s))), (7 * n) mod 16) in
  let f := add32 (add32 (add32 f (A s)) (nth i K 0)) (nth (N.to_nat g) m 0) in
  {| A := D s; D := C s; C := B s;
     B := add32 (B s) (rotl32 f (nth i shifts 0)) |}.

Definition compress (s : state) (block : list N) : state :=
  let r := fold_left (step (words block)) (seq 0 64) s in
  {| A := add32 (A s) (A r); B := add32 (B s) (B r);
     C := add32 (C s) (C r); D := add32 (D s) (D r) |}.

(** Feed bytes one at a time, compressing whenever 64 are buffered. *)
Definition feed (acc : state * list N) (b : N) : state * list N :=
  let '(s, buf) := acc in
  let buf := buf ++ [b] in
  if (N.of_nat (length buf) =? 64) then (compress s buf, []) else (s, buf).

Definition le_bytes (k : nat) (n : N) : list N :=
  map (λ i, (n / 256 ^ N.of_nat i) mod 256) (seq 0 k).

Definition padding (len : N) : list N :=
  let zeros := (64 + 55 - len mod 64) mod 64 in
  0x80 :: repeat 0 (N.to_nat zeros) ++ le_bytes 8 ((8 * len) mod 2 ^ 64).

Definition digest (msg : bytes) : bytes :=
  let input := map Byte.to_N msg in
  let s := fst (fold_left feed (input ++ padding (N.of_nat (length msg)))
                          (init, [])) in
  map byte_of_N (le_bytes 4 (A s) ++ le_bytes 4 (B s) ++
                 le_bytes 4 (C s) ++ le_bytes 4 (D s)).

Definition hexdigest (msg : bytes) : str := hex_of_bytes (digest msg).

End MD5.

(** [s.encode('ascii')] for an ASCII literal, used to write test vectors. *)
Definition ascii_bytes (s : string) : bytes :=
  map byte_of_N (lit s).

(** ** The monad of the scripts' effects *)

Definition M (A : Type) : Type := world → result A * world.

#[global] Instance M_ret : MRet M := λ A a w, (Ok a, w).
#[global] Instance M_bind : MBind M := λ A B f m w,
  match m w with
  | (Ok a, w') => f a w'
  | (Raise e, w') => (Raise e, w')
  end.

Definition raise {A} (e : exn) : M A := λ w, (Raise e, w).

(** A computation without effects. *)
Definition lift {A} (r : result A) : M A := λ w, (r, w).

(** A [for] loop that threads a loop state. *)
Fixpoint for_fold {A S} (body : S → A → M S) (l : list A) (s : S) : M S :=
  match l with
  | [] => mret s
  | x :: l' => s' ← body s x; for_fold body l' s'
  end.

(** *** Generators

    A generator function, run by a consumer that takes every item: the
    items yielded, how the run ended ([None]: the generator returned,
    [Some e]: it raised [e], after the items listed), and the world left. *)
Definition Gen : Type := world → list json * option exn * world.

(** [yield m]: run [m] and yield its value. *)
Definition gen_yield (m : M json) : Gen := λ w,
  match m w with
  | (Ok d, w') => ([d], None, w')
  | (Raise e, w') => ([], Some e, w')
  end.

Definition gen_seq (g1 g2 : Gen) : Gen := λ w,
  match g1 w with
  | (ds, None, w') => let '(ds', r, w'') := g2 w' in (ds ++ ds', r, w'')
  | (ds, Some e, w') => (ds, Some e, w')
  end.

(** A [for] loop whose body yields. *)
Fixpoint gen_for {A} (body : A → Gen) (l : list A) : Gen :=
  match l with
  | [] => λ w, ([], None, w)
  | x :: l' => gen_seq (body x) (gen_for body l')
  end.

Definition decimal (n : N) : str :=
  lit (NilEmpty.string_of_uint (N.to_uint n)).

(** [os.path.join(a, b)] of [posixpath]. *)
Definition path_join (a b : str) : str :=
  if starts_with [47] b then b
  else
    match last a with
    | None => b
    | Some c => if c =? 47 then a ++ b else a ++ [47] ++ b
    end.

(** A plain file name: it has no [/] and no NUL, it can be encoded, and it
    is neither empty nor made of dots only ([.] and [..]).  Such a name is
    its own normal form, and joined to a directory it names an entry of that
    directory. *)
Definition plain_char (c : N) : bool :=
  negb (c =? 0) && negb (c =? 47) &&
  match utf8_char c with
  | Some _ => true
  | None => false
  end.

Definition plain_name (m : str) : bool :=
  forallb plain_char m && negb (forallb (λ c, c =? 46) m).

Section library.
Context `{Platform}.

Definition file_bytes (f : file) : bytes :=
  match f with
  | Regular content => content
  | ZipArchive members => zip_bytes members
  end.

(** [open(path, 'rb').read()]. *)
Definition read_file (path : str) : M bytes := λ w,
  match fs w !! path with
  | Some f => (Ok (file_bytes f), w)
  | None => (Raise FileNotFoundError, w)
  end.

(** [with open(path, 'wt', encoding='utf-8') as f: f.write(text)]:
    opening truncates the file, writing encodes the text.  The path is in
    the staging directory, where a file can be created. *)
Definition write_text (path text : str) : M unit := λ w,
  match utf8_encode text with
  | Ok content => (Ok (), with_file path (Regular content) w)
  | Raise e => (Raise e, with_file path (Regular []) w)
  end.

(** [shutil.copy(src, dst)] between two file paths, the second one in the
    staging directory, where a file can be created. *)
Definition shutil_copy (src dst : str) : M unit := λ w,
  match fs w !! src with
  | None => (Raise FileNotFoundError, w)
  | Some f =>
      if decide (src = dst) then (Raise SameFileError, w)
      else (Ok (), with_file dst f w)
  end.

(** A command line that does not succeed: the exception of [check_call],
    and the world it leaves.  A process that was started is recorded, and
    what it wrote before it failed is in its output file, the file named
    last. *)
Definition render_fails (argv : list str) (w : world) : exn * world :=
  match convert_failure argv with
  | NotStarted e => (e, w)
  | ExitStatus partial =>
      let started := {| fs := fs w; processes := processes w ++ [argv] |} in
      (CalledProcessError,
       match partial, last argv with
       | Some content, Some out => with_file out (Regular content) started
       | _, _ => started
       end)
  end.

(** [subprocess.check_call(argv)] for a command line of [convert]: when the
    program succeeds its command line is recorded and the file named last
    is written. *)
Definition check_call (argv : list str) : M unit := λ w,
  match convert argv, last argv with
  | Some png, Some out =>
      (Ok (), with_file out (Regular png)
                {| fs := fs w; processes := processes w ++ [argv] |})
  | _, _ => (Raise (render_fails argv w).1, (render_fails argv w).2)
  end.

(** [zipfile.ZipFile(path, 'w')]: when the file can be created it is
    created, or emptied, at once; otherwise the error of [open] is raised
    and nothing is done.  The members written through the handle are kept
    with it; the file at [path] holds them at every moment, so also when an
    exception leaves the [with] block and closes the archive. *)
Definition zip_create (path : str) : M (list zip_entry) := λ w,
  match create_error path with
  | Some e => (Raise e, w)
  | None => (Ok [], with_file path (ZipArchive []) w)
  end.

(** [archive.write(filename, arcname=..., compress_type=...)] of a file of
    the staging directory under a plain name ([plain_name]): the member is
    stored under that name.  Of other names [zipfile] stores a normal form
    (without [./] or a leading [/]), or a directory entry, or it raises;
    this is not modelled, and the statements on [assemble_sprite] are about
    plain names, as the [md5ext] of the scripts' own descriptors are. *)
Definition zip_write (path : str) (members : list zip_entry)
    (filename arcname : str) (ct : compression) : M (list zip_entry) := λ w,
  match fs w !! filename with
  | None => (Raise FileNotFoundError, w)
  | Some f =>
      let members :=
        members ++ [{| arcname := arcname; data := file_bytes f;
                       compress_type := ct |}] in
      (Ok members, with_file path (ZipArchive members) w)
  end.

(** [archive.writestr(arcname, data=...)]; an archive opened without a
    [compression] argument stores its members. *)
Definition zip_writestr (path : str) (members : list zip_entry)
    (arcname : str) (content : bytes) : M (list zip_entry) := λ w,
  let members :=
    members ++ [{| arcname := arcname; data := content;
                   compress_type := ZIP_STORED |}] in
  (Ok members, with_file path (ZipArchive members) w).

(** [zipfile.ZipFile(path, 'r')]. *)
Definition zip_open (path : str) : M (list zip_entry) := λ w,
  match fs w !! path with
  | None => (Raise FileNotFoundError, w)
  | Some (Regular _) => (Raise BadZipFile, w)
  | Some (ZipArchive members) => (Ok members, w)
  end.

(** [archive.read(name)]: of several members of one name the last wins. *)
Fixpoint zip_read (name : str) (members : list zip_entry) : result bytes :=
  match members with
  | [] => Raise KeyError
  | e :: members' =>
      match zip_read name members' with
      | Ok content => Ok content
      | Raise _ => if decide (arcname e = name) then Ok (data e) else Raise KeyError
      end
  end.

(** ** Functions shared by the two scripts *)

Definition md5sum_file (filename : str) : M str :=
  content ← read_file filename;
  mret (MD5.hexdigest content).

Definition load_sprite_code (sprite3_filename : str) : M json :=
  archive ← zip_open sprite3_filename;
  raw ← lift (zip_read (lit "sprite.json") archive);
  sprite ← lift (match json_loads raw with
                 | Some v => Ok v
                 | None => Raise (json_error raw)
                 end);
  sprite ← lift (py_setitem sprite (lit "costumes") (JArr []));
  sprite ← lift (py_setitem sprite (lit "current_costume") (JInt 0));
  sprite ← lift (py_setitem sprite (lit "sounds") (JArr []));
  mret sprite.

(** The body of the loop of [assemble_sprite]; the loop state is the set
    [written_files] and the members of the open archive.  The message
    printed for a duplicate is not modelled. *)
Definition assemble_costume (temp_dir sprite3_filename : str)
    (st : gset str * list zip_entry) (costume : json)
    : M (gset str * list zip_entry) :=
  let '(written_files, archive) := st in
  md5ext ← lift (py_getitem costume (lit "md5ext"));
  match md5ext with
  | JStr md5ext =>
      if decide (md5ext ∉ written_files) then
        archive ← zip_write sprite3_filename archive
                    (path_join temp_dir md5ext) md5ext ZIP_STORED;
        mret ({[ md5ext ]} ∪ written_files, archive)
      else mret (written_files, archive)
  | _ => raise TypeError
  end.

Definition assemble_sprite (temp_dir : str) (sprite : json)
    (sprite3_filename : str) : M unit :=
  archive ← zip_create sprite3_filename;
  costumes ← lift (py_getitem sprite (lit "costumes"));
  costumes ← lift (py_iter costumes);
  st ← for_fold (assemble_costume temp_dir sprite3_filename) costumes (∅, archive);
  _ ← zip_writestr sprite3_filename st.2 (lit "sprite.json") (json_dumps sprite);
  mret ().
End library.

(** ** What [main] adds (both scripts) *)

(** The path [path] lies in the directory [dir]: it starts with
    [os.path.join(dir, '')]. *)
Definition under (dir path : str) : bool := starts_with (path_join dir []) path.

(** [shutil.rmtree(dir)], as the exit of [tempfile.TemporaryDirectory]
    does it: every file in the directory is gone. *)
Definition remove_tree (dir : str) (w : world) : world :=
  {| fs := filter (λ kv, under dir kv.1 = false) (fs w);
     processes := processes w |}.

(** [with tempfile.TemporaryDirectory(...) as tmp: body]; [tmp] is the
    directory created, and it is removed when the block is left, also by an
    exception. *)
Definition with_temporary_directory {A} (tmp : str) (body : M A) : M A := λ w,
  let '(r, w') := body w in (r, remove_tree tmp w').

(** [sprite['costumes'].append(costume)].  A value without [append] raises
    in Python an [AttributeError], for which [TypeError] stands here; in
    [main] the value is the list that [load_sprite_code] has just set. *)
Definition append_costume (sprite costume : json) : result json :=
  costumes ← py_getitem sprite (lit "costumes");
  match costumes with
  | JArr items => py_setitem sprite (lit "costumes") (JArr (items ++ [costume]))
  | _ => Raise TypeError
  end.

Fixpoint append_costumes (sprite : json) (costumes : list json) : result json :=
  match costumes with
  | [] => Ok sprite
  | costume :: costumes' =>
      sprite ← append_costume sprite costume; append_costumes sprite costumes'
  end.

(** [for costume in gen: sprite['costumes'].append(costume)]: the items that
    the generator yields are appended; an exception of the generator leaves
    the loop.  An [append] that fails would leave the loop at the first item,
    with the generator suspended there; [Gen] has no world for that, and the
    case is given the world of the whole run.  In [main] it does not arise:
    the manifest of [load_sprite_code] has a list as [costumes]. *)
Definition collect_costumes (gen : Gen) (sprite : json) : M json := λ w,
  let '(costumes, r, w') := gen w in
  match append_costumes sprite costumes, r with
  | Ok sprite, None => (Ok sprite, w')
  | Ok _, Some e => (Raise e, w')
  | Raise e, _ => (Raise e, w')
  end.

(** The configured character set (the same in both scripts): lower-case
    letters, upper-case letters, digits, then the special characters, among
    them U+20AC, U+00A3, the backslash, the two quotes and the space. *)
Definition configured_characters : str :=
  lit "abcdefghijklmnopqrstuvwxyz" ++
  lit "ABCDEFGHIJKLMNOPQRSTUVWXYZ" ++
  lit "0123456789" ++
  lit "`~!@#$" ++ [0x20AC; 0xA3] ++ lit "%^&*()-_=+[{]}\|;:'" ++ [34] ++
  lit "<,>.?/ ".

(** ** The vector script: [src/create_vector_costumes.py] *)

Module Vector.

Record font := { font_id : str; fontname : str }.

(** The module's global variables.  [temp_svg] and [temp_dir] are
    reassigned by [main]; the others keep their initial value. *)
Record globals := {
  fonts : list font;
  characters : str;
  temp_svg : str;
  temp_dir : str;
  width : N;
  height : N
}.

Definition module_globals : globals := {|
  fonts := [ {| font_id := lit "handwriting"; fontname := lit "Handwriting" |};
             {| font_id := lit "sans-serif"; fontname := lit "Sans Serif" |};
             {| font_id := lit "serif"; fontname := lit "Serif" |};
             {| font_id := lit "curly"; fontname := lit "Curly" |};
             {| font_id := lit "marker"; fontname := lit "Marker" |};
             {| font_id := lit "pixel"; fontname := lit "Pixel" |} ];
  characters := configured_characters;
  temp_svg := lit "tmp.svg";
  temp_dir := lit "/tmp/";
  width := 40;
  height := 50
|}.

Definition replacements : list (str * str) :=
  [ (lit "&", lit "&amp;"); (lit "<", lit "&lt;"); (lit ">", lit "&gt;") ].

(** A literal of the template: an apostrophe stands for the double quote
    of the source. *)
Definition q (s : string) : str := str_replace 39 34 (lit s).

Definition indent (n : nat) : str := 10 :: repeat 32 n.

(** [repr] of the float [n / 4]; [width/2] and [height*0.75] are such
    quarters, exactly representable, and printed without exponent below
    10^16. *)
Definition repr_quarters (n : N) : str :=
  decimal (n / 4) ++ lit "." ++
  match n mod 4 with
  | 0 => lit "0"
  | 1 => lit "25"
  | 2 => lit "5"
  | _ => lit "75"
  end.

Definition svg_letter (g : globals) (character font : str) : str :=
  let character :=
    match dict_get character replacements with
    | Some entity => entity
    | None => character
    end in
  let w := decimal (width g) in
  let h := decimal (height g) in
  indent 8 ++ q "<svg version='1.1'" ++
  indent 12 ++ q "xmlns='http://www.w3.org/2000/svg'" ++
  indent 12 ++ q "xmlns:xlink='http://www.w3.org/1999/xlink' width='" ++ w ++
    q "' height='" ++ h ++ q "' viewBox='0,0," ++ w ++ lit "," ++ h ++ q "'>" ++
  indent 12 ++ q "<text x='" ++ repr_quarters (2 * width g) ++
    q "' y='" ++ repr_quarters (3 * height g) ++
    q "' font-size='40' xml:space='preserve' fill='#000000' fill-rule='nonzero'" ++
  indent 16 ++ q "stroke='none' stroke-width='1' stroke-linecap='butt' stroke-linejoin='miter' stroke-miterlimit='10' stroke-dasharray='' stroke-dashoffset='0'" ++
  indent 16 ++ q "font-family='" ++ font ++
    q "' font-weight='normal' text-anchor='middle' style='mix-blend-mode: normal'>" ++
    character ++ lit "</text>" ++
  indent 8 ++ lit "</svg>" ++
  indent 8.

Section generate.
Context `{Platform}.

Definition generate_glyph (g : globals) (font name character : str) : M json :=
  _ ← write_text (temp_svg g) (svg_letter g character font);
  md5hash ← md5sum_file (temp_svg g);
  _ ← shutil_copy (temp_svg g) (path_join (temp_dir g) (md5hash ++ lit ".svg"));
  mret (JObj [ (lit "assetId", JStr md5hash);
               (lit "name", JStr name);
               (lit "md5ext", JStr (md5hash ++ lit ".svg"));
               (lit "dataFormat", JStr (lit "svg"));
               (lit "rotationCenterX", JInt (Z.of_N (width g / 2)));
               (lit "rotationCenterY", JInt (Z.of_N (height g / 2))) ]).

(** The body of the outer loop: the glyphs of one font.  The messages
    printed are not modelled. *)
Definition generate_font (g : globals) (font : font) : Gen :=
  gen_seq
    (gen_yield (generate_glyph g (fontname font)
                  (font_id font ++ lit "-replaceable") [0xFFFD]))
    (gen_for (λ character,
                gen_yield (name ← lift (name_for (font_id font) [character]);
                           generate_glyph g (fontname font) name [character]))
             (characters g)).

Definition generate_glyphs (g : globals) : Gen :=
  gen_for (generate_font g) (fonts g).

(** [main], with the directory [tmp] that [TemporaryDirectory] creates; the
    messages printed are not modelled. *)
Definition main (g : globals) (tmp : str) : M unit :=
  with_temporary_directory tmp
    (let g := {| fonts := fonts g; characters := characters g;
                 temp_svg := path_join tmp (lit "tmp.png");
                 temp_dir := tmp;
                 width := width g; height := height g |} in
     sprite ← load_sprite_code (lit "../input/Printer.sprite3");
     sprite ← collect_costumes (generate_glyphs g) sprite;
     assemble_sprite (temp_dir g) sprite (lit "../output/Printer.sprite3")).
End generate.

End Vector.

(** ** The raster script: [archived/raster_costumes/create_raster_costumes.py] *)

Module Raster.

Record font := { font_id : str; filename : str }.

Record globals := {
  fonts : list font;
  width : N;
  height : N;
  characters : str;
  replacement_font : str;
  replacement_character : str;
  label_specials : list (str * str);
  temp_png : str;
  temp_dir : str
}.

Definition module_globals : globals := {|
  fonts := [ {| font_id := lit "sans";
                filename := lit "/usr/share/fonts/truetype/dejavu/DejaVuSans.ttf" |};
             {| font_id := lit "mono";
                filename := lit "/usr/share/fonts/truetype/ttf-bitstream-vera/VeraMono.ttf" |};
             {| font_id := lit "decor";
                filename := lit "/usr/share/fonts/truetype/aenigma/hillock.ttf" |};
             {| font_id := lit "scrawl";
                filename := lit "/usr/share/fonts/truetype/aenigma/aescrawl.ttf" |} ];
  width := 60 * 4;
  height := 80 * 4;
  characters := configured_characters;
  replacement_font := lit "/usr/share/fonts/truetype/dejavu/DejaVuSans.ttf";
  replacement_character := [0xFFFD];
  label_specials := [ (lit " ", lit "label:\ "); (lit "\", lit "label:\\") ];
  temp_png := lit "tmp.png";
  temp_dir := lit "/tmp/"
|}.

(** The command line that [generate_glyph] builds. *)
Definition convert_argv (g : globals) (font label : str) : list str :=
  [ lit "convert"; lit "-font"; font;
    lit "-size"; decimal (width g) ++ lit "x" ++ decimal (height g);
    lit "-background"; lit "none"; lit "-gravity"; lit "center";
    label; temp_png g ].

(** [label_specials.get(character, f'label:{character}')]. *)
Definition label_for (g : globals) (character : str) : str :=
  match dict_get character (label_specials g) with
  | Some label => label
  | None => lit "label:" ++ character
  end.

Section generate.
Context `{Platform}.

Definition generate_glyph (g : globals) (font name label : str) : M json :=
  let argv := [ lit "convert";
                lit "-font"; font;
                lit "-size"; decimal (width g) ++ lit "x" ++ decimal (height g);
                lit "-background"; lit "none";
                lit "-gravity"; lit "center";
                label;
                temp_png g ] in
  _ ← check_call argv;
  md5hash ← md5sum_file (temp_png g);
  _ ← shutil_copy (temp_png g) (path_join (temp_dir g) (md5hash ++ lit ".png"));
  mret (JObj [ (lit "assetId", JStr md5hash);
               (lit "name", JStr name);
               (lit "bitmapResolution", JInt 2);
               (lit "md5ext", JStr (md5hash ++ lit ".png"));
               (lit "dataFormat", JStr (lit "png"));
               (lit "rotationCenterX", JInt (Z.of_N (width g / 2)));
               (lit "rotationCenterY", JInt (Z.of_N (height g / 2))) ]).

Definition generate_font (g : globals) (font : font) : Gen :=
  gen_seq
    (gen_yield (generate_glyph g (replacement_font g)
                  (font_id font ++ lit "-replaceable")
                  (lit "label:" ++ replacement_character g)))
    (gen_for (λ character,
                gen_yield (name ← lift (name_for (font_id font) [character]);
                           generate_glyph g (filename font) name
                             (label_for g [character])))
             (characters g)).

Definition generate_glyphs (g : globals) : Gen :=
  gen_for (generate_font g) (fonts g).

Definition main (g : globals) (tmp : str) : M unit :=
  with_temporary_directory tmp
    (let g := {| fonts := fonts g; width := width g; height := height g;
                 characters := characters g;
                 replacement_font := replacement_font g;
                 replacement_character := replacement_character g;
                 label_specials := label_specials g;
                 temp_png := path_join tmp (lit "tmp.png");
                 temp_dir := tmp |} in
     sprite ← load_sprite_code (lit "../input/Printer.sprite3");
     sprite ← collect_costumes (generate_glyphs g) sprite;
     assemble_sprite (temp_dir g) sprite (lit "../output/Printer.sprite3")).
End generate.

End Raster.

(** ** Vocabulary of the statements on the glyph stream *)

(** What a descriptor of the stream stands for: the fallback glyph of a
    font, or the glyph of a character in a font. *)
Inductive slot (font : Type) :=
  | Fallback (f : font)
  | Glyph (f : font) (c : N).
Arguments Fallback {font} f.
Arguments Glyph {font} f c.

(** Fonts in their order; for each font its fallback, then the characters
    in their order. *)
Definition stream_slots {font} (fonts : list font) (characters : str)
    : list (slot font) :=
  flat_map (λ f, Fallback f :: map (Glyph f) characters) fonts.

(** The generator [gen] yields, in order, items related by [R] to the
    slots [slots]: to all of them when it returns, to the first ones when it
    raises. *)
Definition yields_in_order {S} (R : json → S → Prop) (gen : Gen)
    (slots : list S) : Prop :=
  ∀ w ds r w',
    gen w = (ds, r, w') →
    ∃ done rest,
      slots = done ++ rest ∧ Forall2 R ds done ∧ (r = None → rest = []).

(** When the generator [gen] returns, the processes it has started are
    those of the command lines [cmds]. *)
Definition starts_processes (gen : Gen) (cmds : list (list str)) : Prop :=
  ∀ w ds w',
    gen w = (ds, None, w') → processes w' = processes w ++ cmds.

(** The generator [gen] returns (it raises nothing), whatever the world. *)
Definition returns (gen : Gen) : Prop :=
  ∀ w, ∃ ds w', gen w = (ds, None, w').

(** The property [I] of a descriptor in a world holds of every descriptor
    that [gen] yields, in the world that [gen] leaves, and [gen] keeps it for
    the descriptors of which it held before. *)
Definition establishes (I : world → json → Prop) (gen : Gen) : Prop :=
  ∀ w ds r w',
    gen w = (ds, r, w') →
    (∀ d, I w d → I w' d) ∧ Forall (I w') ds.

Section descriptors.
Context `{Platform}.

(** The descriptor [d] names, as [md5ext], a staged file of the world [w]
    whose bytes have the digest that [d] has as [assetId]. *)
Definition staged_asset (temp_dir ext : str) (w : world) (d : json) : Prop :=
  ∃ content,
    py_getitem d (lit "assetId") = Ok (JStr (MD5.hexdigest content)) ∧
    py_getitem d (lit "md5ext") = Ok (JStr (MD5.hexdigest content ++ ext)) ∧
    fs w !! path_join temp_dir (MD5.hexdigest content ++ ext)
      = Some (Regular content).

(** The temporary file is none of the staged files. *)
Definition temp_apart (temp temp_dir ext : str) : Prop :=
  ∀ content : bytes,
    temp ≠ path_join temp_dir (MD5.hexdigest content ++ ext).

(** The glyph of a slot can be named and rendered. *)
Definition vector_slot_renders (g : Vector.globals) (s : slot Vector.font)
    : Prop :=
  match s with
  | Fallback f =>
      ∃ content,
        utf8_encode (Vector.svg_letter g [0xFFFD] (Vector.fontname f)) = Ok content
  | Glyph f c =>
      (∃ name, name_for (Vector.font_id f) [c] = Ok name) ∧
      ∃ content,
        utf8_encode (Vector.svg_letter g [c] (Vector.fontname f)) = Ok content
  end.

(** The vector descriptor of a slot: its name, and as [assetId] the digest
    of the document of the slot's character in the slot's font family. *)
Definition vector_descriptor (g : Vector.globals) (d : json)
    (s : slot Vector.font) : Prop :=
  match s with
  | Fallback f =>
      ∃ content,
        utf8_encode (Vector.svg_letter g [0xFFFD] (Vector.fontname f))
          = Ok content ∧
        py_getitem d (lit "name")
          = Ok (JStr (Vector.font_id f ++ lit "-replaceable")) ∧
        py_getitem d (lit "assetId") = Ok (JStr (MD5.hexdigest content))
  | Glyph f c =>
      ∃ name content,
        name_for (Vector.font_id f) [c] = Ok name ∧
        utf8_encode (Vector.svg_letter g [c] (Vector.fontname f))
          = Ok content ∧
        py_getitem d (lit "name") = Ok (JStr name) ∧
        py_getitem d (lit "assetId") = Ok (JStr (MD5.hexdigest content))
  end.

(** The command line of a slot in raster mode. *)
Definition raster_command (g : Raster.globals) (s : slot Raster.font)
    : list str :=
  match s with
  | Fallback f =>
      Raster.convert_argv g (Raster.replacement_font g)
        (lit "label:" ++ Raster.replacement_character g)
  | Glyph f c =>
      Raster.convert_argv g (Raster.filename f) (Raster.label_for g [c])
  end.

Definition raster_slot_renders (g : Raster.globals) (s : slot Raster.font)
    : Prop :=
  match s with
  | Fallback f => True
  | Glyph f c => ∃ name, name_for (Raster.font_id f) [c] = Ok name
  end ∧
  ∃ png, convert (raster_command g s) = Some png.

(** The raster descriptor of a slot: its name, and as [assetId] the digest
    of the image that the slot's command line produces. *)
Definition raster_descriptor (g : Raster.globals) (d : json)
    (s : slot Raster.font) : Prop :=
  ∃ name png,
    match s with
    | Fallback f => name = Raster.font_id f ++ lit "-replaceable"
    | Glyph f c => name_for (Raster.font_id f) [c] = Ok name
    end ∧
    convert (raster_command g s) = Some png ∧
    py_getitem d (lit "name") = Ok (JStr name) ∧
    py_getitem d (lit "assetId") = Ok (JStr (MD5.hexdigest png)).
(** The name of the descriptor of a slot. *)
Definition slot_named {font} (font_id : font → str) (d : json)
    (s : slot font) : Prop :=
  match s with
  | Fallback f =>
      py_getitem d (lit "name") = Ok (JStr (font_id f ++ lit "-replaceable"))
  | Glyph f c =>
      ∃ name,
        name_for (font_id f) [c] = Ok name ∧
        py_getitem d (lit "name") = Ok (JStr name)
  end.
End descriptors.

(** Small globals to run the generators on: two fonts, four characters. *)
Definition vector_sample_globals : Vector.globals := {|
  Vector.fonts := [ {| Vector.font_id := lit "serif"; Vector.fontname := lit "Serif" |};
                    {| Vector.font_id := lit "pixel"; Vector.fontname := lit "Pixel" |} ];
  Vector.characters := lit "aA/ ";
  Vector.temp_svg := lit "/tmp/printer-costumes-x/tmp.png";
  Vector.temp_dir := lit "/tmp/printer-costumes-x";
  Vector.width := 40;
  Vector.height := 50
|}.

Definition raster_sample_globals : Raster.globals := {|
  Raster.fonts := [ {| Raster.font_id := lit "sans";
                       Raster.filename := lit "/usr/share/fonts/truetype/dejavu/DejaVuSans.ttf" |};
                    {| Raster.font_id := lit "decor";
                       Raster.filename := lit "/usr/share/fonts/truetype/aenigma/hillock.ttf" |} ];
  Raster.width := 60 * 4;
  Raster.height := 80 * 4;
  Raster.characters := lit "aA\ ";
  Raster.replacement_font := lit "/usr/share/fonts/truetype/dejavu/DejaVuSans.ttf";
  Raster.replacement_character := [0xFFFD];
  Raster.label_specials := [ (lit " ", lit "label:\ "); (lit "\", lit "label:\\") ];
  Raster.temp_png := lit "/tmp/printer-costumes-x/tmp.png";
  Raster.temp_dir := lit "/tmp/printer-costumes-x"
|}.

(** ** Vocabulary of the statements on [assemble_sprite] *)

(** The descriptor [d] has the string [m] as its [md5ext]. *)
Definition has_md5ext (d : json) (m : str) : Prop :=
  py_getitem d (lit "md5ext") = Ok (JStr m).

(** The names of [ms] that are not in [written], each once, at its first
    occurrence. *)
Fixpoint new_names (written : gset str) (ms : list str) : list str :=
  match ms with
  | [] => []
  | m :: ms' =>
      if decide (m ∈ written) then new_names written ms'
      else m :: new_names ({[ m ]} ∪ written) ms'
  end.

(** The set [written_files] after the names [ms]. *)
Fixpoint written_after (written : gset str) (ms : list str) : gset str :=
  match ms with
  | [] => written
  | m :: ms' =>
      if decide (m ∈ written) then written_after written ms'
      else written_after ({[ m ]} ∪ written) ms'
  end.

(** The archive member that stores the staged file [m] of the world [w]. *)
Definition staged_member `{Platform} (w : world) (temp_dir m : str) : zip_entry :=
  {| arcname := m;
     data := match fs w !! path_join temp_dir m with
             | Some f => file_bytes f
             | None => []
             end;
     compress_type := ZIP_STORED |}.

Definition manifest_member `{Platform} (sprite : json) : zip_entry :=
  {| arcname := lit "sprite.json"; data := json_dumps sprite;
     compress_type := ZIP_STORED |}.

(** The fields of a dict whose key is none of [keys], in their order. *)
Definition fields_except (keys : list str) (d : dict) : dict :=
  filter (λ kv, kv.1 ∉ keys) d.

(** ** Vocabulary of the further properties *)

(** The files other than [out] and the processes are the same in both
    worlds. *)
Definition same_but (out : str) (w w' : world) : Prop :=
  (∀ path, path ≠ out → fs w' !! path = fs w !! path) ∧
  processes w' = processes w.

Definition all_stored (members : list zip_entry) : Prop :=
  Forall (λ e, compress_type e = ZIP_STORED) members.

(** The raster descriptor [d] is that of the image of the slot [s]: its
    [assetId] is the digest of the image, its [md5ext] the name of the
    image's file. *)
Definition raster_image `{Platform} (g : Raster.globals) (d : json)
    (s : slot Raster.font) : Prop :=
  ∃ png,
    convert (raster_command g s) = Some png ∧
    py_getitem d (lit "assetId") = Ok (JStr (MD5.hexdigest png)) ∧
    py_getitem d (lit "md5ext") = Ok (JStr (MD5.hexdigest png ++ lit ".png")).

(** The font ids [ids] keep the names of their fonts apart: they are
    distinct lower-case ASCII tokens, none of which is another of them
    followed by a hyphen and more (as [sans-serif] would be beside
    [sans]). *)
Definition font_ids_apart (ids : list str) : Prop :=
  NoDup ids ∧
  Forall (λ a, lowercase_ascii a = true ∧
               Forall (λ b, starts_with (a ++ [45]) b = false) ids) ids.

(** The font of a slot, and the name that the stream gives its glyph. *)
Definition slot_font {font} (s : slot font) : font :=
  match s with
  | Fallback f => f
  | Glyph f _ => f
  end.

Definition slot_name `{Platform} {font} (font_id : font → str) (s : slot font)
    : result str :=
  match s with
  | Fallback f => Ok (font_id f ++ lit "-replaceable")
  | Glyph f c => name_for (font_id f) [c]
  end.

(** The descriptor [d] has the name [n]. *)
Definition has_name (d : json) (n : str) : Prop :=
  py_getitem d (lit "name") = Ok (JStr n).

(** The members are stored uncompressed, and each is named by the digest
    of its bytes, with the extension [ext]. *)
Definition content_named (ext : str) (members : list zip_entry) : Prop :=
  Forall (λ e, arcname e = MD5.hexdigest (data e) ++ ext ∧
               compress_type e = ZIP_STORED) members.

(** A step of the world that changes no file outside the directory [dir]. *)
Definition outside_kept (dir : str) (w w' : world) : Prop :=
  ∀ path, under dir path = false → fs w' !! path = fs w !! path.

(** Every run of the generator [gen] is a step [R] of the world. *)
Definition runs_within (R : world → world → Prop) (gen : Gen) : Prop :=
  ∀ w ds r w', gen w = (ds, r, w') → R w w'.

(** The globals as [main] sets them for its run in the directory [tmp]. *)
Definition vector_main_globals (g : Vector.globals) (tmp : str)
    : Vector.globals := {|
  Vector.fonts := Vector.fonts g;
  Vector.characters := Vector.characters g;
  Vector.temp_svg := path_join tmp (lit "tmp.png");
  Vector.temp_dir := tmp;
  Vector.width := Vector.width g;
  Vector.height := Vector.height g
|}.

Definition raster_main_globals (g : Raster.globals) (tmp : str)
    : Raster.globals := {|
  Raster.fonts := Raster.fonts g;
  Raster.width := Raster.width g;
  Raster.height := Raster.height g;
  Raster.characters := Raster.characters g;
  Raster.replacement_font := Raster.replacement_font g;
  Raster.replacement_character := Raster.replacement_character g;
  Raster.label_specials := Raster.label_specials g;
  Raster.temp_png := path_join tmp (lit "tmp.png");
  Raster.temp_dir := tmp
|}.

(** ** A sample platform

    A platform to run the model on: its [unicodedata.name] knows the special
    characters of the configured character set and U+FFFD, its [lower] is
    the ASCII one, its JSON reader knows the documents of [sample_documents]
    as its writer prints them, and its renderer is a mock whose image is the
    command line.  It instantiates the
    premises of the theorems below. *)

Definition special_names : list (N * str) :=
  [ (96, lit "GRAVE ACCENT"); (126, lit "TILDE"); (33, lit "EXCLAMATION MARK");
    (64, lit "COMMERCIAL AT"); (35, lit "NUMBER SIGN"); (36, lit "DOLLAR SIGN");
    (8364, lit "EURO SIGN"); (163, lit "POUND SIGN"); (37, lit "PERCENT SIGN");
    (94, lit "CIRCUMFLEX ACCENT"); (38, lit "AMPERSAND"); (42, lit "ASTERISK");
    (40, lit "LEFT PARENTHESIS"); (41, lit "RIGHT PARENTHESIS");
    (45, lit "HYPHEN-MINUS"); (95, lit "LOW LINE"); (61, lit "EQUALS SIGN");
    (43, lit "PLUS SIGN"); (91, lit "LEFT SQUARE BRACKET");
    (123, lit "LEFT CURLY BRACKET"); (93, lit "RIGHT SQUARE BRACKET");
    (125, lit "RIGHT CURLY BRACKET"); (92, lit "REVERSE SOLIDUS");
    (124, lit "VERTICAL LINE"); (59, lit "SEMICOLON"); (58, lit "COLON");
    (39, lit "APOSTROPHE"); (34, lit "QUOTATION MARK");
    (60, lit "LESS-THAN SIGN"); (44, lit "COMMA");
    (62, lit "GREATER-THAN SIGN"); (46, lit "FULL STOP");
    (63, lit "QUESTION MARK"); (47, lit "SOLIDUS"); (32, lit "SPACE");
    (65533, lit "REPLACEMENT CHARACTER") ].

Fixpoint assoc {A} (k : N) (l : list (N * A)) : option A :=
  match l with
  | [] => None
  | (k', v) :: l' => if k =? k' then Some v else assoc k l'
  end.

Definition latin1_bytes (s : str) : bytes :=
  map (λ c, byte_of_N (c mod 256)) s.

Fixpoint bytes_eqb (a b : bytes) : bool :=
  match a, b with
  | [], [] => true
  | x :: a', y :: b' => Byte.eqb x y && bytes_eqb a' b'
  | _, _ => false
  end.

Definition sample_quote (s : str) : str :=
  [34] ++ flat_map (λ c, if (c =? 34) || (c =? 92) then [92; c] else [c]) s ++ [34].

(** A printer of JSON documents in the layout of [json.dumps]; a float is
    printed as [NaN]. *)
Fixpoint sample_dumps (v : json) : str :=
  match v with
  | JNull => lit "null"
  | JBool true => lit "true"
  | JBool false => lit "false"
  | JInt n => (if (n <? 0)%Z then lit "-" else []) ++ decimal (Z.abs_N n)
  | JFloat _ => lit "NaN"
  | JStr s => sample_quote s
  | JArr items =>
      lit "[" ++
      (fix go (l : list json) : str :=
         match l with
         | [] => []
         | x :: l' =>
             match l' with
             | [] => sample_dumps x
             | _ => sample_dumps x ++ lit ", " ++ go l'
             end
         end) items ++
      lit "]"
  | JObj fields =>
      lit "{" ++
      (fix go (l : list (str * json)) : str :=
         match l with
         | [] => []
         | (k, x) :: l' =>
             match l' with
             | [] => sample_quote k ++ lit ": " ++ sample_dumps x
             | _ => sample_quote k ++ lit ": " ++ sample_dumps x ++ lit ", " ++ go l'
             end
         end) fields ++
      lit "}"
  end.

(** A manifest as the scripts find it: a costume, a sound, a current costume
    that is not the first, and fields of the sprite's behaviour. *)
Definition sample_manifest : dict :=
  [ (lit "isStage", JBool false);
    (lit "name", JStr (lit "Printer"));
    (lit "current_costume", JInt 3);
    (lit "blocks", JObj [ (lit "a1", JObj [ (lit "opcode", JStr (lit "pen_stamp")) ]) ]);
    (lit "costumes", JArr [ JObj [ (lit "name", JStr (lit "costume1")) ] ]);
    (lit "sounds", JArr [ JObj [ (lit "name", JStr (lit "pop")) ] ]);
    (lit "volume", JInt 100) ].

Definition sample_documents : list json := [ JObj sample_manifest; JArr []; JNull ].

Definition sample_platform : Platform := {|
  unicodedata_name c := assoc c special_names;
  str_lower := map ascii_lower;
  json_loads raw :=
    find (λ v, bytes_eqb (latin1_bytes (sample_dumps v)) raw) sample_documents;
  json_error _ := JSONDecodeError;
  json_dumps v := latin1_bytes (sample_dumps v);
  zip_bytes _ := [];
  convert argv := Some (latin1_bytes (concat argv));
  convert_failure _ := NotStarted FileNotFoundError;
  create_error _ := None
|}.

Definition empty_world : world := {| fs := ∅; processes := [] |}.

(** Two staged files and a sprite whose three costumes refer to them, two
    of them to the same file (as the space of two fonts would). *)
Definition sample_costume (name md5ext : string) : json :=
  JObj [ (lit "name", JStr (lit name)); (lit "md5ext", JStr (lit md5ext)) ].

Definition sample_staging : world := {|
  fs := {[ lit "/tmp/aa.svg" := Regular (ascii_bytes "<svg>space</svg>");
           lit "/tmp/bb.svg" := Regular (ascii_bytes "<svg>a</svg>") ]};
  processes := []
|}.

Definition sample_sprite : dict :=
  [ (lit "name", JStr (lit "Printer"));
    (lit "costumes", JArr [ sample_costume "sans-special-space" "aa.svg";
                            sample_costume "sans-a" "bb.svg";
                            sample_costume "mono-special-space" "aa.svg" ]);
    (lit "current_costume", JInt 0);
    (lit "sounds", JArr []) ].

(** The same with a third descriptor whose file was never staged. *)
Definition sample_sprite_missing : dict :=
  [ (lit "name", JStr (lit "Printer"));
    (lit "costumes", JArr [ sample_costume "sans-special-space" "aa.svg";
                            sample_costume "sans-b" "cc.svg";
                            sample_costume "sans-a" "bb.svg" ]);
    (lit "current_costume", JInt 0);
    (lit "sounds", JArr []) ].

(** A world whose input archive holds [sample_manifest]. *)
Definition sample_input : world := {|
  fs := {[ lit "../input/Printer.sprite3" :=
             ZipArchive [ {| arcname := lit "sprite.json";
                             data := latin1_bytes (sample_dumps (JObj sample_manifest));
                             compress_type := ZIP_DEFLATED |} ] ]};
  processes := []
|}.

(** The sample platform where no file can be created at an output path:
    the directory is missing. *)
Definition unwritable_platform : Platform := {|
  unicodedata_name c := assoc c special_names;
  str_lower := map ascii_lower;
  json_loads raw :=
    find (λ v, bytes_eqb (latin1_bytes (sample_dumps v)) raw) sample_documents;
  json_error _ := JSONDecodeError;
  json_dumps v := latin1_bytes (sample_dumps v);
  zip_bytes _ := [];
  convert argv := Some (latin1_bytes (concat argv));
  convert_failure _ := NotStarted FileNotFoundError;
  create_error _ := Some FileNotFoundError
|}.

(** A manifest as Scratch writes it, without spaces after commas and
    colons, and the document it parses to; its [costumes] and [sounds] are
    empty and its [current_costume] is 0. *)
Definition compact_text : str :=
  Vector.q "{'isStage':false,'name':'Printer','costumes':[],'current_costume':0,'sounds':[],'volume':100}".

Definition compact_manifest : dict :=
  [ (lit "isStage", JBool false);
    (lit "name", JStr (lit "Printer"));
    (lit "costumes", JArr []);
    (lit "current_costume", JInt 0);
    (lit "sounds", JArr []);
    (lit "volume", JInt 100) ].

(** The sample platform with a JSON reader that reads [compact_text] too. *)
Definition compact_platform : Platform := {|
  unicodedata_name c := assoc c special_names;
  str_lower := map ascii_lower;
  json_loads raw :=
    if bytes_eqb (latin1_bytes compact_text) raw then Some (JObj compact_manifest)
    else find (λ v, bytes_eqb (latin1_bytes (sample_dumps v)) raw) sample_documents;
  json_error _ := JSONDecodeError;
  json_dumps v := latin1_bytes (sample_dumps v);
  zip_bytes _ := [];
  convert argv := Some (latin1_bytes (concat argv));
  convert_failure _ := NotStarted FileNotFoundError;
  create_error _ := None
|}.

(** A world whose input archive holds [compact_text]. *)
Definition compact_input : world := {|
  fs := {[ lit "../input/Printer.sprite3" :=
             ZipArchive [ {| arcname := lit "sprite.json";
                             data := latin1_bytes compact_text;
                             compress_type := ZIP_DEFLATED |} ] ]};
  processes := []
|}.

(** The bytes [needle] occur in the bytes [hay]. *)
Definition bytes_in (needle hay : bytes) : bool :=
  str_in (map Byte.to_N needle) (map Byte.to_N hay).

(** How a run of [main] in the directory [tmp] from the world [w] ends,
    with result [r] in the world [w'], the stream being [gen] and the staged
    files having the extension [ext]: with the error of [load_sprite_code],
    the generator not having run (the world is as before, but for the
    directory removed); or with the error of the generator; or, the
    generator having returned, with the error of [ZipFile] when no file can
    be created at the output path; or else with the archive of the loaded
    manifest and the descriptors yielded at the output path.  In the first
    three cases the output path is as before. *)
Definition main_outcome `{Platform} (gen : Gen) (tmp ext : str)
    (w : world) (r : result ()) (w' : world) : Prop :=
  (∀ e, (load_sprite_code (lit "../input/Printer.sprite3") w).1 = Raise e →
     r = Raise e
     ∧ w' = remove_tree tmp w
     ∧ fs w' !! lit "../output/Printer.sprite3"
       = fs w !! lit "../output/Printer.sprite3")
  ∧ (∀ sprite ds rg w1,
     (load_sprite_code (lit "../input/Printer.sprite3") w).1 = Ok sprite →
     gen w = (ds, rg, w1) →
     processes w' = processes w1
     ∧ (∀ e, rg = Some e →
          r = Raise e
          ∧ fs w' !! lit "../output/Printer.sprite3"
            = fs w !! lit "../output/Printer.sprite3")
     ∧ (∀ e, rg = None →
          create_error (lit "../output/Printer.sprite3") = Some e →
          r = Raise e
          ∧ fs w' !! lit "../output/Printer.sprite3"
            = fs w !! lit "../output/Printer.sprite3")
     ∧ (rg = None →
          create_error (lit "../output/Printer.sprite3") = None →
          r = Ok ()
          ∧ ∃ d1 binaries,
              sprite = JObj d1
              ∧ content_named ext binaries
              ∧ (length binaries ≤ length ds)%nat
              ∧ Forall (λ d, ∃ e, e ∈ binaries ∧ has_md5ext d (arcname e)) ds
              ∧ fs w' !! lit "../output/Printer.sprite3"
                = Some (ZipArchive
                          (binaries ++
                           [manifest_member
                              (JObj (dict_set (lit "costumes") (JArr ds) d1))])))).

(** The sample platform with a JSON reader that knows the documents
    [documents]. *)
Definition reading_platform (documents : list json) : Platform := {|
  unicodedata_name c := assoc c special_names;
  str_lower := map ascii_lower;
  json_loads raw :=
    find (λ v, bytes_eqb (latin1_bytes (sample_dumps v)) raw) documents;
  json_error _ := JSONDecodeError;
  json_dumps v := latin1_bytes (sample_dumps v);
  zip_bytes _ := [];
  convert argv := Some (latin1_bytes (concat argv));
  convert_failure _ := NotStarted FileNotFoundError;
  create_error _ := None
|}.

(** The manifest loaded from [sample_input], and the same with one
    descriptor appended. *)
Definition sample_loaded : dict :=
  dict_set (lit "sounds") (JArr [])
    (dict_set (lit "current_costume") (JInt 0)
       (dict_set (lit "costumes") (JArr []) sample_manifest)).

Definition sample_assembled : dict :=
  dict_set (lit "costumes") (JArr [sample_costume "sans-a" "bb.svg"])
    sample_loaded.

(** * Properties *)

(** ** Pairs and runs *)

Lemma triple_eta {A B C} (p : A * B * C) : p = (p.1.1, p.1.2, p.2).
Proof. destruct p as [[a b] c]. reflexivity. Defined.

Lemma run_eta {A} (run : result A * world) a : run.1 = Ok a → run = (Ok a, run.2).
Proof. destruct run as [r w]. cbn. intros ->. reflexivity. Defined.

(** ** Facts on strings *)

(** Decide the comparisons of code points that occur in a goal. *)
Ltac cases_on_ranges :=
  unfold is_upper, is_lower, is_digit in *;
  repeat match goal with
         | H : context [?a <=? ?b] |- _ => destruct (N.leb_spec a b)
         | |- context [?a <=? ?b] => destruct (N.leb_spec a b)
         | H : context [?a <? ?b] |- _ => destruct (N.ltb_spec a b)
         | |- context [?a <? ?b] => destruct (N.ltb_spec a b)
         end;
  cbn in *; try reflexivity; try discriminate; try lia.

Lemma str_in_singleton c hay : str_in [c] hay = existsb (N.eqb c) hay.
Proof.
  induction hay as [|b hay IH]; [reflexivity|].
  cbn [str_in starts_with existsb]. rewrite IH, andb_true_r. reflexivity.
Qed.

Lemma in_lower_digits c :
  str_in [c] (lit "abcdefghijklmnopqrstuvwxyz0123456789") = is_lower c || is_digit c.
Proof.
  rewrite str_in_singleton.
  destruct c as [|p]; [reflexivity|].
  do 7 (destruct p as [p|p|]; try reflexivity).
Qed.

Lemma in_uppers c :
  str_in [c] (lit "ABCDEFGHIJKLMNOPQRSTUVWXYZ") = is_upper c.
Proof.
  rewrite str_in_singleton.
  destruct c as [|p]; [reflexivity|].
  do 7 (destruct p as [p|p|]; try reflexivity).
Qed.

Lemma lowercase_ascii_app s t :
  lowercase_ascii (s ++ t) = lowercase_ascii s && lowercase_ascii t.
Proof. apply forallb_app. Qed.

Lemma lower_fixes_lowercase_ascii `{Platform} s :
  lower_ascii_law → lowercase_ascii s = true → str_lower s = s.
Proof.
  intros Hlaw Hs. unfold lowercase_ascii in Hs.
  rewrite forallb_forall in Hs.
  rewrite Hlaw.
  - rewrite <- (map_id s) at 2. apply map_ext_in. intros c Hc.
    specialize (Hs c Hc). apply andb_true_iff in Hs as [_ Hu].
    unfold ascii_lower. destruct (is_upper c); [discriminate|reflexivity].
  - apply List.Forall_forall. intros c Hc.
    specialize (Hs c Hc). apply andb_true_iff in Hs as [Hlt _].
    apply N.ltb_lt, Hlt.
Qed.

Lemma starts_with_app needle rest : starts_with needle (needle ++ rest) = true.
Proof.
  induction needle as [|c needle IH]; [reflexivity|].
  cbn. rewrite N.eqb_refl, IH. reflexivity.
Qed.

Lemma str_in_app needle before after :
  str_in needle (before ++ needle ++ after) = true.
Proof.
  induction before as [|c before IH].
  - cbn [app]. pose proof (starts_with_app needle after) as Hstart.
    destruct (needle ++ after); cbn [str_in]; rewrite Hstart; reflexivity.
  - cbn [app str_in]. rewrite IH. apply orb_true_r.
Qed.

Lemma str_in_app_r needle before hay :
  str_in needle hay = true → str_in needle (before ++ hay) = true.
Proof.
  intros Hin. induction before as [|c before IH]; [exact Hin|].
  cbn [app str_in]. rewrite IH. apply orb_true_r.
Qed.

Lemma str_in_here (a b c d e : str) :
  str_in (a ++ b ++ c) (a ++ b ++ (c ++ d) ++ e) = true.
Proof.
  replace (a ++ b ++ (c ++ d) ++ e) with ([] ++ (a ++ b ++ c) ++ (d ++ e))
    by (cbn [app]; rewrite <- !app_assoc; reflexivity).
  apply str_in_app.
Qed.

(** ** MD5 test vectors (RFC 1321, appendix A.5) *)

Example md5_empty :
  MD5.hexdigest [] = lit "d41d8cd98f00b204e9800998ecf8427e".
Proof. vm_compute. reflexivity. Qed.

Example md5_abc :
  MD5.hexdigest (ascii_bytes "abc") = lit "900150983cd24fb0d6963f7d28e17f72".
Proof. vm_compute. reflexivity. Qed.

Example md5_fox :
  MD5.hexdigest (ascii_bytes "The quick brown fox jumps over the lazy dog")
  = lit "9e107d9d372bb6826bd81d3542a419d6".
Proof. vm_compute. reflexivity. Qed.

Example md5_block_boundaries :
  MD5.hexdigest (repeat Byte.x78 64) = lit "c1bb4f81d892b2d57947682aeb252456" ∧
  MD5.hexdigest (repeat Byte.x78 56) = lit "668a72d5ba17f08e62dabcafad6db14b" ∧
  MD5.hexdigest (repeat Byte.x78 55) = lit "04364420e25c512fd958a70738aa8f72".
Proof. vm_compute. auto. Qed.

(** ** The digest *)

Lemma hex_byte_lower b : forallb is_lower_hex (hex_byte b) = true.
Proof. destruct b; reflexivity. Qed.

Lemma hex_of_bytes_length bs : length (hex_of_bytes bs) = (2 * length bs)%nat.
Proof.
  unfold hex_of_bytes. induction bs as [|b bs IH]; [reflexivity|].
  cbn [map concat]. rewrite length_app, IH. cbn [hex_byte length]. lia.
Qed.

Lemma hex_of_bytes_lower bs : forallb is_lower_hex (hex_of_bytes bs) = true.
Proof.
  unfold hex_of_bytes. induction bs as [|b bs IH]; [reflexivity|].
  cbn [map concat]. rewrite forallb_app, IH, hex_byte_lower. reflexivity.
Qed.

Lemma le_bytes_length k n : length (MD5.le_bytes k n) = k.
Proof. unfold MD5.le_bytes. rewrite length_map, length_seq. reflexivity. Qed.

Lemma md5_digest_length msg : length (MD5.digest msg) = 16%nat.
Proof.
  unfold MD5.digest. rewrite length_map, !length_app, !le_bytes_length.
  reflexivity.
Qed.

(** [hexdigest] returns 32 lower-case hexadecimal digits. *)
Lemma md5_hexdigest_format msg :
  length (MD5.hexdigest msg) = 32%nat ∧
  forallb is_lower_hex (MD5.hexdigest msg) = true.
Proof.
  unfold MD5.hexdigest. split.
  - rewrite hex_of_bytes_length, md5_digest_length. reflexivity.
  - apply hex_of_bytes_lower.
Qed.

(** ** The identifier deriver *)

Lemma forallb_ascii s :
  forallb (λ c, c <? 128) s = true → Forall (λ c, c < 128) s.
Proof.
  intros Hs. apply List.Forall_forall. intros c Hc.
  rewrite forallb_forall in Hs. apply N.ltb_lt, Hs, Hc.
Qed.

Section name_for_facts.
Context `{Platform}.

Lemma name_for_lower_digit font_id c :
  is_lower c || is_digit c = true →
  name_for font_id [c] = Ok (str_lower (font_id ++ lit "-" ++ [c])).
Proof. intros Hc. unfold name_for. rewrite in_lower_digits, Hc. reflexivity. Qed.

Lemma name_for_upper font_id c :
  is_upper c = true →
  name_for font_id [c] = Ok (font_id ++ lit "-upper-" ++ [c]).
Proof.
  intros Hc. unfold name_for. rewrite in_lower_digits, in_uppers, Hc.
  replace (is_lower c || is_digit c) with false; [reflexivity|].
  cases_on_ranges.
Qed.

Lemma name_for_special font_id c :
  is_lower c || is_digit c = false → is_upper c = false →
  name_for font_id [c] =
    match unicodedata_name c with
    | Some n =>
        Ok (str_lower (font_id ++ lit "-special-" ++
              str_replace 32 45 (str_replace 95 45 (str_lower n))))
    | None => Raise ValueError
    end.
Proof.
  intros Hc Hu. unfold name_for. rewrite in_lower_digits, in_uppers, Hc, Hu.
  cbn. destruct (unicodedata_name c); reflexivity.
Qed.
End name_for_facts.

(** C2.  [name_for] on a font id (a lower-case ASCII token, as the data
    model has it) and one character: ["{font_id}-{character}"] for an ASCII
    lower-case letter or digit; ["{font_id}-upper-{character}"], the letter
    kept as it is, for an ASCII upper-case letter; otherwise
    ["{font_id}-special-{name}"], lower-cased as a whole, where [name] is the
    lower-cased Unicode name with ['_'] and [' '] replaced by ['-'].  In
    particular the three values of the spec for ["sans"]. *)
Theorem name_for_rules `{Platform} (font_id : str) (c : N) :
  lower_ascii_law →
  unicodedata_name 47 = Some (lit "SOLIDUS") →
  (is_lower c || is_digit c = true → lowercase_ascii font_id = true →
     name_for font_id [c] = Ok (font_id ++ lit "-" ++ [c]))
  ∧ (is_upper c = true →
     name_for font_id [c] = Ok (font_id ++ lit "-upper-" ++ [c]))
  ∧ (is_lower c || is_digit c = false → is_upper c = false →
     ∀ n, unicodedata_name c = Some n →
     name_for font_id [c] =
       Ok (str_lower (font_id ++ lit "-special-" ++
             str_replace 32 45 (str_replace 95 45 (str_lower n)))))
  ∧ name_for (lit "sans") (lit "a") = Ok (lit "sans-a")
  ∧ name_for (lit "sans") (lit "A") = Ok (lit "sans-upper-A")
  ∧ name_for (lit "sans") (lit "/") = Ok (lit "sans-special-solidus").
Proof.
  intros Hlaw Hsolidus. repeat apply conj.
  - intros Hc Hid. rewrite name_for_lower_digit by exact Hc.
    f_equal. apply lower_fixes_lowercase_ascii; [exact Hlaw|].
    rewrite !lowercase_ascii_app, Hid. cbn. clear Hid.
    cases_on_ranges.
  - apply name_for_upper.
  - intros Hc Hu n Hn. rewrite name_for_special, Hn by assumption. reflexivity.
  - change (lit "a") with [97]. rewrite name_for_lower_digit by reflexivity.
    rewrite Hlaw by (apply forallb_ascii; reflexivity). reflexivity.
  - change (lit "A") with [65]. rewrite name_for_upper by reflexivity. reflexivity.
  - change (lit "/") with [47]. rewrite name_for_special, Hsolidus by reflexivity.
    rewrite (Hlaw (lit "SOLIDUS")) by (apply forallb_ascii; reflexivity).
    rewrite Hlaw by (apply forallb_ascii; reflexivity). reflexivity.
Qed.

Lemma name_for_rules_witness :
  @name_for sample_platform (lit "serif") (lit "q") = Ok (lit "serif-q") ∧
  @name_for sample_platform (lit "serif") (lit "Q") = Ok (lit "serif-upper-Q") ∧
  @name_for sample_platform (lit "sans") (lit "/") = Ok (lit "sans-special-solidus").
Proof.
  pose proof (@name_for_rules sample_platform (lit "serif") 113
                (λ s _, eq_refl) eq_refl) as (Hlower & _).
  pose proof (@name_for_rules sample_platform (lit "serif") 81
                (λ s _, eq_refl) eq_refl) as (_ & Hupper & _ & _ & _ & Hsolidus).
  split; [exact (Hlower eq_refl eq_refl)|].
  split; [exact (Hupper eq_refl)|exact Hsolidus].
Defined.

(** C10.  A character that is no ASCII letter or digit and has no Unicode
    name makes [name_for] raise [ValueError]. *)
Theorem name_for_unnamed_raises `{Platform} (font_id : str) (c : N) :
  is_lower c || is_digit c = false → is_upper c = false →
  unicodedata_name c = None →
  name_for font_id [c] = Raise ValueError.
Proof.
  intros Hc Hu Hn. rewrite name_for_special, Hn by assumption. reflexivity.
Qed.

Lemma name_for_unnamed_raises_witness :
  @name_for sample_platform (lit "sans") [0] = Raise ValueError.
Proof.
  exact (@name_for_unnamed_raises sample_platform (lit "sans") 0
           eq_refl eq_refl eq_refl).
Defined.

(** ** Render specifications *)

(** C7.  Raster mode: with the configured [label_specials] the label of the
    space is [label:\ ], the label of the backslash is [label:\\], and the
    label of any other character is ["label:"] followed by the character.
    Vector mode: the document of a character is one fixed text around the
    character, where only [&], [<] and [>] are replaced, by [&amp;], [&lt;]
    and [&gt;]. *)
Theorem render_spec_escaping :
  (∀ c : N,
     Raster.label_for Raster.module_globals [c] =
       if c =? 32 then lit "label:\ "
       else if c =? 92 then lit "label:\\"
       else lit "label:" ++ [c])
  ∧ (∀ g font, ∃ before after,
       ∀ c : N,
         Vector.svg_letter g [c] font =
           before ++ [62] ++
           (if c =? 38 then lit "&amp;"
            else if c =? 60 then lit "&lt;"
            else if c =? 62 then lit "&gt;"
            else [c]) ++
           lit "</text>" ++ after).
Proof.
  split.
  - intros c. unfold Raster.label_for.
    change (Raster.label_specials Raster.module_globals)
      with [([32], lit "label:\ "); ([92], lit "label:\\")].
    cbn [dict_get].
    destruct (N.eqb_spec c 32) as [->|H32]; [reflexivity|].
    rewrite decide_False by (intros [= ?]; congruence).
    destruct (N.eqb_spec c 92) as [->|H92]; [reflexivity|].
    rewrite decide_False by (intros [= ?]; congruence). reflexivity.
  - intros g font.
    exists (Vector.indent 8 ++ Vector.q "<svg version='1.1'" ++
      Vector.indent 12 ++ Vector.q "xmlns='http://www.w3.org/2000/svg'" ++
      Vector.indent 12 ++
        Vector.q "xmlns:xlink='http://www.w3.org/1999/xlink' width='" ++
        decimal (Vector.width g) ++ Vector.q "' height='" ++
        decimal (Vector.height g) ++ Vector.q "' viewBox='0,0," ++
        decimal (Vector.width g) ++ lit "," ++ decimal (Vector.height g) ++
        Vector.q "'>" ++
      Vector.indent 12 ++ Vector.q "<text x='" ++
        Vector.repr_quarters (2 * Vector.width g) ++ Vector.q "' y='" ++
        Vector.repr_quarters (3 * Vector.height g) ++
        Vector.q "' font-size='40' xml:space='preserve' fill='#000000' fill-rule='nonzero'" ++
      Vector.indent 16 ++ Vector.q "stroke='none' stroke-width='1' stroke-linecap='butt' stroke-linejoin='miter' stroke-miterlimit='10' stroke-dasharray='' stroke-dashoffset='0'" ++
      Vector.indent 16 ++ Vector.q "font-family='" ++ font ++
        Vector.q "' font-weight='normal' text-anchor='middle' style='mix-blend-mode: normal'").
    exists (Vector.indent 8 ++ lit "</svg>" ++ Vector.indent 8).
    intros c. unfold Vector.svg_letter.
    assert (Hc : match dict_get [c] Vector.replacements with
                 | Some entity => entity
                 | None => [c]
                 end =
                 if c =? 38 then lit "&amp;"
                 else if c =? 60 then lit "&lt;"
                 else if c =? 62 then lit "&gt;"
                 else [c]).
    { change Vector.replacements
        with [([38], lit "&amp;"); ([60], lit "&lt;"); ([62], lit "&gt;")].
      cbn [dict_get].
      destruct (N.eqb_spec c 38) as [->|H38]; [reflexivity|].
      rewrite decide_False by (intros [= ?]; congruence).
      destruct (N.eqb_spec c 60) as [->|H60]; [reflexivity|].
      rewrite decide_False by (intros [= ?]; congruence).
      destruct (N.eqb_spec c 62) as [->|H62]; [reflexivity|].
      rewrite decide_False by (intros [= ?]; congruence). reflexivity. }
    rewrite Hc. clear Hc.
    assert (Hq : Vector.q "' font-weight='normal' text-anchor='middle' style='mix-blend-mode: normal'>"
       = Vector.q "' font-weight='normal' text-anchor='middle' style='mix-blend-mode: normal'" ++ [62])
      by (vm_compute; reflexivity).
    rewrite Hq.
    rewrite <- !app_assoc.
    reflexivity.
Qed.

(** ** The glyph generator *)

Lemma with_file_lookup path f w : fs (with_file path f w) !! path = Some f.
Proof. apply lookup_insert_eq. Qed.

Lemma with_file_lookup_ne path path' f w :
  path ≠ path' → fs (with_file path f w) !! path' = fs w !! path'.
Proof. intros Hne. apply lookup_insert_ne, Hne. Qed.

Section generate_glyph_facts.
Context `{Platform}.

(** One call of the vector [generate_glyph], effect by effect. *)
Lemma vector_generate_glyph_run g font name character w :
  Vector.generate_glyph g font name character w =
    match utf8_encode (Vector.svg_letter g character font) with
    | Ok content =>
        let md5hash := MD5.hexdigest content in
        let staged := path_join (Vector.temp_dir g) (md5hash ++ lit ".svg") in
        let w1 := with_file (Vector.temp_svg g) (Regular content) w in
        if decide (Vector.temp_svg g = staged) then (Raise SameFileError, w1)
        else
          (Ok (JObj [ (lit "assetId", JStr md5hash);
                      (lit "name", JStr name);
                      (lit "md5ext", JStr (md5hash ++ lit ".svg"));
                      (lit "dataFormat", JStr (lit "svg"));
                      (lit "rotationCenterX", JInt (Z.of_N (Vector.width g / 2)));
                      (lit "rotationCenterY", JInt (Z.of_N (Vector.height g / 2))) ]),
           with_file staged (Regular content) w1)
    | Raise e => (Raise e, with_file (Vector.temp_svg g) (Regular []) w)
    end.
Proof.
  unfold Vector.generate_glyph, write_text, md5sum_file, read_file, shutil_copy.
  unfold mbind, M_bind, mret, M_ret.
  destruct (utf8_encode _) as [content|e]; [|reflexivity].
  rewrite with_file_lookup. cbn [file_bytes].
  rewrite with_file_lookup.
  destruct (decide _); reflexivity.
Qed.

(** One call of the raster [generate_glyph], effect by effect. *)
Lemma raster_generate_glyph_run g font name label w :
  Raster.generate_glyph g font name label w =
    let argv := Raster.convert_argv g font label in
    let w0 := {| fs := fs w; processes := processes w ++ [argv] |} in
    match convert argv with
    | Some png =>
        let md5hash := MD5.hexdigest png in
        let staged := path_join (Raster.temp_dir g) (md5hash ++ lit ".png") in
        let w1 := with_file (Raster.temp_png g) (Regular png) w0 in
        if decide (Raster.temp_png g = staged) then (Raise SameFileError, w1)
        else
          (Ok (JObj [ (lit "assetId", JStr md5hash);
                      (lit "name", JStr name);
                      (lit "bitmapResolution", JInt 2);
                      (lit "md5ext", JStr (md5hash ++ lit ".png"));
                      (lit "dataFormat", JStr (lit "png"));
                      (lit "rotationCenterX", JInt (Z.of_N (Raster.width g / 2)));
                      (lit "rotationCenterY", JInt (Z.of_N (Raster.height g / 2))) ]),
           with_file staged (Regular png) w1)
    | None => (Raise (render_fails argv w).1, (render_fails argv w).2)
    end.
Proof.
  unfold Raster.generate_glyph, check_call, md5sum_file, read_file, shutil_copy.
  unfold mbind, M_bind, mret, M_ret. cbn zeta.
  change [ lit "convert"; lit "-font"; font; lit "-size";
           decimal (Raster.width g) ++ lit "x" ++ decimal (Raster.height g);
           lit "-background"; lit "none"; lit "-gravity"; lit "center";
           label; Raster.temp_png g ]
    with (Raster.convert_argv g font label).
  destruct (convert _) as [png|]; [|reflexivity].
  change (last (Raster.convert_argv g font label)) with (Some (Raster.temp_png g)).
  cbn iota. rewrite with_file_lookup. cbn [file_bytes].
  rewrite with_file_lookup.
  destruct (decide _); reflexivity.
Qed.

(** A command line of [generate_glyph] that does not succeed changes no
    file but the temporary file, and records its process or none. *)
Lemma render_fails_frame g font label w :
  (∀ path, path ≠ Raster.temp_png g →
     fs (render_fails (Raster.convert_argv g font label) w).2 !! path
     = fs w !! path)
  ∧ (processes (render_fails (Raster.convert_argv g font label) w).2
     = processes w
     ∨ processes (render_fails (Raster.convert_argv g font label) w).2
       = processes w ++ [Raster.convert_argv g font label]).
Proof.
  unfold render_fails.
  change (last (Raster.convert_argv g font label)) with (Some (Raster.temp_png g)).
  destruct (convert_failure _) as [e|[content|]]; cbn [fst snd].
  - split; [reflexivity|left; reflexivity].
  - split; [|right; reflexivity].
    intros path Hpath. rewrite with_file_lookup_ne by congruence. reflexivity.
  - split; [reflexivity|right; reflexivity].
Qed.
End generate_glyph_facts.

(** C9.  With the canvas of the module's globals (which [main] does not
    change) a raster descriptor has its rotation centre at (120, 160), the
    half of 240 x 320, and [bitmapResolution] 2; a vector descriptor has its
    rotation centre at (20, 25), the half of 40 x 50, and no
    [bitmapResolution] field. *)
Theorem rotation_center_is_half_canvas `{Platform} :
  (∀ g font name label w d w',
     Raster.width g = Raster.width Raster.module_globals →
     Raster.height g = Raster.height Raster.module_globals →
     Raster.generate_glyph g font name label w = (Ok d, w') →
     Raster.width g = 240 ∧ Raster.height g = 320 ∧
     py_getitem d (lit "rotationCenterX") = Ok (JInt 120) ∧
     py_getitem d (lit "rotationCenterY") = Ok (JInt 160) ∧
     py_getitem d (lit "bitmapResolution") = Ok (JInt 2))
  ∧ (∀ g font name character w d w',
     Vector.width g = Vector.width Vector.module_globals →
     Vector.height g = Vector.height Vector.module_globals →
     Vector.generate_glyph g font name character w = (Ok d, w') →
     Vector.width g = 40 ∧ Vector.height g = 50 ∧
     py_getitem d (lit "rotationCenterX") = Ok (JInt 20) ∧
     py_getitem d (lit "rotationCenterY") = Ok (JInt 25) ∧
     py_getitem d (lit "bitmapResolution") = Raise KeyError).
Proof.
  split.
  - intros g font name label w d w' Hw Hh Hrun.
    rewrite raster_generate_glyph_run in Hrun. cbn zeta in Hrun.
    destruct (convert _) as [png|]; [|discriminate].
    destruct (decide _); [discriminate|].
    injection Hrun as <- _. rewrite Hw, Hh. repeat apply conj; reflexivity.
  - intros g font name character w d w' Hw Hh Hrun.
    rewrite vector_generate_glyph_run in Hrun.
    destruct (utf8_encode _) as [content|]; [|discriminate].
    cbn zeta in Hrun. destruct (decide _); [discriminate|].
    injection Hrun as <- _. rewrite Hw, Hh. repeat apply conj; reflexivity.
Qed.

Lemma rotation_center_is_half_canvas_witness :
  (let run := @Raster.generate_glyph sample_platform Raster.module_globals
                (lit "/usr/share/fonts/truetype/dejavu/DejaVuSans.ttf")
                (lit "sans-a") (lit "label:a") empty_world in
   ∃ d, run.1 = Ok d ∧
        py_getitem d (lit "rotationCenterX") = Ok (JInt 120) ∧
        py_getitem d (lit "rotationCenterY") = Ok (JInt 160) ∧
        py_getitem d (lit "bitmapResolution") = Ok (JInt 2))
  ∧ (let run := @Vector.generate_glyph sample_platform Vector.module_globals
                  (lit "Serif") (lit "serif-a") (lit "a") empty_world in
     ∃ d, run.1 = Ok d ∧
          py_getitem d (lit "rotationCenterX") = Ok (JInt 20) ∧
          py_getitem d (lit "rotationCenterY") = Ok (JInt 25) ∧
          py_getitem d (lit "bitmapResolution") = Raise KeyError).
Proof.
  split; intros run.
  - assert (Hrun : ∃ d, run.1 = Ok d) by (eexists; vm_compute; reflexivity).
    destruct Hrun as [d Hd]. exists d. split; [exact Hd|].
    destruct (proj1 (@rotation_center_is_half_canvas sample_platform)
                _ _ _ _ _ _ _ eq_refl eq_refl (run_eta run d Hd))
      as (_ & _ & Hx & Hy & Hb).
    auto.
  - assert (Hrun : ∃ d, run.1 = Ok d) by (eexists; vm_compute; reflexivity).
    destruct Hrun as [d Hd]. exists d. split; [exact Hd|].
    destruct (proj2 (@rotation_center_is_half_canvas sample_platform)
                _ _ _ _ _ _ _ eq_refl eq_refl (run_eta run d Hd))
      as (_ & _ & Hx & Hy & Hb).
    auto.
Defined.

(** ** The glyph stream *)

Section generators.
Context {S : Type} (R : json → S → Prop).

Lemma yields_in_order_yield (m : M json) (s : S) :
  (∀ w d w', m w = (Ok d, w') → R d s) →
  yields_in_order R (gen_yield m) [s].
Proof.
  intros Hm w ds r w' Hrun. unfold gen_yield in Hrun.
  destruct (m w) as [[d|e] w1] eqn:Hmw; injection Hrun as <- <- <-.
  - exists [s], []. repeat split. constructor; [|constructor]. eapply Hm, Hmw.
  - exists [], [s]. repeat split; [constructor|discriminate].
Qed.

Lemma yields_in_order_seq g1 g2 (s1 s2 : list S) :
  yields_in_order R g1 s1 → yields_in_order R g2 s2 →
  yields_in_order R (gen_seq g1 g2) (s1 ++ s2).
Proof.
  intros H1 H2 w ds r w' Hrun. unfold gen_seq in Hrun.
  destruct (g1 w) as [[ds1 [e|]] w1] eqn:Hg1.
  - injection Hrun as <- <- <-.
    destruct (H1 _ _ _ _ Hg1) as (done & rest & -> & HR & _).
    exists done, (rest ++ s2). rewrite app_assoc.
    repeat split; [exact HR|discriminate].
  - destruct (g2 w1) as [[ds2 r2] w2] eqn:Hg2. injection Hrun as <- <- <-.
    destruct (H1 _ _ _ _ Hg1) as (done1 & rest1 & -> & HR1 & Hrest1).
    rewrite (Hrest1 eq_refl), app_nil_r.
    destruct (H2 _ _ _ _ Hg2) as (done2 & rest2 & -> & HR2 & Hrest2).
    exists (done1 ++ done2), rest2. rewrite app_assoc.
    repeat split; [apply Forall2_app; assumption|exact Hrest2].
Qed.

Lemma yields_in_order_for {A} (body : A → Gen) (slots : A → list S) l :
  (∀ x, yields_in_order R (body x) (slots x)) →
  yields_in_order R (gen_for body l) (flat_map slots l).
Proof.
  intros Hbody. induction l as [|x l IH]; cbn [gen_for flat_map].
  - intros w ds r w' [= <- <- <-]. exists [], []. repeat split. constructor.
  - apply yields_in_order_seq; [apply Hbody|exact IH].
Qed.
End generators.

Lemma starts_processes_seq g1 g2 c1 c2 :
  starts_processes g1 c1 → starts_processes g2 c2 →
  starts_processes (gen_seq g1 g2) (c1 ++ c2).
Proof.
  intros H1 H2 w ds w' Hrun. unfold gen_seq in Hrun.
  destruct (g1 w) as [[ds1 [e|]] w1] eqn:Hg1; [discriminate|].
  destruct (g2 w1) as [[ds2 r2] w2] eqn:Hg2. injection Hrun as <- -> <-.
  rewrite (H2 _ _ _ Hg2), (H1 _ _ _ Hg1), app_assoc. reflexivity.
Qed.

Lemma starts_processes_for {A} (body : A → Gen) (cmds : A → list (list str)) l :
  (∀ x, starts_processes (body x) (cmds x)) →
  starts_processes (gen_for body l) (flat_map cmds l).
Proof.
  intros Hbody. induction l as [|x l IH]; cbn [gen_for flat_map].
  - intros w ds w' [= <- <-]. rewrite app_nil_r. reflexivity.
  - apply starts_processes_seq; [apply Hbody|exact IH].
Qed.

Lemma flat_map_singleton {A B} (f : A → B) l : flat_map (λ x, [f x]) l = map f l.
Proof. induction l as [|x l IH]; [reflexivity|]. cbn. rewrite IH. reflexivity. Qed.

Lemma starts_processes_yield (m : M json) cmd :
  (∀ w d w', m w = (Ok d, w') → processes w' = processes w ++ [cmd]) →
  starts_processes (gen_yield m) [cmd].
Proof.
  intros Hm w ds w' Hrun. unfold gen_yield in Hrun.
  destruct (m w) as [[d|e] w1] eqn:Hmw; [|discriminate].
  injection Hrun as _ <-. eapply Hm, Hmw.
Qed.

Section stream_facts.
Context `{Platform}.

Lemma vector_glyph_descriptor g font name character w d w' :
  Vector.generate_glyph g font name character w = (Ok d, w') →
  ∃ content,
    utf8_encode (Vector.svg_letter g character font) = Ok content ∧
    py_getitem d (lit "name") = Ok (JStr name) ∧
    py_getitem d (lit "assetId") = Ok (JStr (MD5.hexdigest content)).
Proof.
  intros Hrun. rewrite vector_generate_glyph_run in Hrun.
  destruct (utf8_encode _) as [content|]; [|discriminate].
  cbn zeta in Hrun. destruct (decide _); [discriminate|].
  injection Hrun as <- _. exists content. repeat split.
Qed.

Lemma raster_glyph_descriptor g font name label w d w' :
  Raster.generate_glyph g font name label w = (Ok d, w') →
  ∃ png,
    convert (Raster.convert_argv g font label) = Some png ∧
    py_getitem d (lit "name") = Ok (JStr name) ∧
    py_getitem d (lit "assetId") = Ok (JStr (MD5.hexdigest png)) ∧
    processes w' = processes w ++ [Raster.convert_argv g font label].
Proof.
  intros Hrun. rewrite raster_generate_glyph_run in Hrun. cbn zeta in Hrun.
  destruct (convert _) as [png|]; [|discriminate].
  destruct (decide _); [discriminate|].
  injection Hrun as <- <-. exists png. repeat split.
Qed.

(** The argument [name_for(...)] is evaluated before the call. *)
Lemma named_glyph_run (glyph : str → M json) fid ch w d w' :
  (name ← lift (name_for fid ch); glyph name) w = (Ok d, w') →
  ∃ name, name_for fid ch = Ok name ∧ glyph name w = (Ok d, w').
Proof.
  unfold mbind, M_bind, lift.
  destruct (name_for fid ch) as [name|e]; [|discriminate].
  intros Hrun. exists name. split; [reflexivity|exact Hrun].
Qed.

Lemma vector_stream_in_order g :
  yields_in_order (vector_descriptor g) (Vector.generate_glyphs g)
    (stream_slots (Vector.fonts g) (Vector.characters g)).
Proof.
  unfold Vector.generate_glyphs, stream_slots.
  apply yields_in_order_for. intros f. unfold Vector.generate_font.
  apply (yields_in_order_seq _ _ _ [Fallback f]).
  - apply yields_in_order_yield. intros w d w' Hrun.
    apply vector_glyph_descriptor in Hrun as (content & Henc & Hname & Hid).
    exists content. auto.
  - rewrite <- flat_map_singleton. apply yields_in_order_for. intros c.
    apply yields_in_order_yield. intros w d w' Hrun.
    apply named_glyph_run in Hrun as (name & Hname & Hrun).
    apply vector_glyph_descriptor in Hrun as (content & Henc & Hn & Hid).
    exists name, content. auto.
Qed.

Lemma raster_stream_in_order g :
  yields_in_order (raster_descriptor g) (Raster.generate_glyphs g)
    (stream_slots (Raster.fonts g) (Raster.characters g)).
Proof.
  unfold Raster.generate_glyphs, stream_slots.
  apply yields_in_order_for. intros f. unfold Raster.generate_font.
  apply (yields_in_order_seq _ _ _ [Fallback f]).
  - apply yields_in_order_yield. intros w d w' Hrun.
    apply raster_glyph_descriptor in Hrun as (png & Hpng & Hname & Hid & _).
    exists (Raster.font_id f ++ lit "-replaceable"), png. auto.
  - rewrite <- flat_map_singleton. apply yields_in_order_for. intros c.
    apply yields_in_order_yield. intros w d w' Hrun.
    apply named_glyph_run in Hrun as (name & Hname & Hrun).
    apply raster_glyph_descriptor in Hrun as (png & Hpng & Hn & Hid & _).
    exists name, png. auto.
Qed.

Lemma raster_stream_processes g :
  starts_processes (Raster.generate_glyphs g)
    (map (raster_command g)
       (stream_slots (Raster.fonts g) (Raster.characters g))).
Proof.
  unfold Raster.generate_glyphs, stream_slots.
  rewrite flat_map_concat_map, concat_map, map_map, <- flat_map_concat_map.
  apply starts_processes_for. intros f. unfold Raster.generate_font.
  cbn [map]. rewrite map_map.
  apply (starts_processes_seq _ _ [_]).
  - apply starts_processes_yield. intros w d w' Hrun.
    apply raster_glyph_descriptor in Hrun as (png & _ & _ & _ & Hlog).
    exact Hlog.
  - rewrite <- flat_map_singleton. apply starts_processes_for. intros c.
    apply starts_processes_yield. intros w d w' Hrun.
    apply named_glyph_run in Hrun as (name & _ & Hrun).
    apply raster_glyph_descriptor in Hrun as (png & _ & _ & _ & Hlog).
    exact Hlog.
Qed.
End stream_facts.

Lemma yields_in_order_weaken {S} (R R' : json → S → Prop) gen slots :
  (∀ d s, R d s → R' d s) →
  yields_in_order R gen slots → yields_in_order R' gen slots.
Proof.
  intros HR Hgen w ds r w' Hrun.
  destruct (Hgen _ _ _ _ Hrun) as (done & rest & Hslots & Hds & Hrest).
  exists done, rest. repeat split; [exact Hslots| |exact Hrest].
  eapply Forall2_impl; [exact Hds|exact HR].
Qed.

(** What the first item of an ordered run is. *)
Lemma yields_in_order_first {S} (R : json → S → Prop) gen s slots w ds r w' :
  yields_in_order R gen (s :: slots) →
  gen w = (ds, r, w') →
  match ds with
  | d :: _ => R d s
  | [] => r ≠ None
  end.
Proof.
  intros Hgen Hrun.
  destruct (Hgen _ _ _ _ Hrun) as (done & rest & Hslots & Hds & Hrest).
  destruct Hds as [|d s' ds done' Hd Hds].
  - intros ->. specialize (Hrest eq_refl). subst rest. discriminate.
  - injection Hslots as <- _. exact Hd.
Qed.

(** *** Runs that return *)

Lemma returns_yield (m : M json) :
  (∀ w, ∃ d w', m w = (Ok d, w')) → returns (gen_yield m).
Proof.
  intros Hm w. destruct (Hm w) as (d & w' & Hrun).
  exists [d], w'. unfold gen_yield. rewrite Hrun. reflexivity.
Qed.

Lemma returns_seq g1 g2 : returns g1 → returns g2 → returns (gen_seq g1 g2).
Proof.
  intros H1 H2 w. destruct (H1 w) as (ds1 & w1 & Hrun1).
  destruct (H2 w1) as (ds2 & w2 & Hrun2).
  exists (ds1 ++ ds2), w2. unfold gen_seq. rewrite Hrun1, Hrun2. reflexivity.
Qed.

Lemma returns_for {A} (body : A → Gen) l :
  (∀ x, x ∈ l → returns (body x)) → returns (gen_for body l).
Proof.
  induction l as [|x l IH]; intros Hbody; cbn [gen_for].
  - intros w. exists [], w. reflexivity.
  - apply returns_seq; [apply Hbody; left|apply IH].
    intros y Hy. apply Hbody. right. exact Hy.
Qed.

Lemma elem_of_stream_slots {font} (fonts : list font) characters f :
  f ∈ fonts →
  Fallback f ∈ stream_slots fonts characters ∧
  ∀ c, c ∈ characters → Glyph f c ∈ stream_slots fonts characters.
Proof.
  intros Hf. unfold stream_slots. split.
  - apply list_elem_of_In, in_flat_map. exists f.
    split; [apply list_elem_of_In, Hf|left; reflexivity].
  - intros c Hc. apply list_elem_of_In, in_flat_map. exists f.
    split; [apply list_elem_of_In, Hf|]. right.
    apply in_map, list_elem_of_In, Hc.
Qed.

Section stream_returns.
Context `{Platform}.

Lemma vector_stream_returns g :
  temp_apart (Vector.temp_svg g) (Vector.temp_dir g) (lit ".svg") →
  (∀ s, s ∈ stream_slots (Vector.fonts g) (Vector.characters g) →
        vector_slot_renders g s) →
  returns (Vector.generate_glyphs g).
Proof.
  intros Htemp Hslots. unfold Vector.generate_glyphs.
  apply returns_for. intros f Hf.
  destruct (elem_of_stream_slots _ (Vector.characters g) f Hf) as [Hfb Hgl].
  unfold Vector.generate_font. apply returns_seq.
  - apply returns_yield. intros w.
    destruct (Hslots _ Hfb) as [content Hcontent].
    rewrite vector_generate_glyph_run, Hcontent. cbn zeta.
    rewrite decide_False by apply Htemp. eauto.
  - apply returns_for. intros c Hc. apply returns_yield. intros w.
    destruct (Hslots _ (Hgl c Hc)) as [[name Hname] [content Hcontent]].
    unfold mbind, M_bind, lift. rewrite Hname.
    rewrite vector_generate_glyph_run, Hcontent. cbn zeta.
    rewrite decide_False by apply Htemp. eauto.
Qed.

Lemma raster_stream_returns g :
  temp_apart (Raster.temp_png g) (Raster.temp_dir g) (lit ".png") →
  (∀ s, s ∈ stream_slots (Raster.fonts g) (Raster.characters g) →
        raster_slot_renders g s) →
  returns (Raster.generate_glyphs g).
Proof.
  intros Htemp Hslots. unfold Raster.generate_glyphs.
  apply returns_for. intros f Hf.
  destruct (elem_of_stream_slots _ (Raster.characters g) f Hf) as [Hfb Hgl].
  unfold Raster.generate_font. apply returns_seq.
  - apply returns_yield. intros w.
    destruct (Hslots _ Hfb) as [_ [png Hpng]]. cbn [raster_command] in Hpng.
    rewrite raster_generate_glyph_run. cbn zeta. rewrite Hpng.
    rewrite decide_False by apply Htemp. eauto.
  - apply returns_for. intros c Hc. apply returns_yield. intros w.
    destruct (Hslots _ (Hgl c Hc)) as [[name Hname] [png Hpng]].
    cbn [raster_command] in Hpng.
    unfold mbind, M_bind, lift. rewrite Hname.
    rewrite raster_generate_glyph_run. cbn zeta. rewrite Hpng.
    rewrite decide_False by apply Htemp. eauto.
Qed.
End stream_returns.

(** *** Staged files along a run *)

Lemma establishes_yield (I : world → json → Prop) (m : M json) :
  (∀ w r w', m w = (r, w') →
     (∀ d, I w d → I w' d) ∧ (∀ d, r = Ok d → I w' d)) →
  establishes I (gen_yield m).
Proof.
  intros Hm w ds r w' Hrun. unfold gen_yield in Hrun.
  destruct (m w) as [[d|e] w1] eqn:Hmw; injection Hrun as <- <- <-;
    destruct (Hm _ _ _ Hmw) as [Hkeep Hnew]; split; try exact Hkeep.
  - constructor; [apply Hnew; reflexivity|constructor].
  - constructor.
Qed.

Lemma establishes_seq (I : world → json → Prop) g1 g2 :
  establishes I g1 → establishes I g2 → establishes I (gen_seq g1 g2).
Proof.
  intros H1 H2 w ds r w' Hrun. unfold gen_seq in Hrun.
  destruct (g1 w) as [[ds1 [e|]] w1] eqn:Hg1.
  - injection Hrun as <- <- <-. exact (H1 _ _ _ _ Hg1).
  - destruct (g2 w1) as [[ds2 r2] w2] eqn:Hg2. injection Hrun as <- <- <-.
    destruct (H1 _ _ _ _ Hg1) as [Hkeep1 Hds1].
    destruct (H2 _ _ _ _ Hg2) as [Hkeep2 Hds2].
    split; [intros d Hd; apply Hkeep2, Hkeep1, Hd|].
    apply Forall_app. split; [|exact Hds2].
    eapply Forall_impl; [exact Hds1|exact Hkeep2].
Qed.

Lemma establishes_for {A} (I : world → json → Prop) (body : A → Gen) l :
  (∀ x, establishes I (body x)) → establishes I (gen_for body l).
Proof.
  intros Hbody. induction l as [|x l IH]; cbn [gen_for].
  - intros w ds r w' [= <- <- <-]. split; [auto|constructor].
  - apply establishes_seq; [apply Hbody|exact IH].
Qed.

Lemma path_join_inj dir a b :
  starts_with [47] a = false → starts_with [47] b = false →
  path_join dir a = path_join dir b → a = b.
Proof.
  unfold path_join. intros -> ->.
  destruct (last dir) as [c|]; [|auto].
  destruct (c =? 47); intros Heq.
  - exact (app_inv_head _ _ _ Heq).
  - apply app_inv_head in Heq. injection Heq as Heq. exact Heq.
Qed.

Lemma staged_name_relative content ext :
  starts_with [47] (MD5.hexdigest content ++ ext) = false.
Proof.
  destruct (md5_hexdigest_format content) as [Hlen Hhex].
  destruct (MD5.hexdigest content) as [|c rest]; [discriminate Hlen|].
  cbn [forallb] in Hhex. apply andb_true_iff in Hhex as [Hc _].
  cbn [app starts_with].
  destruct (N.eqb_spec 47 c) as [<-|_]; [discriminate Hc|reflexivity].
Qed.

Lemma staged_path_inj dir ext content content' :
  path_join dir (MD5.hexdigest content ++ ext)
  = path_join dir (MD5.hexdigest content' ++ ext) →
  MD5.hexdigest content = MD5.hexdigest content'.
Proof.
  intros Heq. apply path_join_inj in Heq; try apply staged_name_relative.
  exact (app_inv_tail _ _ _ Heq).
Qed.

Section staged_facts.
Context `{Platform}.

(** Writing the temporary file and staging a new file keeps the staged
    assets: a staged file is only ever replaced by bytes of its digest. *)
Lemma staged_asset_kept temp temp_dir ext w content temp_content d :
  temp_apart temp temp_dir ext →
  staged_asset temp_dir ext w d →
  staged_asset temp_dir ext
    (with_file (path_join temp_dir (MD5.hexdigest content ++ ext))
       (Regular content) (with_file temp temp_content w)) d.
Proof.
  intros Htemp (content0 & Hid & Hext & Hfile).
  destruct (decide (MD5.hexdigest content0 = MD5.hexdigest content)) as [Heq|Hne].
  - exists content. rewrite <- Heq. repeat split; [exact Hid|exact Hext|].
    rewrite Heq. apply with_file_lookup.
  - exists content0. repeat split; [exact Hid|exact Hext|].
    rewrite with_file_lookup_ne.
    + rewrite with_file_lookup_ne; [exact Hfile|apply Htemp].
    + intros Hpath. apply staged_path_inj in Hpath. congruence.
Qed.

Lemma staged_asset_kept_temp temp temp_dir ext w temp_content d :
  temp_apart temp temp_dir ext →
  staged_asset temp_dir ext w d →
  staged_asset temp_dir ext (with_file temp temp_content w) d.
Proof.
  intros Htemp (content0 & Hid & Hext & Hfile).
  exists content0. repeat split; [exact Hid|exact Hext|].
  rewrite with_file_lookup_ne; [exact Hfile|apply Htemp].
Qed.

Lemma vector_glyph_stages g font name character w r w' :
  temp_apart (Vector.temp_svg g) (Vector.temp_dir g) (lit ".svg") →
  Vector.generate_glyph g font name character w = (r, w') →
  (∀ d, staged_asset (Vector.temp_dir g) (lit ".svg") w d →
        staged_asset (Vector.temp_dir g) (lit ".svg") w' d) ∧
  (∀ d, r = Ok d → staged_asset (Vector.temp_dir g) (lit ".svg") w' d).
Proof.
  intros Htemp Hrun. rewrite vector_generate_glyph_run in Hrun.
  destruct (utf8_encode _) as [content|e].
  - cbn zeta in Hrun. destruct (decide _) as [Hsame|_].
    { destruct (Htemp content Hsame). }
    injection Hrun as <- <-. split.
    + intros d Hd. apply staged_asset_kept; assumption.
    + intros d [= <-]. exists content. repeat split. apply with_file_lookup.
  - injection Hrun as <- <-. split; [|discriminate].
    intros d Hd. apply staged_asset_kept_temp; assumption.
Qed.

Lemma raster_glyph_stages g font name label w r w' :
  temp_apart (Raster.temp_png g) (Raster.temp_dir g) (lit ".png") →
  Raster.generate_glyph g font name label w = (r, w') →
  (∀ d, staged_asset (Raster.temp_dir g) (lit ".png") w d →
        staged_asset (Raster.temp_dir g) (lit ".png") w' d) ∧
  (∀ d, r = Ok d → staged_asset (Raster.temp_dir g) (lit ".png") w' d).
Proof.
  intros Htemp Hrun. rewrite raster_generate_glyph_run in Hrun. cbn zeta in Hrun.
  destruct (convert _) as [png|].
  - destruct (decide _) as [Hsame|_].
    { destruct (Htemp png Hsame). }
    injection Hrun as <- <-. split.
    + intros d Hd.
      apply (staged_asset_kept _ _ _
               {| fs := fs w; processes := processes w ++ [_] |}); assumption.
    + intros d [= <-]. exists png. repeat split. apply with_file_lookup.
  - injection Hrun as <- <-. split; [|discriminate].
    intros d (content0 & Hid & Hext & Hfile). exists content0.
    repeat split; [exact Hid|exact Hext|].
    rewrite (proj1 (render_fails_frame g font label w)); [exact Hfile|].
    intros Hpath. exact (Htemp content0 (eq_sym Hpath)).
Qed.

(** Naming a glyph has no effect on the world. *)
Lemma named_glyph_stages (I : world → json → Prop) (glyph : str → M json) fid ch :
  (∀ name w r w', glyph name w = (r, w') →
     (∀ d, I w d → I w' d) ∧ (∀ d, r = Ok d → I w' d)) →
  ∀ w r w',
    (name ← lift (name_for fid ch); glyph name) w = (r, w') →
    (∀ d, I w d → I w' d) ∧ (∀ d, r = Ok d → I w' d).
Proof.
  intros Hglyph w r w'. unfold mbind, M_bind, lift.
  destruct (name_for fid ch) as [name|e].
  - apply Hglyph.
  - intros [= <- <-]. split; [auto|discriminate].
Qed.

Lemma vector_stream_stages g :
  temp_apart (Vector.temp_svg g) (Vector.temp_dir g) (lit ".svg") →
  establishes (staged_asset (Vector.temp_dir g) (lit ".svg"))
    (Vector.generate_glyphs g).
Proof.
  intros Htemp. unfold Vector.generate_glyphs.
  apply establishes_for. intros f. unfold Vector.generate_font.
  apply establishes_seq.
  - apply establishes_yield. intros w r w'. apply vector_glyph_stages, Htemp.
  - apply establishes_for. intros c. apply establishes_yield.
    apply named_glyph_stages. intros name w r w'.
    apply vector_glyph_stages, Htemp.
Qed.

Lemma raster_stream_stages g :
  temp_apart (Raster.temp_png g) (Raster.temp_dir g) (lit ".png") →
  establishes (staged_asset (Raster.temp_dir g) (lit ".png"))
    (Raster.generate_glyphs g).
Proof.
  intros Htemp. unfold Raster.generate_glyphs.
  apply establishes_for. intros f. unfold Raster.generate_font.
  apply establishes_seq.
  - apply establishes_yield. intros w r w'. apply raster_glyph_stages, Htemp.
  - apply establishes_for. intros c. apply establishes_yield.
    apply named_glyph_stages. intros name w r w'.
    apply raster_glyph_stages, Htemp.
Qed.
End staged_facts.

(** The temporary file of [main], [tmp.png] in the staging directory, is
    none of the staged files. *)
Lemma temp_apart_tmp_png dir ext :
  temp_apart (path_join dir (lit "tmp.png")) dir ext.
Proof.
  intros content Heq.
  apply path_join_inj in Heq; [|reflexivity|apply staged_name_relative].
  apply (f_equal length) in Heq. rewrite length_app in Heq.
  destruct (md5_hexdigest_format content) as [Hlen _]. rewrite Hlen in Heq.
  cbn in Heq. lia.
Qed.

(** *** The configured vector run *)

Lemma svg_letter_canvas g g' character font :
  Vector.width g = Vector.width g' → Vector.height g = Vector.height g' →
  Vector.svg_letter g character font = Vector.svg_letter g' character font.
Proof. unfold Vector.svg_letter. intros -> ->. reflexivity. Qed.

(** The documents of the configured fonts and characters, and of U+FFFD,
    can be encoded. *)
Lemma configured_documents_encode :
  forallb (λ f,
     forallb (λ c,
        match utf8_encode (Vector.svg_letter Vector.module_globals [c]
                             (Vector.fontname f)) with
        | Ok _ => true
        | Raise _ => false
        end) (0xFFFD :: configured_characters))
    (Vector.fonts Vector.module_globals) = true.
Proof. vm_compute. reflexivity. Qed.

(** A configured character is an ASCII letter or digit, or one of the
    characters of [special_names]. *)
Lemma configured_characters_named :
  forallb (λ c,
     is_lower c || is_digit c || is_upper c ||
     match assoc c special_names with
     | Some _ => true
     | None => false
     end) configured_characters = true.
Proof. vm_compute. reflexivity. Qed.

Section configured_run.
Context `{Platform}.

Lemma name_for_defined font_id c :
  is_lower c || is_digit c || is_upper c = true ∨ is_Some (unicodedata_name c) →
  ∃ name, name_for font_id [c] = Ok name.
Proof.
  intros Hc.
  destruct (is_lower c || is_digit c) eqn:Hld.
  { rewrite name_for_lower_digit by exact Hld. eauto. }
  destruct (is_upper c) eqn:Hu.
  { rewrite name_for_upper by exact Hu. eauto. }
  destruct Hc as [Hc|[n Hn]]; [discriminate Hc|].
  rewrite name_for_special, Hn by assumption. eauto.
Qed.

(** With the fonts, characters and canvas of the script, on a platform
    whose [unicodedata] names the special characters, the vector generator
    returns, having yielded the 6 x 98 descriptors. *)
Lemma vector_configured_run_returns g w :
  Vector.fonts g = Vector.fonts Vector.module_globals →
  Vector.characters g = configured_characters →
  Vector.width g = 40 → Vector.height g = 50 →
  temp_apart (Vector.temp_svg g) (Vector.temp_dir g) (lit ".svg") →
  (∀ c, is_Some (assoc c special_names) → is_Some (unicodedata_name c)) →
  ∃ ds w', Vector.generate_glyphs g w = (ds, None, w') ∧ length ds = 588%nat.
Proof.
  intros Hfonts Hchars Hw Hh Htemp Hnames.
  assert (Hencode : ∀ f c, In f (Vector.fonts Vector.module_globals) →
            In c (0xFFFD :: configured_characters) →
            ∃ content,
              utf8_encode (Vector.svg_letter g [c] (Vector.fontname f))
                = Ok content).
  { intros f c Hf Hc. pose proof configured_documents_encode as Hall.
    rewrite forallb_forall in Hall. specialize (Hall f Hf).
    rewrite forallb_forall in Hall. specialize (Hall c Hc).
    rewrite (svg_letter_canvas g Vector.module_globals) by assumption.
    destruct (utf8_encode _) as [content|]; [eauto|discriminate]. }
  destruct (vector_stream_returns g Htemp) with (w := w) as (ds & w' & Hrun).
  { intros s Hs. unfold stream_slots in Hs. rewrite Hfonts, Hchars in Hs.
    apply list_elem_of_In, in_flat_map in Hs as (f & Hf & Hs).
    destruct Hs as [<-|Hs].
    - apply Hencode; [exact Hf|left; reflexivity].
    - apply in_map_iff in Hs as (c & <- & Hc). split.
      + apply name_for_defined.
        pose proof configured_characters_named as Hall.
        rewrite forallb_forall in Hall. specialize (Hall c Hc).
        apply orb_true_iff in Hall as [Hall|Hall]; [left; exact Hall|right].
        apply Hnames. destruct (assoc c special_names); [eauto|discriminate].
      + apply Hencode; [exact Hf|right; exact Hc]. }
  exists ds, w'. split; [exact Hrun|].
  destruct (vector_stream_in_order g _ _ _ _ Hrun)
    as (done & rest & Hslots & Hds & Hrest).
  rewrite (Hrest eq_refl), app_nil_r in Hslots.
  rewrite (Forall2_length _ _ _ Hds), <- Hslots.
  unfold stream_slots. rewrite Hfonts, Hchars. vm_compute. reflexivity.
Qed.
End configured_run.

(** C5.  Whatever the run of the glyph stream, the descriptors it yields
    follow the slots "fonts in configured order; per font the fallback, named
    [{font_id}-replaceable], then the characters in configured order, named
    by [name_for]": they fill all the slots when the generator returns, and
    the first ones when it raises.  With a non-empty font list the first
    descriptor yielded is the fallback of the first font (and if none is
    yielded, the generator raised).  The generator returns when the glyph of
    every slot can be named and rendered (and the temporary file is none of
    the staged files). *)
Theorem glyph_stream_order `{Platform} :
  (∀ g w ds r w',
     Vector.generate_glyphs g w = (ds, r, w') →
     (∃ done rest,
        stream_slots (Vector.fonts g) (Vector.characters g) = done ++ rest ∧
        Forall2 (slot_named Vector.font_id) ds done ∧
        (r = None → rest = []))
     ∧ (∀ f fonts', Vector.fonts g = f :: fonts' →
        match ds with
        | d :: _ => py_getitem d (lit "name")
                    = Ok (JStr (Vector.font_id f ++ lit "-replaceable"))
        | [] => r ≠ None
        end))
  ∧ (∀ g w ds r w',
     Raster.generate_glyphs g w = (ds, r, w') →
     (∃ done rest,
        stream_slots (Raster.fonts g) (Raster.characters g) = done ++ rest ∧
        Forall2 (slot_named Raster.font_id) ds done ∧
        (r = None → rest = []))
     ∧ (∀ f fonts', Raster.fonts g = f :: fonts' →
        match ds with
        | d :: _ => py_getitem d (lit "name")
                    = Ok (JStr (Raster.font_id f ++ lit "-replaceable"))
        | [] => r ≠ None
        end))
  ∧ (∀ g w,
     temp_apart (Vector.temp_svg g) (Vector.temp_dir g) (lit ".svg") →
     (∀ s, s ∈ stream_slots (Vector.fonts g) (Vector.characters g) →
           vector_slot_renders g s) →
     ∃ ds w', Vector.generate_glyphs g w = (ds, None, w'))
  ∧ (∀ g w,
     temp_apart (Raster.temp_png g) (Raster.temp_dir g) (lit ".png") →
     (∀ s, s ∈ stream_slots (Raster.fonts g) (Raster.characters g) →
           raster_slot_renders g s) →
     ∃ ds w', Raster.generate_glyphs g w = (ds, None, w')).
Proof.
  repeat apply conj.
  - intros g w ds r w' Hrun.
    assert (Hord : yields_in_order (slot_named Vector.font_id)
                     (Vector.generate_glyphs g)
                     (stream_slots (Vector.fonts g) (Vector.characters g))).
    { eapply yields_in_order_weaken; [|apply vector_stream_in_order].
      intros d [f|f c]; cbn.
      - intros (content & _ & Hname & _). exact Hname.
      - intros (name & content & Hn & _ & Hname & _). exists name. auto. }
    split; [exact (Hord _ _ _ _ Hrun)|].
    intros f fonts' Hfonts. unfold stream_slots in Hord. rewrite Hfonts in Hord.
    cbn [flat_map app] in Hord.
    exact (yields_in_order_first _ _ _ _ _ _ _ _ Hord Hrun).
  - intros g w ds r w' Hrun.
    assert (Hord : yields_in_order (slot_named Raster.font_id)
                     (Raster.generate_glyphs g)
                     (stream_slots (Raster.fonts g) (Raster.characters g))).
    { eapply yields_in_order_weaken; [|apply raster_stream_in_order].
      intros d [f|f c]; cbn.
      - intros (name & png & -> & _ & Hname & _). exact Hname.
      - intros (name & png & Hn & _ & Hname & _). exists name. auto. }
    split; [exact (Hord _ _ _ _ Hrun)|].
    intros f fonts' Hfonts. unfold stream_slots in Hord. rewrite Hfonts in Hord.
    cbn [flat_map app] in Hord.
    exact (yields_in_order_first _ _ _ _ _ _ _ _ Hord Hrun).
  - intros g w Htemp Hslots. exact (vector_stream_returns g Htemp Hslots w).
  - intros g w Htemp Hslots. exact (raster_stream_returns g Htemp Hslots w).
Qed.

Lemma glyph_stream_order_witness :
  (let run := @Vector.generate_glyphs sample_platform vector_sample_globals
                empty_world in
   run.1.2 = None ∧
   Forall2 (@slot_named sample_platform _ Vector.font_id) run.1.1
     (stream_slots (Vector.fonts vector_sample_globals) (lit "aA/ ")) ∧
   map (λ d, py_getitem d (lit "name")) run.1.1
     = map (λ n, Ok (JStr (lit n)))
         [ "serif-replaceable"; "serif-a"; "serif-upper-A";
           "serif-special-solidus"; "serif-special-space";
           "pixel-replaceable"; "pixel-a"; "pixel-upper-A";
           "pixel-special-solidus"; "pixel-special-space" ]%string)
  ∧ (let run := @Raster.generate_glyphs sample_platform raster_sample_globals
                  empty_world in
     run.1.2 = None ∧
     Forall2 (@slot_named sample_platform _ Raster.font_id) run.1.1
       (stream_slots (Raster.fonts raster_sample_globals) (lit "aA\ ")) ∧
     map (λ d, py_getitem d (lit "name")) run.1.1
       = map (λ n, Ok (JStr (lit n)))
           [ "sans-replaceable"; "sans-a"; "sans-upper-A";
             "sans-special-reverse-solidus"; "sans-special-space";
             "decor-replaceable"; "decor-a"; "decor-upper-A";
             "decor-special-reverse-solidus"; "decor-special-space" ]%string)
  ∧ (∃ ds w',
       @Vector.generate_glyphs sample_platform vector_sample_globals empty_world
       = (ds, None, w')).
Proof.
  split; [|split]; [intros run|intros run|].
  - destruct (proj1 (@glyph_stream_order sample_platform) _ _ _ _ _
                (triple_eta run))
      as [(done & rest & Hslots & Hnamed & Hrest) _].
    assert (Hr : run.1.2 = None) by (vm_compute; reflexivity).
    specialize (Hrest Hr). subst rest. rewrite app_nil_r in Hslots.
    rewrite <- Hslots in Hnamed.
    split; [exact Hr|]. split; [exact Hnamed|]. vm_compute. reflexivity.
  - destruct (proj1 (proj2 (@glyph_stream_order sample_platform)) _ _ _ _ _
                (triple_eta run))
      as [(done & rest & Hslots & Hnamed & Hrest) _].
    assert (Hr : run.1.2 = None) by (vm_compute; reflexivity).
    specialize (Hrest Hr). subst rest. rewrite app_nil_r in Hslots.
    rewrite <- Hslots in Hnamed.
    split; [exact Hr|]. split; [exact Hnamed|]. vm_compute. reflexivity.
  - apply (proj1 (proj2 (proj2 (@glyph_stream_order sample_platform)))).
    + exact (temp_apart_tmp_png (lit "/tmp/printer-costumes-x") (lit ".svg")).
    + intros s Hs.
      let l := eval vm_compute in
                 (stream_slots (Vector.fonts vector_sample_globals)
                    (Vector.characters vector_sample_globals)) in
      change (s ∈ l) in Hs.
      repeat (apply elem_of_cons in Hs as [->|Hs]);
        [..|apply elem_of_nil in Hs as []];
        first [ eexists; vm_compute; reflexivity
              | split; eexists; vm_compute; reflexivity ].
Defined.

(** C6.  In every run the descriptor of a font's fallback slot is rendered
    from the replacement character: in raster mode its [assetId] is the
    digest of the image that [convert] draws with the font
    [replacement_font] (not the font's own file) for the label of
    [replacement_character], which is U+FFFD, and when the generator returns
    the processes started are exactly the command lines of the slots; in
    vector mode its [assetId] is the digest of the document of U+FFFD in the
    font's own family name, which the document carries as [font-family]. *)
Theorem fallback_glyph_rendering `{Platform} :
  (∀ g w ds r w',
     Raster.generate_glyphs g w = (ds, r, w') →
     ∃ done rest,
       stream_slots (Raster.fonts g) (Raster.characters g) = done ++ rest ∧
       (r = None → rest = []) ∧
       Forall2 (λ d s, ∀ f, s = Fallback f →
                  ∃ png,
                    convert (Raster.convert_argv g (Raster.replacement_font g)
                               (lit "label:" ++ Raster.replacement_character g))
                      = Some png ∧
                    py_getitem d (lit "name")
                      = Ok (JStr (Raster.font_id f ++ lit "-replaceable")) ∧
                    py_getitem d (lit "assetId") = Ok (JStr (MD5.hexdigest png)))
               ds done ∧
       (r = None →
        processes w' =
          processes w ++
          map (raster_command g)
            (stream_slots (Raster.fonts g) (Raster.characters g))))
  ∧ (∀ g f,
       raster_command g (Fallback f) =
         [ lit "convert"; lit "-font"; Raster.replacement_font g; lit "-size";
           decimal (Raster.width g) ++ lit "x" ++ decimal (Raster.height g);
           lit "-background"; lit "none"; lit "-gravity"; lit "center";
           lit "label:" ++ Raster.replacement_character g; Raster.temp_png g ])
  ∧ Raster.replacement_character Raster.module_globals = [0xFFFD]
  ∧ (∀ g w ds r w',
     Vector.generate_glyphs g w = (ds, r, w') →
     ∃ done rest,
       stream_slots (Vector.fonts g) (Vector.characters g) = done ++ rest ∧
       (r = None → rest = []) ∧
       Forall2 (λ d s, ∀ f, s = Fallback f →
                  ∃ content,
                    utf8_encode (Vector.svg_letter g [0xFFFD] (Vector.fontname f))
                      = Ok content ∧
                    py_getitem d (lit "name")
                      = Ok (JStr (Vector.font_id f ++ lit "-replaceable")) ∧
                    py_getitem d (lit "assetId")
                      = Ok (JStr (MD5.hexdigest content)))
               ds done)
  ∧ (∀ g character font,
       str_in (Vector.q "font-family='" ++ font ++ Vector.q "'")
         (Vector.svg_letter g character font) = true).
Proof.
  repeat apply conj.
  - intros g w ds r w' Hrun.
    destruct (raster_stream_in_order g _ _ _ _ Hrun)
      as (done & rest & Hslots & Hds & Hrest).
    exists done, rest. repeat apply conj; [exact Hslots|exact Hrest| |].
    + eapply Forall2_impl; [exact Hds|].
      intros d s (name & png & Hname & Hpng & Hn & Hid) f ->.
      cbn in Hname, Hpng. subst name. exists png. auto.
    + intros ->. exact (raster_stream_processes g _ _ _ Hrun).
  - reflexivity.
  - reflexivity.
  - intros g w ds r w' Hrun.
    destruct (vector_stream_in_order g _ _ _ _ Hrun)
      as (done & rest & Hslots & Hds & Hrest).
    exists done, rest. repeat apply conj; [exact Hslots|exact Hrest|].
    eapply Forall2_impl; [exact Hds|].
    intros d s Hd f ->. exact Hd.
  - intros g character font. unfold Vector.svg_letter.
    change (Vector.q "' font-weight='normal' text-anchor='middle' style='mix-blend-mode: normal'>")
      with (Vector.q "'" ++
            Vector.q " font-weight='normal' text-anchor='middle' style='mix-blend-mode: normal'>").
    repeat first [ apply str_in_here | apply str_in_app_r ].
Qed.

Lemma fallback_glyph_rendering_witness :
  (let run := @Raster.generate_glyphs sample_platform raster_sample_globals
                empty_world in
   run.1.2 = None ∧
   processes run.2 =
     map (@raster_command raster_sample_globals)
       (stream_slots (Raster.fonts raster_sample_globals) (lit "aA\ ")) ∧
   ∃ png,
     map (λ d, py_getitem d (lit "assetId")) (take 1 run.1.1)
       = [Ok (JStr (MD5.hexdigest png))] ∧
     @convert sample_platform
       (Raster.convert_argv raster_sample_globals
          (lit "/usr/share/fonts/truetype/dejavu/DejaVuSans.ttf")
          (lit "label:" ++ [0xFFFD])) = Some png)
  ∧ (let run := @Vector.generate_glyphs sample_platform vector_sample_globals
                  empty_world in
     run.1.2 = None ∧
     ∃ content,
       map (λ d, py_getitem d (lit "assetId")) (take 1 run.1.1)
         = [Ok (JStr (MD5.hexdigest content))] ∧
       utf8_encode (Vector.svg_letter vector_sample_globals [0xFFFD] (lit "Serif"))
         = Ok content).
Proof.
  split; intros run.
  - destruct (proj1 (@fallback_glyph_rendering sample_platform) _ _ _ _ _
                (triple_eta run))
      as (done & rest & Hslots & Hrest & Hds & Hlog).
    assert (Hr : run.1.2 = None) by (vm_compute; reflexivity).
    split; [exact Hr|]. split; [exact (Hlog Hr)|].
    rewrite (Hrest Hr), app_nil_r in Hslots.
    destruct Hds as [|d s ds done' Hd Hds]; [discriminate Hslots|].
    injection Hslots as <- _.
    destruct (Hd _ eq_refl) as (png & Hpng & _ & Hid).
    exists png. cbn [take map]. rewrite Hid. split; [reflexivity|exact Hpng].
  - destruct (proj1 (proj2 (proj2 (proj2 (@fallback_glyph_rendering sample_platform))))
                _ _ _ _ _ (triple_eta run))
      as (done & rest & Hslots & Hrest & Hds).
    assert (Hr : run.1.2 = None) by (vm_compute; reflexivity).
    split; [exact Hr|].
    rewrite (Hrest Hr), app_nil_r in Hslots.
    destruct Hds as [|d s ds done' Hd Hds]; [discriminate Hslots|].
    injection Hslots as <- _.
    destruct (Hd _ eq_refl) as (content & Hcontent & _ & Hid).
    exists content. cbn [take map]. rewrite Hid. split; [reflexivity|exact Hcontent].
Defined.

(** C8.  A descriptor returned by [generate_glyph] has as [assetId] the MD5
    digest, 32 lower-case hexadecimal digits, of the bytes that the staging
    file named by its [md5ext] then holds, and its [md5ext] is the [assetId]
    followed by [".png"] (raster) or [".svg"] (vector); so two descriptors of
    one mode with the same [assetId] name the same staged file.  This lasts:
    at the end of a run of the stream every descriptor yielded has as
    [assetId] the digest of the bytes of the staged file it names (the
    temporary file being none of the staged files, as with [tmp.png] in the
    staging directory). *)
Theorem asset_id_is_digest_of_staged_file `{Platform} :
  (∀ g font name label w d w',
     Raster.generate_glyph g font name label w = (Ok d, w') →
     ∃ assetId content,
       py_getitem d (lit "assetId") = Ok (JStr assetId) ∧
       py_getitem d (lit "md5ext") = Ok (JStr (assetId ++ lit ".png")) ∧
       fs w' !! path_join (Raster.temp_dir g) (assetId ++ lit ".png")
         = Some (Regular content) ∧
       assetId = MD5.hexdigest content ∧
       length assetId = 32%nat ∧ forallb is_lower_hex assetId = true)
  ∧ (∀ g font name character w d w',
     Vector.generate_glyph g font name character w = (Ok d, w') →
     ∃ assetId content,
       py_getitem d (lit "assetId") = Ok (JStr assetId) ∧
       py_getitem d (lit "md5ext") = Ok (JStr (assetId ++ lit ".svg")) ∧
       fs w' !! path_join (Vector.temp_dir g) (assetId ++ lit ".svg")
         = Some (Regular content) ∧
       assetId = MD5.hexdigest content ∧
       length assetId = 32%nat ∧ forallb is_lower_hex assetId = true)
  ∧ (∀ g1 font1 name1 label1 w1 d1 w1' g2 font2 name2 label2 w2 d2 w2',
     Raster.generate_glyph g1 font1 name1 label1 w1 = (Ok d1, w1') →
     Raster.generate_glyph g2 font2 name2 label2 w2 = (Ok d2, w2') →
     py_getitem d1 (lit "assetId") = py_getitem d2 (lit "assetId") →
     py_getitem d1 (lit "md5ext") = py_getitem d2 (lit "md5ext"))
  ∧ (∀ g1 font1 name1 char1 w1 d1 w1' g2 font2 name2 char2 w2 d2 w2',
     Vector.generate_glyph g1 font1 name1 char1 w1 = (Ok d1, w1') →
     Vector.generate_glyph g2 font2 name2 char2 w2 = (Ok d2, w2') →
     py_getitem d1 (lit "assetId") = py_getitem d2 (lit "assetId") →
     py_getitem d1 (lit "md5ext") = py_getitem d2 (lit "md5ext"))
  ∧ (∀ g w ds r w',
     temp_apart (Raster.temp_png g) (Raster.temp_dir g) (lit ".png") →
     Raster.generate_glyphs g w = (ds, r, w') →
     Forall (staged_asset (Raster.temp_dir g) (lit ".png") w') ds)
  ∧ (∀ g w ds r w',
     temp_apart (Vector.temp_svg g) (Vector.temp_dir g) (lit ".svg") →
     Vector.generate_glyphs g w = (ds, r, w') →
     Forall (staged_asset (Vector.temp_dir g) (lit ".svg") w') ds)
  ∧ (∀ dir ext, temp_apart (path_join dir (lit "tmp.png")) dir ext).
Proof.
  repeat apply conj.
  - intros g font name label w d w' Hrun.
    rewrite raster_generate_glyph_run in Hrun. cbn zeta in Hrun.
    destruct (convert _) as [png|]; [|discriminate].
    destruct (decide _); [discriminate|].
    injection Hrun as <- <-.
    exists (MD5.hexdigest png), png.
    repeat apply conj; try reflexivity; try apply md5_hexdigest_format.
    apply with_file_lookup.
  - intros g font name character w d w' Hrun.
    rewrite vector_generate_glyph_run in Hrun.
    destruct (utf8_encode _) as [content|]; [|discriminate].
    cbn zeta in Hrun. destruct (decide _); [discriminate|].
    injection Hrun as <- <-.
    exists (MD5.hexdigest content), content.
    repeat apply conj; try reflexivity; try apply md5_hexdigest_format.
    apply with_file_lookup.
  - intros g1 font1 name1 label1 w1 d1 w1' g2 font2 name2 label2 w2 d2 w2' H1 H2.
    rewrite raster_generate_glyph_run in H1, H2. cbn zeta in H1, H2.
    destruct (convert (Raster.convert_argv g1 _ _)) as [png1|]; [|discriminate].
    destruct (convert (Raster.convert_argv g2 _ _)) as [png2|]; [|discriminate].
    destruct (decide _); [discriminate|]. destruct (decide _); [discriminate|].
    set (h1 := MD5.hexdigest png1) in *. set (h2 := MD5.hexdigest png2) in *.
    clearbody h1 h2.
    injection H1 as <- _. injection H2 as <- _.
    intros [= ->]. reflexivity.
  - intros g1 font1 name1 char1 w1 d1 w1' g2 font2 name2 char2 w2 d2 w2' H1 H2.
    rewrite vector_generate_glyph_run in H1, H2.
    destruct (utf8_encode (Vector.svg_letter g1 _ _)) as [c1|]; [|discriminate].
    destruct (utf8_encode (Vector.svg_letter g2 _ _)) as [c2|]; [|discriminate].
    cbn zeta in H1, H2.
    destruct (decide _); [discriminate|]. destruct (decide _); [discriminate|].
    set (h1 := MD5.hexdigest c1) in *. set (h2 := MD5.hexdigest c2) in *.
    clearbody h1 h2.
    injection H1 as <- _. injection H2 as <- _.
    intros [= ->]. reflexivity.
  - intros g w ds r w' Htemp Hrun.
    exact (proj2 (raster_stream_stages g Htemp _ _ _ _ Hrun)).
  - intros g w ds r w' Htemp Hrun.
    exact (proj2 (vector_stream_stages g Htemp _ _ _ _ Hrun)).
  - exact temp_apart_tmp_png.
Qed.

Lemma asset_id_is_digest_of_staged_file_witness :
  (let run := @Raster.generate_glyph sample_platform Raster.module_globals
                (lit "/usr/share/fonts/truetype/dejavu/DejaVuSans.ttf")
                (lit "sans-a") (lit "label:a") empty_world in
   ∃ d assetId content,
     run.1 = Ok d ∧
     py_getitem d (lit "assetId") = Ok (JStr assetId) ∧
     py_getitem d (lit "md5ext") = Ok (JStr (assetId ++ lit ".png")) ∧
     fs run.2 !! path_join (lit "/tmp/") (assetId ++ lit ".png")
       = Some (Regular content) ∧
     assetId = MD5.hexdigest content)
  ∧ (let run := @Vector.generate_glyph sample_platform Vector.module_globals
                  (lit "Serif") (lit "serif-a") (lit "a") empty_world in
     ∃ d assetId content,
       run.1 = Ok d ∧
       py_getitem d (lit "assetId") = Ok (JStr assetId) ∧
       py_getitem d (lit "md5ext") = Ok (JStr (assetId ++ lit ".svg")) ∧
       fs run.2 !! path_join (lit "/tmp/") (assetId ++ lit ".svg")
         = Some (Regular content) ∧
       assetId = MD5.hexdigest content)
  ∧ (let run := @Raster.generate_glyphs sample_platform raster_sample_globals
                  empty_world in
     length run.1.1 = 10%nat ∧
     Forall (staged_asset (lit "/tmp/printer-costumes-x") (lit ".png") run.2)
       run.1.1)
  ∧ (let run := @Vector.generate_glyphs sample_platform vector_sample_globals
                  empty_world in
     length run.1.1 = 10%nat ∧
     Forall (staged_asset (lit "/tmp/printer-costumes-x") (lit ".svg") run.2)
       run.1.1).
Proof.
  pose proof (@asset_id_is_digest_of_staged_file sample_platform)
    as (Hraster & Hvector & _ & _ & Hrasters & Hvectors & Htemp).
  split; [|split; [|split]]; intros run.
  - assert (Hrun : ∃ d, run.1 = Ok d) by (eexists; vm_compute; reflexivity).
    destruct Hrun as [d Hd].
    destruct (Hraster _ _ _ _ _ _ _ (run_eta run d Hd))
      as (assetId & content & Hid & Hext & Hfile & Hdigest & _).
    exists d, assetId, content. auto.
  - assert (Hrun : ∃ d, run.1 = Ok d) by (eexists; vm_compute; reflexivity).
    destruct Hrun as [d Hd].
    destruct (Hvector _ _ _ _ _ _ _ (run_eta run d Hd))
      as (assetId & content & Hid & Hext & Hfile & Hdigest & _).
    exists d, assetId, content. auto.
  - split; [vm_compute; reflexivity|].
    exact (Hrasters raster_sample_globals _ _ _ _
             (Htemp (lit "/tmp/printer-costumes-x") (lit ".png"))
             (triple_eta run)).
  - split; [vm_compute; reflexivity|].
    exact (Hvectors vector_sample_globals _ _ _ _
             (Htemp (lit "/tmp/printer-costumes-x") (lit ".svg"))
             (triple_eta run)).
Defined.

(** ** The assembler *)

Lemma with_file_twice path f f' w :
  with_file path f (with_file path f' w) = with_file path f w.
Proof. unfold with_file. cbn. rewrite insert_insert_eq. reflexivity. Qed.

Lemma for_fold_app {A S} (body : S → A → M S) l1 l2 s w :
  for_fold body (l1 ++ l2) s w =
    match for_fold body l1 s w with
    | (Ok s', w') => for_fold body l2 s' w'
    | (Raise e, w') => (Raise e, w')
    end.
Proof.
  revert s w. induction l1 as [|x l1 IH]; intros s w; [reflexivity|].
  cbn [app for_fold]. unfold mbind, M_bind.
  destruct (body s x w) as [[s'|e] w']; [apply IH|reflexivity].
Qed.

Lemma new_names_spec ms : ∀ written m,
  m ∈ new_names written ms ↔ m ∈ ms ∧ m ∉ written.
Proof.
  induction ms as [|m0 ms IH]; intros written m; cbn [new_names].
  - set_solver.
  - destruct (decide (m0 ∈ written)) as [Hin|Hout].
    + rewrite IH. set_solver.
    + rewrite elem_of_cons, IH. destruct (decide (m = m0)); set_solver.
Qed.

Lemma new_names_NoDup ms : ∀ written, NoDup (new_names written ms).
Proof.
  induction ms as [|m0 ms IH]; intros written; cbn [new_names].
  - constructor.
  - destruct (decide (m0 ∈ written)); [apply IH|].
    constructor; [|apply IH]. rewrite new_names_spec. set_solver.
Qed.

Lemma NoDup_count_one {A} `{EqDecision A} (l : list A) x :
  NoDup l → x ∈ l → length (filter (λ y, y = x) l) = 1%nat.
Proof.
  induction 1 as [|y l Hy Hnd IH]; intros Hx; [set_solver|].
  rewrite filter_cons. destruct (decide (y = x)) as [->|Hne].
  - cbn. f_equal. clear IH Hx. induction l as [|z l IHl]; [reflexivity|].
    rewrite filter_cons. apply not_elem_of_cons in Hy as [Hz Hl].
    apply NoDup_cons in Hnd as [_ Hnd].
    rewrite decide_False by congruence. apply IHl; assumption.
  - apply IH. set_solver.
Qed.

Section assemble_facts.
Context `{Platform}.
Variables (temp_dir out : str).

(** The loop over descriptors whose staged files all exist: the archive
    gains the new names, each once. *)
Lemma assemble_loop_ok (w0 : world) ds ms :
  Forall2 has_md5ext ds ms →
  (∀ m, m ∈ ms →
     path_join temp_dir m ≠ out ∧ is_Some (fs w0 !! path_join temp_dir m)) →
  ∀ written archive f,
    for_fold (assemble_costume temp_dir out) ds (written, archive)
      (with_file out f w0)
    = (Ok (written_after written ms,
           archive ++ map (staged_member w0 temp_dir) (new_names written ms)),
       with_file out
         (match new_names written ms with
          | [] => f
          | _ => ZipArchive (archive ++ map (staged_member w0 temp_dir)
                                              (new_names written ms))
          end) w0).
Proof.
  induction 1 as [|d m ds ms Hd Hds IH]; intros Hstaged written archive f.
  - cbn. rewrite app_nil_r. reflexivity.
  - cbn [for_fold new_names written_after].
    unfold mbind at 1, M_bind at 1.
    unfold assemble_costume at 1. unfold mbind at 1, M_bind at 1, lift at 1.
    rewrite Hd.
    destruct (Hstaged m) as [Hne [file Hfile]]; [set_solver|].
    assert (Hrest : ∀ m', m' ∈ ms →
              path_join temp_dir m' ≠ out ∧
              is_Some (fs w0 !! path_join temp_dir m')) by set_solver.
    destruct (decide (m ∈ written)) as [Hin|Hout].
    + rewrite decide_False by (intros Hn; apply Hn, Hin).
      unfold mret at 1, M_ret at 1. apply IH, Hrest.
    + rewrite decide_True by exact Hout.
      unfold mbind at 1, M_bind at 1, zip_write at 1.
      rewrite with_file_lookup_ne by congruence. rewrite Hfile.
      rewrite with_file_twice. unfold mret at 1, M_ret at 1.
      rewrite IH by exact Hrest.
      assert (Hm : staged_member w0 temp_dir m =
                   {| arcname := m; data := file_bytes file;
                      compress_type := ZIP_STORED |}).
      { unfold staged_member. rewrite Hfile. reflexivity. }
      rewrite <- Hm. cbn [map]. rewrite <- !app_assoc. cbn [app].
      destruct (new_names _ ms); reflexivity.
Qed.


End assemble_facts.

Section assemble_runs.
Context `{Platform}.

Lemma assemble_sprite_ok temp_dir out w fields ds ms :
  create_error out = None →
  dict_get (lit "costumes") fields = Some (JArr ds) →
  Forall2 has_md5ext ds ms →
  (∀ m, m ∈ ms →
     path_join temp_dir m ≠ out ∧ is_Some (fs w !! path_join temp_dir m)) →
  assemble_sprite temp_dir (JObj fields) out w =
    (Ok (),
     with_file out
       (ZipArchive (map (staged_member w temp_dir) (new_names ∅ ms) ++
                    [manifest_member (JObj fields)])) w).
Proof.
  intros Hcreate Hcostumes Hds Hstaged. unfold assemble_sprite.
  unfold mbind at 1, M_bind at 1, zip_create at 1. rewrite Hcreate.
  unfold mbind at 1, M_bind at 1, lift at 1. cbn [py_getitem]. rewrite Hcostumes.
  unfold mbind at 1, M_bind at 1, lift at 1. cbn [py_iter].
  unfold mbind at 1, M_bind at 1.
  rewrite (assemble_loop_ok temp_dir out w ds ms Hds Hstaged).
  unfold mbind at 1, M_bind at 1, zip_writestr at 1. cbn [snd app].
  rewrite with_file_twice. reflexivity.
Qed.

End assemble_runs.

(** C1.  Assembling a sprite whose [costumes] are descriptors with staged
    files, named by plain file names as the stream names them, at an output
    path where a file can be created, writes the archive: for each distinct
    [md5ext], at its first occurrence, one stored member with the staged
    bytes, then the manifest.  Every [md5ext] of the list names exactly one
    member, every member comes from the list, and the manifest is the
    serialised sprite, whose [costumes] are all the descriptors in the order
    received. *)
Theorem assemble_stores_each_md5ext_once `{Platform}
    (temp_dir out : str) (w : world) (fields : dict) (ds : list json) (ms : list str) :
  create_error out = None →
  dict_get (lit "costumes") fields = Some (JArr ds) →
  Forall2 has_md5ext ds ms →
  Forall (λ m, plain_name m = true) ms →
  (∀ m, m ∈ ms →
     path_join temp_dir m ≠ out ∧ is_Some (fs w !! path_join temp_dir m)) →
  ∃ binaries,
    assemble_sprite temp_dir (JObj fields) out w =
      (Ok (), with_file out
                (ZipArchive (binaries ++
                             [ {| arcname := lit "sprite.json";
                                  data := json_dumps (JObj fields);
                                  compress_type := ZIP_STORED |} ])) w)
    ∧ binaries = map (staged_member w temp_dir) (new_names ∅ ms)
    ∧ (∀ m, m ∈ ms → length (filter (λ e, arcname e = m) binaries) = 1%nat)
    ∧ (∀ e, e ∈ binaries →
         arcname e ∈ ms ∧ compress_type e = ZIP_STORED ∧
         ∃ f, fs w !! path_join temp_dir (arcname e) = Some f ∧
              data e = file_bytes f)
    ∧ py_getitem (JObj fields) (lit "costumes") = Ok (JArr ds).
Proof.
  intros Hcreate Hcostumes Hds _ Hstaged. eexists. split; [|split; [reflexivity|]].
  { eapply assemble_sprite_ok; eassumption. }
  repeat apply conj.
  - intros m Hm.
    assert (Hcount : ∀ l : list str,
              length (filter (λ e, arcname e = m)
                        (map (staged_member w temp_dir) l))
              = length (filter (λ y, y = m) l)).
    { induction l as [|y l IHl]; [reflexivity|].
      cbn [map]. rewrite !filter_cons. cbn [staged_member arcname].
      destruct (decide (y = m)); cbn [length]; rewrite IHl; reflexivity. }
    rewrite Hcount. apply NoDup_count_one; [apply new_names_NoDup|].
    apply new_names_spec. set_solver.
  - intros e He. apply list_elem_of_fmap in He as (m & -> & Hm).
    apply new_names_spec in Hm as [Hm _].
    destruct (Hstaged m Hm) as [_ [f Hf]].
    repeat apply conj; [exact Hm|reflexivity|].
    exists f. cbn [staged_member arcname data]. rewrite Hf. auto.
  - cbn [py_getitem]. rewrite Hcostumes. reflexivity.
Qed.

Lemma assemble_stores_each_md5ext_once_witness :
  ∃ binaries,
    @assemble_sprite sample_platform (lit "/tmp/") (JObj sample_sprite)
      (lit "../output/Printer.sprite3") sample_staging =
      (Ok (), with_file (lit "../output/Printer.sprite3")
                (ZipArchive (binaries ++
                             [@manifest_member sample_platform (JObj sample_sprite)]))
                sample_staging)
    ∧ map arcname binaries = [lit "aa.svg"; lit "bb.svg"].
Proof.
  destruct (@assemble_stores_each_md5ext_once sample_platform
              (lit "/tmp/") (lit "../output/Printer.sprite3") sample_staging
              sample_sprite
              [ sample_costume "sans-special-space" "aa.svg";
                sample_costume "sans-a" "bb.svg";
                sample_costume "mono-special-space" "aa.svg" ]
              [ lit "aa.svg"; lit "bb.svg"; lit "aa.svg" ])
    as (binaries & Hrun & Hbin & _).
  - reflexivity.
  - reflexivity.
  - repeat constructor.
  - repeat constructor.
  - intros m Hm.
    assert (Hcases : m = lit "aa.svg" ∨ m = lit "bb.svg").
    { rewrite !elem_of_cons in Hm. rewrite elem_of_nil in Hm. tauto. }
    destruct Hcases as [-> | ->];
      (split; [discriminate | eexists; vm_compute; reflexivity]).
  - exists binaries. split; [exact Hrun|]. rewrite Hbin. reflexivity.
Defined.




(** ** The loader and the round trip *)

Lemma dict_get_set {V} k (v : V) d : dict_get k (dict_set k v d) = Some v.
Proof.
  induction d as [|[k' v'] d IH]; cbn [dict_set dict_get].
  - rewrite decide_True; reflexivity.
  - destruct (decide (k = k')) as [->|Hne]; cbn [dict_get].
    + rewrite decide_True; reflexivity.
    + rewrite decide_False by exact Hne. exact IH.
Qed.

Lemma dict_get_set_ne {V} k k' (v : V) d :
  k ≠ k' → dict_get k' (dict_set k v d) = dict_get k' d.
Proof.
  intros Hne. induction d as [|[k0 v0] d IH]; cbn [dict_set dict_get].
  - rewrite decide_False by congruence. reflexivity.
  - destruct (decide (k = k0)) as [->|Hne0]; cbn [dict_get].
    + rewrite !decide_False by congruence. reflexivity.
    + destruct (decide (k' = k0)); [reflexivity|exact IH].
Qed.

(** Assigning to a key leaves the fields of the other keys as they are, in
    their order. *)
Lemma fields_except_set keys k v d :
  k ∈ keys → fields_except keys (dict_set k v d) = fields_except keys d.
Proof.
  intros Hk. unfold fields_except.
  induction d as [|[k' v'] d IH]; cbn [dict_set].
  - rewrite filter_cons. cbn [fst]. rewrite decide_False by tauto. reflexivity.
  - destruct (decide (k = k')) as [->|Hne].
    + rewrite !filter_cons. cbn [fst]. rewrite !decide_False by tauto. reflexivity.
    + rewrite !filter_cons. cbn [fst]. rewrite IH. reflexivity.
Qed.

Section load_facts.
Context `{Platform}.

Lemma load_sprite_code_ok path w members raw d0 :
  fs w !! path = Some (ZipArchive members) →
  zip_read (lit "sprite.json") members = Ok raw →
  json_loads raw = Some (JObj d0) →
  load_sprite_code path w =
    (Ok (JObj (dict_set (lit "sounds") (JArr [])
                 (dict_set (lit "current_costume") (JInt 0)
                    (dict_set (lit "costumes") (JArr []) d0)))), w).
Proof.
  intros Hfile Hread Hjson. unfold load_sprite_code.
  unfold mbind at 1, M_bind at 1, zip_open at 1. rewrite Hfile.
  unfold mbind at 1, M_bind at 1, lift at 1. rewrite Hread.
  unfold mbind at 1, M_bind at 1, lift at 1. rewrite Hjson.
  reflexivity.
Qed.
End load_facts.

(** C4, as stated, fails: the manifest of [compact_input] is written
    without spaces after its commas and colons, and has [costumes] and
    [sounds] empty and [current_costume] 0 already.  The manifest loaded is
    the document that the original parses to, field by field; the manifest
    written is its [json.dumps], with spaces, and the bytes of the field
    [name], a field of the behaviour, are not the original's. *)
Lemma round_trip_changes_bytes :
  let out := lit "../output/Printer.sprite3" in
  let raw := latin1_bytes compact_text in
  let written :=
    latin1_bytes (Vector.q "{'isStage': false, 'name': 'Printer', 'costumes': [], 'current_costume': 0, 'sounds': [], 'volume': 100}") in
  let name_field := latin1_bytes (Vector.q "'name':'Printer'") in
  let run := @assemble_sprite compact_platform (lit "/tmp/")
               (JObj compact_manifest) out compact_input in
  fs compact_input !! lit "../input/Printer.sprite3"
    = Some (ZipArchive [ {| arcname := lit "sprite.json"; data := raw;
                            compress_type := ZIP_DEFLATED |} ])
  ∧ @json_loads compact_platform raw = Some (JObj compact_manifest)
  ∧ @load_sprite_code compact_platform (lit "../input/Printer.sprite3")
      compact_input = (Ok (JObj compact_manifest), compact_input)
  ∧ run.1 = Ok ()
  ∧ fs run.2 !! out
    = Some (ZipArchive [ {| arcname := lit "sprite.json"; data := written;
                            compress_type := ZIP_STORED |} ])
  ∧ written ≠ raw
  ∧ bytes_in name_field raw = true
  ∧ bytes_in name_field written = false.
Proof.
  intros out raw written name_field run.
  split; [vm_compute; reflexivity|].
  split; [vm_compute; reflexivity|].
  split.
  { apply (@load_sprite_code_ok compact_platform) with
      (members := [ {| arcname := lit "sprite.json"; data := raw;
                       compress_type := ZIP_DEFLATED |} ])
      (raw := raw) (d0 := compact_manifest).
    - vm_compute. reflexivity.
    - reflexivity.
    - vm_compute. reflexivity. }
  split; [vm_compute; reflexivity|].
  split; [vm_compute; reflexivity|].
  split; [vm_compute; discriminate|].
  split; vm_compute; reflexivity.
Qed.

(** C4, amended.  Loading a well-formed archive (it holds a [sprite.json]
    that parses to an object) and assembling the loaded manifest, which has
    no descriptors, at an output path where a file can be created, writes an
    archive whose only member is the [json.dumps] of the loaded manifest; in
    it [costumes] and [sounds] are empty, [current_costume] is 0, and the
    fields of the behaviour, those other than [costumes], [sounds] and
    [current_costume], are those of the document that the original manifest
    parses to: the same keys, with the same values, in the same order.  The
    input archive is left as it was (when the output path is another). *)
Theorem round_trip_keeps_behaviour `{Platform}
    (temp_dir input output : str) (w : world)
    (members : list zip_entry) (raw : bytes) (d0 : dict) :
  fs w !! input = Some (ZipArchive members) →
  zip_read (lit "sprite.json") members = Ok raw →
  json_loads raw = Some (JObj d0) →
  create_error output = None →
  ∃ d1,
    load_sprite_code input w = (Ok (JObj d1), w)
    ∧ assemble_sprite temp_dir (JObj d1) output w
      = (Ok (), with_file output
                  (ZipArchive [ {| arcname := lit "sprite.json";
                                   data := json_dumps (JObj d1);
                                   compress_type := ZIP_STORED |} ]) w)
    ∧ dict_get (lit "costumes") d1 = Some (JArr [])
    ∧ dict_get (lit "current_costume") d1 = Some (JInt 0)
    ∧ dict_get (lit "sounds") d1 = Some (JArr [])
    ∧ fields_except [lit "costumes"; lit "sounds"; lit "current_costume"] d1
      = fields_except [lit "costumes"; lit "sounds"; lit "current_costume"] d0
    ∧ (input ≠ output →
       fs (with_file output (ZipArchive [manifest_member (JObj d1)]) w) !! input
       = Some (ZipArchive members)).
Proof.
  intros Hfile Hread Hjson Hcreate. eexists. split.
  { eapply load_sprite_code_ok; eassumption. }
  assert (Hcostumes :
    dict_get (lit "costumes")
      (dict_set (lit "sounds") (JArr [])
         (dict_set (lit "current_costume") (JInt 0)
            (dict_set (lit "costumes") (JArr []) d0))) = Some (JArr [])).
  { rewrite !dict_get_set_ne by discriminate. apply dict_get_set. }
  repeat apply conj.
  - apply (assemble_sprite_ok _ _ _ _ [] [] Hcreate Hcostumes).
    + constructor.
    + intros m Hm. apply elem_of_nil in Hm as [].
  - exact Hcostumes.
  - rewrite dict_get_set_ne by discriminate. apply dict_get_set.
  - apply dict_get_set.
  - rewrite !fields_except_set by set_solver. reflexivity.
  - intros Hne. rewrite with_file_lookup_ne by congruence. exact Hfile.
Qed.

Lemma round_trip_keeps_behaviour_witness :
  ∃ d1,
    @load_sprite_code sample_platform (lit "../input/Printer.sprite3")
      sample_input = (Ok (JObj d1), sample_input)
    ∧ fields_except [lit "costumes"; lit "sounds"; lit "current_costume"] d1
      = [ (lit "isStage", JBool false);
          (lit "name", JStr (lit "Printer"));
          (lit "blocks",
           JObj [ (lit "a1", JObj [ (lit "opcode", JStr (lit "pen_stamp")) ]) ]);
          (lit "volume", JInt 100) ].
Proof.
  destruct (@round_trip_keeps_behaviour sample_platform
              (lit "/tmp/") (lit "../input/Printer.sprite3")
              (lit "../output/Printer.sprite3") sample_input
              [ {| arcname := lit "sprite.json";
                   data := latin1_bytes (sample_dumps (JObj sample_manifest));
                   compress_type := ZIP_DEFLATED |} ]
              (latin1_bytes (sample_dumps (JObj sample_manifest)))
              sample_manifest)
    as (d1 & Hload & _ & _ & _ & _ & Hfields & _).
  - vm_compute. reflexivity.
  - reflexivity.
  - vm_compute. reflexivity.
  - reflexivity.
  - exists d1. split; [exact Hload|]. rewrite Hfields. vm_compute. reflexivity.
Defined.


(** * Further properties of the code *)

(** ** [name_for] within one font *)

Lemma ascii_lower_fixed_replace a b l :
  ascii_lower b = b →
  Forall (λ e, ascii_lower e = e) l →
  Forall (λ e, ascii_lower e = e) (str_replace a b l).
Proof.
  intros Hb Hl. unfold str_replace. apply Forall_fmap.
  eapply Forall_impl; [exact Hl|]. intros e He. cbn.
  destruct (e =? a); assumption.
Qed.

Lemma ascii_lower_idempotent c : ascii_lower (ascii_lower c) = ascii_lower c.
Proof. unfold ascii_lower. cases_on_ranges. Qed.

Lemma ascii_lower_below c : c < 128 → ascii_lower c < 128.
Proof. unfold ascii_lower. intros Hc. cases_on_ranges. Qed.

Lemma map_fixed {A} (f : A → A) l : Forall (λ e, f e = e) l → map f l = l.
Proof.
  induction 1 as [|e l He Hl IH]; [reflexivity|]. cbn. rewrite He, IH. reflexivity.
Qed.

Lemma lowercase_ascii_below s :
  lowercase_ascii s = true → Forall (λ c, c < 128) s.
Proof.
  unfold lowercase_ascii. intros Hs. apply List.Forall_forall. intros c Hc.
  rewrite forallb_forall in Hs. specialize (Hs c Hc).
  apply andb_true_iff in Hs as [Hlt _]. apply N.ltb_lt, Hlt.
Qed.

Section name_for_tokens.
Context `{Platform}.
Hypothesis lower_law : lower_ascii_law.

(** Rule 1 on a lower-case ASCII font id. *)
Lemma name_for_lower_digit_token font_id c :
  lowercase_ascii font_id = true → is_lower c || is_digit c = true →
  name_for font_id [c] = Ok (font_id ++ lit "-" ++ [c]).
Proof.
  intros Hid Hc. rewrite name_for_lower_digit by exact Hc. f_equal.
  apply lower_fixes_lowercase_ascii; [exact lower_law|].
  rewrite !lowercase_ascii_app, Hid. cbn. clear Hid. cases_on_ranges.
Qed.

(** Rule 3 on a lower-case ASCII font id and an ASCII Unicode name. *)
Lemma name_for_special_token font_id c n :
  lowercase_ascii font_id = true →
  is_lower c || is_digit c = false → is_upper c = false →
  unicodedata_name c = Some n → Forall (λ a, a < 128) n →
  name_for font_id [c] =
    Ok (font_id ++ lit "-special-" ++
        str_replace 32 45 (str_replace 95 45 (map ascii_lower n))).
Proof.
  intros Hid Hc Hu Hn Hascii.
  rewrite name_for_special, Hn by assumption. f_equal.
  rewrite (lower_law n Hascii).
  set (m := str_replace 32 45 (str_replace 95 45 (map ascii_lower n))).
  assert (Hm_fixed : Forall (λ e, ascii_lower e = e) m).
  { subst m. do 2 (apply ascii_lower_fixed_replace; [reflexivity|]).
    apply Forall_fmap, Forall_true. intros e. apply ascii_lower_idempotent. }
  assert (Hm_ascii : Forall (λ e, e < 128) m).
  { subst m. unfold str_replace. do 2 apply Forall_fmap.
    apply Forall_fmap. eapply Forall_impl; [exact Hascii|].
    intros e He. cbn. apply ascii_lower_below in He.
    destruct (ascii_lower e =? 95); cbn;
      [reflexivity|destruct (ascii_lower e =? 32); [reflexivity|exact He]]. }
  rewrite lower_law.
  - rewrite !map_app, (map_fixed _ m Hm_fixed). f_equal.
    rewrite <- (lower_law font_id) by (apply lowercase_ascii_below, Hid).
    apply lower_fixes_lowercase_ascii; assumption.
  - repeat (apply Forall_app; split); try exact Hm_ascii.
    + apply lowercase_ascii_below, Hid.
    + apply forallb_ascii. reflexivity.
Qed.
End name_for_tokens.

(** X1.  Within one font (a lower-case ASCII font id), on a platform whose
    Unicode names are ASCII, two different characters get different names,
    unless both are special characters (neither a letter nor a digit of the
    two alphabets) whose Unicode names coincide once lower-cased and
    hyphenated.  So a letter and its upper-case form never share a name, nor
    do a letter or a digit and a special character. *)
Theorem name_for_injective `{Platform} (font_id : str) (c1 c2 : N) (n1 n2 : str) :
  lower_ascii_law →
  (∀ c n, unicodedata_name c = Some n → Forall (λ a, a < 128) n) →
  lowercase_ascii font_id = true →
  name_for font_id [c1] = Ok n1 →
  name_for font_id [c2] = Ok n2 →
  c1 ≠ c2 →
  (∀ u1 u2,
     is_lower c1 || is_digit c1 || is_upper c1 = false →
     is_lower c2 || is_digit c2 || is_upper c2 = false →
     unicodedata_name c1 = Some u1 → unicodedata_name c2 = Some u2 →
     str_replace 32 45 (str_replace 95 45 (str_lower u1))
     ≠ str_replace 32 45 (str_replace 95 45 (str_lower u2))) →
  n1 ≠ n2.
Proof.
  intros Hlaw Hascii Hid H1 H2 Hne Hspecial <-.
  change (lit "-special-") with [45; 115; 112; 101; 99; 105; 97; 108; 45] in *.
  assert (Hclass : ∀ c x, name_for font_id [c] = Ok x →
            x = font_id ++ [45; c] ∨
            x = font_id ++ [45; 117; 112; 112; 101; 114; 45; c] ∨
            is_lower c || is_digit c || is_upper c = false ∧
            ∃ u, unicodedata_name c = Some u ∧
                 x = font_id ++ [45; 115; 112; 101; 99; 105; 97; 108; 45] ++
                     str_replace 32 45 (str_replace 95 45 (str_lower u))).
  { intros c x Hx.
    destruct (is_lower c || is_digit c) eqn:Hld.
    { rewrite name_for_lower_digit_token in Hx by assumption.
      injection Hx as <-. left. reflexivity. }
    destruct (is_upper c) eqn:Hu.
    { rewrite name_for_upper in Hx by assumption.
      injection Hx as <-. right. left. reflexivity. }
    right. right. split; [reflexivity|].
    destruct (unicodedata_name c) as [u|] eqn:Hu'.
    - rewrite (name_for_special_token Hlaw font_id c u) in Hx
        by (try assumption; eapply Hascii, Hu').
      injection Hx as <-. exists u. split; [reflexivity|].
      rewrite (Hlaw u) by (eapply Hascii, Hu'). reflexivity.
    - rewrite name_for_special, Hu' in Hx by assumption. discriminate. }
  destruct (Hclass c1 n1 H1) as [E1|[E1|(S1 & u1 & Hu1 & E1)]];
    destruct (Hclass c2 n1 H2) as [E2|[E2|(S2 & u2 & Hu2 & E2)]];
    rewrite E1 in E2; apply app_inv_head in E2;
    try discriminate E2; try (injection E2 as ->; exact (Hne eq_refl)).
  injection E2 as E2. exact (Hspecial u1 u2 S1 S2 Hu1 Hu2 E2).
Qed.

Lemma assoc_In {A} k (v : A) l : assoc k l = Some v → In (k, v) l.
Proof.
  induction l as [|[k' v'] l IH]; cbn [assoc]; [discriminate|].
  destruct (N.eqb_spec k k') as [->|Hne].
  - intros [= ->]. left. reflexivity.
  - intros Hl. right. apply IH, Hl.
Qed.

Lemma sample_names_ascii c n :
  @unicodedata_name sample_platform c = Some n → Forall (λ a, a < 128) n.
Proof.
  intros Hn. apply assoc_In in Hn.
  assert (Hall : forallb (λ kv, forallb (λ a, a <? 128) kv.2) special_names = true)
    by (vm_compute; reflexivity).
  rewrite forallb_forall in Hall. apply forallb_ascii, (Hall _ Hn).
Qed.

Lemma name_for_injective_witness :
  @name_for sample_platform (lit "sans") [97] = Ok (lit "sans-a")
  ∧ @name_for sample_platform (lit "sans") [65] = Ok (lit "sans-upper-A")
  ∧ lit "sans-a" ≠ lit "sans-upper-A"
  ∧ @name_for sample_platform (lit "sans") [47] = Ok (lit "sans-special-solidus")
  ∧ @name_for sample_platform (lit "sans") [92]
    = Ok (lit "sans-special-reverse-solidus")
  ∧ lit "sans-special-solidus" ≠ lit "sans-special-reverse-solidus".
Proof.
  assert (Ha : @name_for sample_platform (lit "sans") [97] = Ok (lit "sans-a"))
    by (vm_compute; reflexivity).
  assert (HA : @name_for sample_platform (lit "sans") [65]
               = Ok (lit "sans-upper-A")) by (vm_compute; reflexivity).
  assert (Hs : @name_for sample_platform (lit "sans") [47]
               = Ok (lit "sans-special-solidus")) by (vm_compute; reflexivity).
  assert (Hr : @name_for sample_platform (lit "sans") [92]
               = Ok (lit "sans-special-reverse-solidus"))
    by (vm_compute; reflexivity).
  repeat apply conj; try assumption.
  - apply (@name_for_injective sample_platform (lit "sans") 97 65 _ _
             (λ s _, eq_refl) sample_names_ascii eq_refl Ha HA).
    + discriminate.
    + intros u1 u2 Habsurd. discriminate Habsurd.
  - apply (@name_for_injective sample_platform (lit "sans") 47 92 _ _
             (λ s _, eq_refl) sample_names_ascii eq_refl Hs Hr).
    + discriminate.
    + intros u1 u2 _ _ Hu1 Hu2. vm_compute in Hu1, Hu2.
      injection Hu1 as <-. injection Hu2 as <-. vm_compute. discriminate.
Defined.

(** ** [name_for] on a string that is not one character *)

Lemma str_in_nil hay : str_in [] hay = true.
Proof. destruct hay; reflexivity. Qed.

Lemma starts_with_length needle hay :
  starts_with needle hay = true → (length needle ≤ length hay)%nat.
Proof.
  revert hay. induction needle as [|a needle IH]; intros [|b hay]; cbn;
    try discriminate; try lia.
  intros Hs. apply andb_true_iff in Hs as [_ Hs]. specialize (IH _ Hs). lia.
Qed.

Lemma str_in_length needle hay :
  str_in needle hay = true → (length needle ≤ length hay)%nat.
Proof.
  induction hay as [|b hay IH]; cbn [str_in]; intros Hs.
  - rewrite orb_false_r in Hs. apply starts_with_length in Hs. exact Hs.
  - apply orb_true_iff in Hs as [Hs|Hs].
    + apply starts_with_length in Hs. exact Hs.
    + specialize (IH Hs). cbn. lia.
Qed.

(** X2.  [name_for] tests its argument with [in], the substring test, so it
    does not insist on one character: the empty string is named by rule 1
    (the result is the lower-cased ["{font_id}-"]), as is every other
    substring of the lower-case alphabet followed by the digits; a string of
    two or more characters that is a substring of neither alphabet (so every
    string longer than 36 characters) makes [unicodedata.name] raise
    [TypeError]. *)
Theorem name_for_not_one_character `{Platform} (font_id : str) :
  name_for font_id [] = Ok (str_lower (font_id ++ lit "-"))
  ∧ (∀ s, str_in s (lit "abcdefghijklmnopqrstuvwxyz0123456789") = true →
       name_for font_id s = Ok (str_lower (font_id ++ lit "-" ++ s)))
  ∧ (∀ s, (2 ≤ length s)%nat →
       str_in s (lit "abcdefghijklmnopqrstuvwxyz0123456789") = false →
       str_in s (lit "ABCDEFGHIJKLMNOPQRSTUVWXYZ") = false →
       name_for font_id s = Raise TypeError)
  ∧ (∀ s, (36 < length s)%nat → name_for font_id s = Raise TypeError).
Proof.
  assert (Hlong : ∀ s, (2 ≤ length s)%nat →
            str_in s (lit "abcdefghijklmnopqrstuvwxyz0123456789") = false →
            str_in s (lit "ABCDEFGHIJKLMNOPQRSTUVWXYZ") = false →
            name_for font_id s = Raise TypeError).
  { intros s Hlen Hl Hu. unfold name_for. rewrite Hl, Hu.
    destruct s as [|a [|b s]]; cbn in Hlen; try lia. reflexivity. }
  repeat apply conj.
  - unfold name_for. rewrite str_in_nil, app_nil_r. reflexivity.
  - intros s Hs. unfold name_for. rewrite Hs. reflexivity.
  - exact Hlong.
  - intros s Hlen. apply Hlong; [lia| |].
    + destruct (str_in s _) eqn:Hs; [|reflexivity].
      apply str_in_length in Hs. cbn in Hs. lia.
    + destruct (str_in s _) eqn:Hs; [|reflexivity].
      apply str_in_length in Hs. cbn in Hs. lia.
Qed.

Lemma name_for_not_one_character_witness :
  @name_for sample_platform (lit "sans") (lit "xyz0") = Ok (lit "sans-xyz0")
  ∧ @name_for sample_platform (lit "sans") (lit "a/") = Raise TypeError.
Proof.
  split.
  - rewrite (proj1 (proj2 (@name_for_not_one_character sample_platform
                             (lit "sans"))) (lit "xyz0") eq_refl).
    reflexivity.
  - apply (proj1 (proj2 (proj2 (@name_for_not_one_character sample_platform
                                  (lit "sans"))))).
    + cbn. lia.
    + reflexivity.
    + reflexivity.
Defined.

(** ** What [load_sprite_code] returns *)

Lemma zip_read_last name members e :
  arcname e = name → zip_read name (members ++ [e]) = Ok (data e).
Proof.
  intros He. induction members as [|e' members IH]; cbn [app zip_read].
  - rewrite decide_True by exact He. reflexivity.
  - rewrite IH. reflexivity.
Qed.

Lemma dict_set_set {V} k (v v' : V) d :
  dict_set k v (dict_set k v' d) = dict_set k v d.
Proof.
  induction d as [|[k0 v0] d IH]; cbn [dict_set].
  - rewrite decide_True by reflexivity. reflexivity.
  - destruct (decide (k = k0)) as [->|Hne]; cbn [dict_set].
    + rewrite decide_True by reflexivity. reflexivity.
    + rewrite decide_False by exact Hne. rewrite IH. reflexivity.
Qed.

Section load_more.
Context `{Platform}.

Lemma load_sprite_code_world path w : (load_sprite_code path w).2 = w.
Proof.
  unfold load_sprite_code, zip_open, mbind, M_bind, lift, mret, M_ret.
  destruct (fs w !! path) as [[content|members]|]; try reflexivity.
  destruct (zip_read _ members) as [raw|e]; [|reflexivity].
  destruct (json_loads raw) as [v|]; [|reflexivity].
  destruct v; reflexivity.
Qed.

Lemma load_sprite_code_inv path w sprite w' :
  load_sprite_code path w = (Ok sprite, w') →
  ∃ members raw d0,
    fs w !! path = Some (ZipArchive members) ∧
    zip_read (lit "sprite.json") members = Ok raw ∧
    json_loads raw = Some (JObj d0) ∧
    sprite = JObj (dict_set (lit "sounds") (JArr [])
                     (dict_set (lit "current_costume") (JInt 0)
                        (dict_set (lit "costumes") (JArr []) d0))) ∧
    w' = w.
Proof.
  unfold load_sprite_code, zip_open, mbind, M_bind, lift, mret, M_ret.
  destruct (fs w !! path) as [[content|members]|]; try discriminate.
  destruct (zip_read _ members) as [raw|e] eqn:Hread; [|discriminate].
  destruct (json_loads raw) as [v|] eqn:Hjson; [|discriminate].
  destruct v; try discriminate. cbn [py_setitem].
  intros [= <- <-]. eauto 10.
Qed.

Lemma append_costumes_list d items ds :
  dict_get (lit "costumes") d = Some (JArr items) →
  append_costumes (JObj d) ds
  = Ok (JObj (dict_set (lit "costumes") (JArr (items ++ ds)) d)).
Proof.
  revert d items. induction ds as [|c ds IH]; intros d items Hd.
  - cbn [append_costumes]. rewrite app_nil_r. f_equal. f_equal.
    induction d as [|[k v] d IHd]; [discriminate Hd|].
    cbn [dict_get dict_set] in *. destruct (decide _) as [->|Hne].
    + injection Hd as ->. reflexivity.
    + f_equal. apply IHd, Hd.
  - cbn [append_costumes]. unfold append_costume at 1.
    unfold mbind, result_bind. cbn [py_getitem]. rewrite Hd. cbn [py_setitem].
    rewrite (IH _ (items ++ [c])) by apply dict_get_set.
    rewrite dict_set_set, <- app_assoc. reflexivity.
Qed.
End load_more.

(** X4.  A manifest that [load_sprite_code] returns is an object whose
    [costumes] is the empty list, so that appending descriptors to it, as the
    loop of [main] does, cannot fail: afterwards [costumes] holds exactly the
    descriptors appended, in order, and the other fields are as loaded. *)
Theorem loaded_sprite_takes_costumes `{Platform}
    (path : str) (w w' : world) (sprite : json) (ds : list json) :
  load_sprite_code path w = (Ok sprite, w') →
  ∃ d1,
    sprite = JObj d1
    ∧ dict_get (lit "costumes") d1 = Some (JArr [])
    ∧ append_costumes sprite ds
      = Ok (JObj (dict_set (lit "costumes") (JArr ds) d1))
    ∧ dict_get (lit "costumes") (dict_set (lit "costumes") (JArr ds) d1)
      = Some (JArr ds)
    ∧ fields_except [lit "costumes"] (dict_set (lit "costumes") (JArr ds) d1)
      = fields_except [lit "costumes"] d1.
Proof.
  intros Hload.
  apply load_sprite_code_inv in Hload as (members & raw & d0 & _ & _ & _ & -> & _).
  eexists. split; [reflexivity|].
  assert (Hcostumes :
    dict_get (lit "costumes")
      (dict_set (lit "sounds") (JArr [])
         (dict_set (lit "current_costume") (JInt 0)
            (dict_set (lit "costumes") (JArr []) d0))) = Some (JArr [])).
  { rewrite !dict_get_set_ne by discriminate. apply dict_get_set. }
  repeat apply conj.
  - exact Hcostumes.
  - rewrite (append_costumes_list _ [] ds Hcostumes). reflexivity.
  - apply dict_get_set.
  - apply fields_except_set. set_solver.
Qed.

Lemma loaded_sprite_takes_costumes_witness :
  ∃ d1,
    (@load_sprite_code sample_platform (lit "../input/Printer.sprite3")
       sample_input).1 = Ok (JObj d1)
    ∧ append_costumes (JObj d1) [sample_costume "sans-a" "bb.svg"]
      = Ok (JObj (dict_set (lit "costumes")
                    (JArr [sample_costume "sans-a" "bb.svg"]) d1)).
Proof.
  assert (Hload : ∃ d1,
            (@load_sprite_code sample_platform (lit "../input/Printer.sprite3")
               sample_input).1 = Ok (JObj d1))
    by (eexists; vm_compute; reflexivity).
  destruct Hload as [d1 Hd1]. exists d1. split; [exact Hd1|].
  destruct (@loaded_sprite_takes_costumes sample_platform _ _ _ _
              [sample_costume "sans-a" "bb.svg"] (run_eta _ _ Hd1))
    as (d & [= <-] & _ & Happend & _).
  exact Happend.
Defined.

(** ** [assemble_sprite]: what it touches, and bad manifests *)

Section assemble_more.
Context `{Platform}.
Variables (temp_dir out : str).

Lemma same_but_refl w : same_but out w w.
Proof. split; auto. Qed.

Lemma same_but_trans w1 w2 w3 : same_but out w1 w2 → same_but out w2 w3 → same_but out w1 w3.
Proof.
  intros [Hf1 Hp1] [Hf2 Hp2]. split; [|congruence].
  intros path Hpath. rewrite Hf2, Hf1 by exact Hpath. reflexivity.
Qed.

Lemma same_but_with_file f w : same_but out w (with_file out f w).
Proof.
  split; [|reflexivity]. intros path Hpath.
  apply with_file_lookup_ne. congruence.
Qed.

Lemma assemble_costume_step written archive costume w r w' :
  assemble_costume temp_dir out (written, archive) costume w = (r, w') →
  fs w !! out = Some (ZipArchive archive) → all_stored archive →
  same_but out w w' ∧
  match r with
  | Ok (_, archive') =>
      fs w' !! out = Some (ZipArchive archive') ∧ all_stored archive'
  | Raise _ => w' = w
  end.
Proof.
  unfold assemble_costume, mbind, M_bind, lift, mret, M_ret, raise, zip_write.
  intros Hrun Hout Hstored.
  destruct (py_getitem costume _) as [[| | | |m| |]|e];
    try (injection Hrun as <- <-; split; [apply same_but_refl|reflexivity]).
  destruct (decide (m ∉ written)).
  - destruct (fs w !! path_join temp_dir m) as [f|].
    + injection Hrun as <- <-. split; [apply same_but_with_file|]. split.
      * apply with_file_lookup.
      * apply Forall_app. split; [exact Hstored|]. repeat constructor.
    + injection Hrun as <- <-. split; [apply same_but_refl|reflexivity].
  - injection Hrun as <- <-. split; [apply same_but_refl|]. auto.
Qed.

Lemma assemble_loop_frame costumes : ∀ written archive w r w',
  for_fold (assemble_costume temp_dir out) costumes (written, archive) w = (r, w') →
  fs w !! out = Some (ZipArchive archive) → all_stored archive →
  same_but out w w' ∧
  ∃ members,
    fs w' !! out = Some (ZipArchive members) ∧ all_stored members ∧
    ∀ st, r = Ok st → st.2 = members.
Proof.
  induction costumes as [|costume costumes IH]; intros written archive w r w'.
  - intros [= <- <-] Hout Hstored. split; [apply same_but_refl|].
    exists archive. repeat split; try assumption. intros st [= <-]. reflexivity.
  - cbn [for_fold]. unfold mbind at 1, M_bind at 1.
    destruct (assemble_costume _ _ _ _ w) as [[[written1 archive1]|e] w1] eqn:Hstep;
      intros Hrun Hout Hstored;
      destruct (assemble_costume_step _ _ _ _ _ _ Hstep Hout Hstored)
        as [Hsame Hpost].
    + destruct Hpost as [Hout1 Hstored1].
      destruct (IH _ _ _ _ _ Hrun Hout1 Hstored1) as [Hsame' Hmembers].
      split; [eapply same_but_trans; eassumption|exact Hmembers].
    + injection Hrun as <- <-. subst w1. split; [apply same_but_refl|].
      exists archive. repeat split; try assumption. discriminate.
Qed.

Lemma assemble_sprite_frame sprite w r w' :
  assemble_sprite temp_dir sprite out w = (r, w') →
  same_but out w w'
  ∧ (∀ e, create_error out = Some e → r = Raise e ∧ w' = w)
  ∧ (create_error out = None →
     ∃ members,
       fs w' !! out = Some (ZipArchive members) ∧ all_stored members ∧
       (r = Ok () → ∃ binaries, members = binaries ++ [manifest_member sprite])).
Proof.
  unfold assemble_sprite.
  unfold mbind at 1, M_bind at 1, zip_create at 1.
  destruct (create_error out) as [e0|].
  { intros [= <- <-]. split; [apply same_but_refl|].
    split; [intros e [= <-]; auto|discriminate]. }
  unfold mbind at 1, M_bind at 1, lift at 1.
  assert (Hempty : ∀ e : exn,
    same_but out w (with_file out (ZipArchive []) w)
    ∧ (∀ e', None = Some e' →
         @Raise () e = Raise e' ∧ with_file out (ZipArchive []) w = w)
    ∧ (@None exn = None →
       ∃ members,
         fs (with_file out (ZipArchive []) w) !! out = Some (ZipArchive members) ∧
         all_stored members ∧
         (@Raise () e = Ok () →
          ∃ binaries, members = binaries ++ [manifest_member sprite]))).
  { intros e. split; [apply same_but_with_file|]. split; [discriminate|].
    intros _. exists [].
    repeat split; [apply with_file_lookup|constructor|discriminate]. }
  destruct (py_getitem sprite _) as [costumes|e];
    [|intros [= <- <-]; apply Hempty].
  unfold mbind at 1, M_bind at 1, lift at 1.
  destruct (py_iter costumes) as [items|e]; [|intros [= <- <-]; apply Hempty].
  unfold mbind at 1, M_bind at 1.
  destruct (for_fold _ items _ _) as [[[written archive]|e] w1] eqn:Hloop;
    destruct (assemble_loop_frame _ _ _ _ _ _ Hloop (with_file_lookup _ _ _)
                ltac:(constructor))
      as [Hsame (members & Hout & Hstored & Hmembers)].
  - unfold mbind at 1, M_bind at 1, zip_writestr at 1. cbn [snd].
    intros [= <- <-]. split; [|split; [discriminate|intros _]].
    + eapply same_but_trans; [apply same_but_with_file|].
      eapply same_but_trans; [exact Hsame|apply same_but_with_file].
    + pose proof (Hmembers _ eq_refl) as Harchive. cbn [snd] in Harchive.
      subst members.
      eexists. repeat split; [apply with_file_lookup| |eauto].
      apply Forall_app. split; [exact Hstored|]. repeat constructor.
  - intros [= <- <-]. split; [|split; [discriminate|intros _]].
    + eapply same_but_trans; [apply same_but_with_file|exact Hsame].
    + exists members. repeat split; try assumption. discriminate.
Qed.
End assemble_more.

(** X5.  Whatever the manifest and the staged files, and whether it returns
    or raises, [assemble_sprite] changes no file but the one at the output
    path and starts no process.  When no file can be created at the output
    path it raises the error of [ZipFile] and changes nothing at all.
    Otherwise it leaves a zip archive at the output path, all of whose
    members are stored uncompressed; when it returns, the last member of the
    archive is the serialised manifest. *)
Theorem assemble_sprite_touches_only_output `{Platform}
    (temp_dir out : str) (sprite : json) (w w' : world) (r : result ()) :
  assemble_sprite temp_dir sprite out w = (r, w') →
  (∀ path, path ≠ out → fs w' !! path = fs w !! path)
  ∧ processes w' = processes w
  ∧ (∀ e, create_error out = Some e → r = Raise e ∧ w' = w)
  ∧ (create_error out = None →
     ∃ members,
       fs w' !! out = Some (ZipArchive members)
       ∧ Forall (λ e, compress_type e = ZIP_STORED) members
       ∧ (r = Ok () → ∃ binaries, members = binaries ++ [manifest_member sprite])).
Proof.
  intros Hrun.
  destruct (assemble_sprite_frame temp_dir out sprite w r w' Hrun)
    as ([Hfiles Hprocs] & Hfails & Hmembers).
  auto.
Qed.

Lemma assemble_sprite_touches_only_output_witness :
  (let run := @assemble_sprite sample_platform (lit "/tmp/")
                (JObj sample_sprite_missing) (lit "../output/Printer.sprite3")
                sample_staging in
   fs run.2 !! lit "/tmp/aa.svg" = fs sample_staging !! lit "/tmp/aa.svg"
   ∧ ∃ members, fs run.2 !! lit "../output/Printer.sprite3"
                = Some (ZipArchive members))
  ∧ (let run := @assemble_sprite unwritable_platform (lit "/tmp/")
                  (JObj sample_sprite) (lit "../output/Printer.sprite3")
                  sample_staging in
     run.1 = Raise FileNotFoundError ∧ run.2 = sample_staging).
Proof.
  split; intros run.
  - destruct (@assemble_sprite_touches_only_output sample_platform
                (lit "/tmp/") (lit "../output/Printer.sprite3")
                (JObj sample_sprite_missing) sample_staging _ _
                (surjective_pairing run))
      as (Hfiles & _ & _ & Hcreated).
    destruct (Hcreated eq_refl) as (members & Hout & _).
    split; [apply Hfiles; discriminate|eauto].
  - destruct (@assemble_sprite_touches_only_output unwritable_platform
                (lit "/tmp/") (lit "../output/Printer.sprite3")
                (JObj sample_sprite) sample_staging _ _
                (surjective_pairing run))
      as (_ & _ & Hfails & _).
    exact (Hfails FileNotFoundError eq_refl).
Defined.

Section assemble_bad.
Context `{Platform}.

Lemma assemble_loop_bad temp_dir out w d post written archive e :
  (py_getitem d (lit "md5ext") = Raise e ∨
   ∃ v, py_getitem d (lit "md5ext") = Ok v ∧ (∀ m, v ≠ JStr m) ∧ e = TypeError) →
  for_fold (assemble_costume temp_dir out) (d :: post) (written, archive) w
  = (Raise e, w).
Proof.
  intros Hd. cbn [for_fold]. unfold mbind at 1, M_bind at 1.
  unfold assemble_costume, mbind, M_bind, lift, raise.
  destruct Hd as [->|(v & -> & Hv & ->)]; [reflexivity|].
  destruct v; try reflexivity. destruct (Hv _ eq_refl).
Qed.

Lemma assemble_sprite_bad_descriptor temp_dir out w fields pre d post ms e :
  create_error out = None →
  dict_get (lit "costumes") fields = Some (JArr (pre ++ d :: post)) →
  Forall2 has_md5ext pre ms →
  (∀ m, m ∈ ms →
     path_join temp_dir m ≠ out ∧ is_Some (fs w !! path_join temp_dir m)) →
  (py_getitem d (lit "md5ext") = Raise e ∨
   ∃ v, py_getitem d (lit "md5ext") = Ok v ∧ (∀ m, v ≠ JStr m) ∧ e = TypeError) →
  assemble_sprite temp_dir (JObj fields) out w =
    (Raise e,
     with_file out
       (ZipArchive (map (staged_member w temp_dir) (new_names ∅ ms))) w).
Proof.
  intros Hcreate Hcostumes Hpre Hstaged Hd. unfold assemble_sprite.
  unfold mbind at 1, M_bind at 1, zip_create at 1. rewrite Hcreate.
  unfold mbind at 1, M_bind at 1, lift at 1. cbn [py_getitem]. rewrite Hcostumes.
  unfold mbind at 1, M_bind at 1, lift at 1. cbn [py_iter].
  unfold mbind at 1, M_bind at 1.
  rewrite for_fold_app.
  rewrite (assemble_loop_ok temp_dir out w pre ms Hpre Hstaged).
  rewrite (assemble_loop_bad _ _ _ _ _ _ _ e Hd).
  cbn [app]. destruct (new_names ∅ ms); reflexivity.
Qed.
End assemble_bad.

(** X6.  Where a file can be created at the output path, a manifest that
    [assemble_sprite] cannot use still costs the output file: when
    [sprite['costumes']] raises (no such key, or the manifest is no object)
    or its value cannot be iterated, the call raises that error and leaves
    an empty archive at the output path; when a descriptor has no [md5ext]
    ([KeyError]) or one that is not a string ([TypeError]), the call raises
    after the members of the descriptors before it, which have plain file
    names and staged files, have been written, and leaves those without a
    manifest. *)
Theorem assemble_sprite_bad_manifest `{Platform}
    (temp_dir out : str) (w : world) :
  create_error out = None →
  (∀ sprite e,
     py_getitem sprite (lit "costumes") = Raise e →
     assemble_sprite temp_dir sprite out w
     = (Raise e, with_file out (ZipArchive []) w))
  ∧ (∀ sprite costumes e,
     py_getitem sprite (lit "costumes") = Ok costumes →
     py_iter costumes = Raise e →
     assemble_sprite temp_dir sprite out w
     = (Raise e, with_file out (ZipArchive []) w))
  ∧ (∀ fields pre d post ms,
     dict_get (lit "costumes") fields = Some (JArr (pre ++ d :: post)) →
     Forall2 has_md5ext pre ms →
     Forall (λ m, plain_name m = true) ms →
     (∀ m, m ∈ ms →
        path_join temp_dir m ≠ out ∧ is_Some (fs w !! path_join temp_dir m)) →
     (py_getitem d (lit "md5ext") = Raise KeyError →
      assemble_sprite temp_dir (JObj fields) out w =
        (Raise KeyError,
         with_file out
           (ZipArchive (map (staged_member w temp_dir) (new_names ∅ ms))) w))
     ∧ (∀ v, py_getitem d (lit "md5ext") = Ok v → (∀ m, v ≠ JStr m) →
        assemble_sprite temp_dir (JObj fields) out w =
          (Raise TypeError,
           with_file out
             (ZipArchive (map (staged_member w temp_dir) (new_names ∅ ms))) w))).
Proof.
  intros Hcreate. repeat apply conj.
  - intros sprite e He. unfold assemble_sprite.
    unfold mbind at 1, M_bind at 1, zip_create at 1. rewrite Hcreate.
    unfold mbind at 1, M_bind at 1, lift at 1. rewrite He. reflexivity.
  - intros sprite costumes e Hc He. unfold assemble_sprite.
    unfold mbind at 1, M_bind at 1, zip_create at 1. rewrite Hcreate.
    unfold mbind at 1, M_bind at 1, lift at 1. rewrite Hc.
    unfold mbind at 1, M_bind at 1, lift at 1. rewrite He. reflexivity.
  - intros fields pre d post ms Hcostumes Hpre _ Hstaged. split.
    + intros Hd. eapply assemble_sprite_bad_descriptor; eauto.
    + intros v Hd Hv. eapply assemble_sprite_bad_descriptor; eauto 10.
Qed.

Lemma assemble_sprite_bad_manifest_witness :
  @assemble_sprite sample_platform (lit "/tmp/") (JObj sample_manifest)
    (lit "../output/Printer.sprite3") sample_staging
  = (Raise KeyError,
     with_file (lit "../output/Printer.sprite3") (ZipArchive []) sample_staging)
  ∧ @assemble_sprite sample_platform (lit "/tmp/") (JArr [])
      (lit "../output/Printer.sprite3") sample_staging
    = (Raise TypeError,
       with_file (lit "../output/Printer.sprite3") (ZipArchive []) sample_staging).
Proof.
  destruct (@assemble_sprite_bad_manifest sample_platform (lit "/tmp/")
              (lit "../output/Printer.sprite3") sample_staging eq_refl)
    as (Hkey & _ & Hdescriptor).
  split.
  - apply (proj1 (Hdescriptor sample_manifest []
                    (JObj [ (lit "name", JStr (lit "costume1")) ]) [] []
                    eq_refl ltac:(constructor) ltac:(constructor)
                    ltac:(intros m Hm; apply elem_of_nil in Hm as []))).
    reflexivity.
  - apply Hkey. reflexivity.
Defined.

(** ** [generate_glyph]: what it touches, and repetition *)

Lemma with_file_again a b x y w :
  with_file a x (with_file b y (with_file a x (with_file b y w)))
  = with_file a x (with_file b y w).
Proof.
  unfold with_file. cbn [fs processes]. f_equal.
  apply map_eq. intros i. rewrite !lookup_insert.
  repeat case_decide; reflexivity.
Qed.

(** X7.  Whatever its outcome, a call of [generate_glyph] changes no file
    but its temporary file and, when it returns, the staged file that its
    descriptor names; when it raises, every file but the temporary one is
    as before.  The vector one starts no process; the raster one records
    its command line at most once, and once when it returns; when the
    program cannot be started, the call raises the error of the operating
    system and nothing has changed. *)
Theorem generate_glyph_effects `{Platform} :
  (∀ g font name character w r w',
     Vector.generate_glyph g font name character w = (r, w') →
     processes w' = processes w
     ∧ (∀ path, path ≠ Vector.temp_svg g →
          (∀ d m, r = Ok d → has_md5ext d m →
                  path ≠ path_join (Vector.temp_dir g) m) →
          fs w' !! path = fs w !! path))
  ∧ (∀ g font name label w r w',
     Raster.generate_glyph g font name label w = (r, w') →
     (processes w' = processes w
      ∨ processes w' = processes w ++ [Raster.convert_argv g font label])
     ∧ (∀ d, r = Ok d →
          processes w' = processes w ++ [Raster.convert_argv g font label])
     ∧ (∀ e, convert (Raster.convert_argv g font label) = None →
          convert_failure (Raster.convert_argv g font label) = NotStarted e →
          r = Raise e ∧ w' = w)
     ∧ (∀ path, path ≠ Raster.temp_png g →
          (∀ d m, r = Ok d → has_md5ext d m →
                  path ≠ path_join (Raster.temp_dir g) m) →
          fs w' !! path = fs w !! path)).
Proof.
  split.
  - intros g font name character w r w' Hrun.
    rewrite vector_generate_glyph_run in Hrun.
    destruct (utf8_encode _) as [content|e0] eqn:Hencode.
    + cbn zeta in Hrun. destruct (decide _) as [Hsame|Hdiff];
        injection Hrun as <- <-; (split; [reflexivity|]).
      * intros path Hpath _. apply with_file_lookup_ne. congruence.
      * intros path Hpath Hstaged.
        rewrite with_file_lookup_ne.
        { apply with_file_lookup_ne. congruence. }
        intros <-. eapply Hstaged; reflexivity.
    + injection Hrun as <- <-. split; [reflexivity|].
      intros path Hpath _. apply with_file_lookup_ne. congruence.
  - intros g font name label w r w' Hrun.
    rewrite raster_generate_glyph_run in Hrun. cbn zeta in Hrun.
    destruct (convert _) as [png|].
    + destruct (decide _) as [Hsame|Hdiff];
        injection Hrun as <- <-; repeat apply conj;
        try (right; reflexivity); try (intros d _; reflexivity);
        try discriminate.
      * intros path Hpath _. rewrite with_file_lookup_ne by congruence.
        reflexivity.
      * intros path Hpath Hstaged.
        rewrite with_file_lookup_ne.
        { rewrite with_file_lookup_ne by congruence. reflexivity. }
        intros <-. eapply Hstaged; reflexivity.
    + injection Hrun as <- <-.
      destruct (render_fails_frame g font label w) as [Hfiles Hprocs].
      repeat apply conj; [exact Hprocs|discriminate| |].
      * intros e _ Hfail. unfold render_fails. rewrite Hfail. split; reflexivity.
      * intros path Hpath _. apply Hfiles, Hpath.
Qed.

Lemma generate_glyph_effects_witness :
  (let run := @Vector.generate_glyph sample_platform vector_sample_globals
                (lit "Serif") (lit "serif-x") [0xD800] sample_staging in
   run.1 = Raise UnicodeEncodeError ∧
   fs run.2 !! lit "/tmp/aa.svg" = fs sample_staging !! lit "/tmp/aa.svg")
  ∧ (let run := @Raster.generate_glyph sample_platform raster_sample_globals
                  (lit "font.ttf") (lit "sans-a") (lit "label:a")
                  sample_staging in
     processes run.2
     = [Raster.convert_argv raster_sample_globals (lit "font.ttf") (lit "label:a")]).
Proof.
  split; intros run.
  - assert (Hr : run.1 = Raise UnicodeEncodeError) by (vm_compute; reflexivity).
    destruct (proj1 (@generate_glyph_effects sample_platform) _ _ _ _ _ _ _
                (surjective_pairing run)) as (_ & Hframe).
    split; [exact Hr|].
    apply Hframe; [discriminate|]. rewrite Hr. discriminate.
  - assert (Hr : ∃ d, run.1 = Ok d) by (eexists; vm_compute; reflexivity).
    destruct Hr as [d Hd].
    destruct (proj2 (@generate_glyph_effects sample_platform) _ _ _ _ _ _ _
                (surjective_pairing run)) as (_ & Hlog & _ & _).
    exact (Hlog d Hd).
Defined.

(** X8.  Rendering the same glyph again changes nothing: a second call of
    the vector [generate_glyph] with the same arguments, in the world that
    the first one left, returns the same descriptor and leaves that world;
    a second call of the raster one returns the same descriptor and leaves
    the same files, having recorded its command line once more. *)
Theorem generate_glyph_again `{Platform} :
  (∀ g font name character w d w1,
     Vector.generate_glyph g font name character w = (Ok d, w1) →
     Vector.generate_glyph g font name character w1 = (Ok d, w1))
  ∧ (∀ g font name label w d w1,
     Raster.generate_glyph g font name label w = (Ok d, w1) →
     ∃ w2,
       Raster.generate_glyph g font name label w1 = (Ok d, w2) ∧
       fs w2 = fs w1 ∧
       processes w2 = processes w1 ++ [Raster.convert_argv g font label]).
Proof.
  split.
  - intros g font name character w d w1 Hrun.
    rewrite vector_generate_glyph_run in Hrun |- *.
    destruct (utf8_encode _) as [content|]; [|discriminate].
    cbn zeta in Hrun |- *. destruct (decide _); [discriminate|].
    injection Hrun as <- <-. rewrite with_file_again. reflexivity.
  - intros g font name label w d w1 Hrun.
    rewrite raster_generate_glyph_run in Hrun |- *. cbn zeta in Hrun |- *.
    destruct (convert _) as [png|]; [|discriminate].
    destruct (decide _) as [|Hdiff]; [discriminate|].
    set (h := MD5.hexdigest png) in *. clearbody h.
    injection Hrun as <- <-. eexists. split; [reflexivity|]. split; [|reflexivity].
    unfold with_file. cbn [fs].
    apply map_eq. intros i. rewrite !lookup_insert.
    repeat case_decide; reflexivity.
Qed.

Lemma generate_glyph_again_witness :
  let run := @Vector.generate_glyph sample_platform vector_sample_globals
               (lit "Serif") (lit "serif-a") (lit "a") empty_world in
  ∃ d, run.1 = Ok d ∧
       @Vector.generate_glyph sample_platform vector_sample_globals
         (lit "Serif") (lit "serif-a") (lit "a") run.2 = (Ok d, run.2).
Proof.
  intros run.
  assert (Hrun : ∃ d, run.1 = Ok d) by (eexists; vm_compute; reflexivity).
  destruct Hrun as [d Hd]. exists d. split; [exact Hd|].
  exact (proj1 (@generate_glyph_again sample_platform) _ _ _ _ _ _ _
           (run_eta run d Hd)).
Defined.

(** ** The fallback glyphs of the raster script *)

Section raster_images.
Context `{Platform}.

Lemma raster_glyph_image g font name label w d w' :
  Raster.generate_glyph g font name label w = (Ok d, w') →
  ∃ png,
    convert (Raster.convert_argv g font label) = Some png ∧
    py_getitem d (lit "assetId") = Ok (JStr (MD5.hexdigest png)) ∧
    py_getitem d (lit "md5ext") = Ok (JStr (MD5.hexdigest png ++ lit ".png")).
Proof.
  intros Hrun. rewrite raster_generate_glyph_run in Hrun. cbn zeta in Hrun.
  destruct (convert _) as [png|]; [|discriminate].
  destruct (decide _); [discriminate|].
  injection Hrun as <- _. exists png. repeat split.
Qed.

Lemma raster_stream_images g :
  yields_in_order (raster_image g) (Raster.generate_glyphs g)
    (stream_slots (Raster.fonts g) (Raster.characters g)).
Proof.
  unfold Raster.generate_glyphs, stream_slots.
  apply yields_in_order_for. intros f. unfold Raster.generate_font.
  apply (yields_in_order_seq _ _ _ [Fallback f]).
  - apply yields_in_order_yield. intros w d w' Hrun.
    exact (raster_glyph_image _ _ _ _ _ _ _ Hrun).
  - rewrite <- flat_map_singleton. apply yields_in_order_for. intros c.
    apply yields_in_order_yield. intros w d w' Hrun.
    apply named_glyph_run in Hrun as (name & _ & Hrun).
    exact (raster_glyph_image _ _ _ _ _ _ _ Hrun).
Qed.
End raster_images.

(** X9.  In raster mode the fallback glyph does not depend on the font: in
    every run, any two descriptors yielded for fallback slots, of whatever
    fonts, have the same [assetId] and the same [md5ext], so that they name
    one staged file. *)
Theorem raster_fallbacks_share_one_file `{Platform}
    (g : Raster.globals) (w w' : world) (ds : list json) (r : option exn) :
  Raster.generate_glyphs g w = (ds, r, w') →
  ∃ done rest,
    stream_slots (Raster.fonts g) (Raster.characters g) = done ++ rest
    ∧ length ds = length done
    ∧ (r = None → rest = [])
    ∧ ∀ i j d1 d2 f1 f2,
        ds !! i = Some d1 → done !! i = Some (Fallback f1) →
        ds !! j = Some d2 → done !! j = Some (Fallback f2) →
        py_getitem d1 (lit "assetId") = py_getitem d2 (lit "assetId") ∧
        py_getitem d1 (lit "md5ext") = py_getitem d2 (lit "md5ext").
Proof.
  intros Hrun.
  destruct (raster_stream_images g _ _ _ _ Hrun)
    as (done & rest & Hslots & Hds & Hrest).
  exists done, rest. repeat apply conj; try assumption.
  - eapply Forall2_length, Hds.
  - intros i j d1 d2 f1 f2 Hd1 Hs1 Hd2 Hs2.
    destruct (Forall2_lookup_lr _ _ _ _ _ _ Hds Hd1 Hs1)
      as (png1 & Hpng1 & Hid1 & Hext1).
    destruct (Forall2_lookup_lr _ _ _ _ _ _ Hds Hd2 Hs2)
      as (png2 & Hpng2 & Hid2 & Hext2).
    cbn [raster_command] in Hpng1, Hpng2.
    rewrite Hpng1 in Hpng2. injection Hpng2 as <-.
    rewrite Hid1, Hid2, Hext1, Hext2. split; reflexivity.
Qed.

Lemma raster_fallbacks_share_one_file_witness :
  let run := @Raster.generate_glyphs sample_platform raster_sample_globals
               empty_world in
  ∃ d1 d2,
    run.1.1 !! 0%nat = Some d1 ∧ run.1.1 !! 5%nat = Some d2 ∧
    py_getitem d1 (lit "name") = Ok (JStr (lit "sans-replaceable")) ∧
    py_getitem d2 (lit "name") = Ok (JStr (lit "decor-replaceable")) ∧
    py_getitem d1 (lit "md5ext") = py_getitem d2 (lit "md5ext").
Proof.
  intros run.
  destruct (@raster_fallbacks_share_one_file sample_platform _ _ _ _ _
              (triple_eta run))
    as (done & rest & Hslots & Hlen & Hrest & Hshare).
  assert (Hr : run.1.2 = None) by (vm_compute; reflexivity).
  rewrite (Hrest Hr), app_nil_r in Hslots. subst done.
  assert (H1 : ∃ d1, run.1.1 !! 0%nat = Some d1 ∧
                py_getitem d1 (lit "name") = Ok (JStr (lit "sans-replaceable")))
    by (eexists; split; vm_compute; reflexivity).
  assert (H2 : ∃ d2, run.1.1 !! 5%nat = Some d2 ∧
                py_getitem d2 (lit "name") = Ok (JStr (lit "decor-replaceable")))
    by (eexists; split; vm_compute; reflexivity).
  destruct H1 as (d1 & Hd1 & Hn1). destruct H2 as (d2 & Hd2 & Hn2).
  exists d1, d2. repeat split; try assumption.
  eapply (Hshare 0%nat 5%nat); [exact Hd1|reflexivity|exact Hd2|reflexivity].
Defined.

(** ** From the stream to the archive, and back *)

Lemma path_join_under dir name :
  starts_with [47] name = false → path_join dir name = path_join dir [] ++ name.
Proof.
  unfold path_join. intros ->. cbn [starts_with].
  destruct (last dir) as [c|]; [|reflexivity].
  destruct (c =? 47); rewrite ?app_nil_r, <- ?app_assoc; reflexivity.
Qed.

Lemma under_path_join dir name :
  starts_with [47] name = false → under dir (path_join dir name) = true.
Proof.
  intros Hname. unfold under. rewrite (path_join_under dir name Hname).
  apply starts_with_app.
Qed.

Lemma staged_not_outside dir ext out :
  under dir out = false →
  ∀ content : bytes, path_join dir (MD5.hexdigest content ++ ext) ≠ out.
Proof.
  intros Hout content Heq. rewrite <- Heq in Hout.
  rewrite under_path_join in Hout by apply staged_name_relative.
  discriminate Hout.
Qed.

Lemma new_names_length ms : ∀ written,
  (length (new_names written ms) ≤ length ms)%nat.
Proof.
  induction ms as [|m ms IH]; intros written; cbn [new_names length]; [lia|].
  destruct (decide _); [specialize (IH written)|specialize (IH ({[m]} ∪ written))];
    cbn [length]; lia.
Qed.

Section stream_archive.
Context `{Platform}.

Lemma staged_assets_names temp_dir ext w ds :
  Forall (staged_asset temp_dir ext w) ds →
  ∃ ms, Forall2 has_md5ext ds ms ∧
    Forall (λ m, ∃ content, m = MD5.hexdigest content ++ ext ∧
                   fs w !! path_join temp_dir m = Some (Regular content)) ms.
Proof.
  induction 1 as [|d ds (content & _ & Hext & Hfile) Hds (ms & Hall & Hstaged)].
  - exists []. split; constructor.
  - exists ((MD5.hexdigest content ++ ext) :: ms). split.
    + constructor; [exact Hext|exact Hall].
    + constructor; [eauto|exact Hstaged].
Qed.

(** Descriptors whose staged files are in place are assembled into an
    archive whose members, before the manifest, are named by the digests of
    their bytes; every descriptor finds its member there. *)
Lemma staged_assets_archive temp_dir ext out w fields ds :
  create_error out = None →
  dict_get (lit "costumes") fields = Some (JArr ds) →
  Forall (staged_asset temp_dir ext w) ds →
  under temp_dir out = false →
  ∃ binaries,
    content_named ext binaries
    ∧ (length binaries ≤ length ds)%nat
    ∧ Forall (λ d, ∃ e, e ∈ binaries ∧ has_md5ext d (arcname e)) ds
    ∧ assemble_sprite temp_dir (JObj fields) out w =
        (Ok (), with_file out
                  (ZipArchive (binaries ++ [manifest_member (JObj fields)])) w).
Proof.
  intros Hcreate Hcostumes Hds Hout.
  destruct (staged_assets_names _ _ _ _ Hds) as (ms & Hall & Hstaged).
  rewrite Forall_forall in Hstaged.
  exists (map (staged_member w temp_dir) (new_names ∅ ms)).
  repeat apply conj.
  - apply Forall_forall. intros e He.
    apply list_elem_of_In, in_map_iff in He as (m & <- & Hm).
    apply list_elem_of_In, new_names_spec in Hm as [Hm _].
    destruct (Hstaged m Hm) as (content & -> & Hfile).
    unfold staged_member. rewrite Hfile. split; reflexivity.
  - pose proof (Forall2_length _ _ _ Hall) as Hlen.
    pose proof (new_names_length ms ∅) as Hnew.
    rewrite length_map. lia.
  - clear Hcostumes Hds Hstaged.
    assert (Hin : ∀ m, m ∈ ms → m ∈ new_names ∅ ms).
    { intros m Hm. apply new_names_spec. split; [exact Hm|set_solver]. }
    revert Hin. generalize (new_names ∅ ms). intros names.
    induction Hall as [|d m ds ms Hd Hall IH]; intros Hin; constructor.
    + exists (staged_member w temp_dir m). split; [|exact Hd].
      apply list_elem_of_In, in_map, list_elem_of_In, Hin. left.
    + apply IH. intros m' Hm'. apply Hin. right. exact Hm'.
  - apply (assemble_sprite_ok _ _ _ _ ds ms Hcreate Hcostumes Hall).
    intros m Hm. destruct (Hstaged m Hm) as (content & -> & Hfile).
    split; [apply staged_not_outside, Hout|eauto].
Qed.
End stream_archive.

(** X10.  The descriptors that the glyph stream has yielded, be it by a
    run that returned or by one that raised, can be assembled wherever the
    output file can be created: in the world that the generator left,
    [assemble_sprite] of a manifest whose [costumes] are those descriptors
    returns (no file is missing), and the archive holds, before the
    manifest, at most one member per descriptor, each stored and named by
    the MD5 digest of its own bytes, and every descriptor's [md5ext] names
    one of them.  The temporary file is none of the staged files and the
    output lies outside the staging directory. *)
Theorem stream_then_assemble `{Platform} :
  (∀ g out fields w ds r w1,
     temp_apart (Vector.temp_svg g) (Vector.temp_dir g) (lit ".svg") →
     under (Vector.temp_dir g) out = false →
     create_error out = None →
     Vector.generate_glyphs g w = (ds, r, w1) →
     dict_get (lit "costumes") fields = Some (JArr ds) →
     ∃ binaries,
       content_named (lit ".svg") binaries
       ∧ (length binaries ≤ length ds)%nat
       ∧ Forall (λ d, ∃ e, e ∈ binaries ∧ has_md5ext d (arcname e)) ds
       ∧ assemble_sprite (Vector.temp_dir g) (JObj fields) out w1 =
           (Ok (), with_file out
                     (ZipArchive (binaries ++ [manifest_member (JObj fields)]))
                     w1))
  ∧ (∀ g out fields w ds r w1,
     temp_apart (Raster.temp_png g) (Raster.temp_dir g) (lit ".png") →
     under (Raster.temp_dir g) out = false →
     create_error out = None →
     Raster.generate_glyphs g w = (ds, r, w1) →
     dict_get (lit "costumes") fields = Some (JArr ds) →
     ∃ binaries,
       content_named (lit ".png") binaries
       ∧ (length binaries ≤ length ds)%nat
       ∧ Forall (λ d, ∃ e, e ∈ binaries ∧ has_md5ext d (arcname e)) ds
       ∧ assemble_sprite (Raster.temp_dir g) (JObj fields) out w1 =
           (Ok (), with_file out
                     (ZipArchive (binaries ++ [manifest_member (JObj fields)]))
                     w1)).
Proof.
  split; intros g out fields w ds r w1 Htemp Hout Hcreate Hrun Hcostumes.
  - destruct (vector_stream_stages g Htemp _ _ _ _ Hrun) as [_ Hds].
    eapply staged_assets_archive; eassumption.
  - destruct (raster_stream_stages g Htemp _ _ _ _ Hrun) as [_ Hds].
    eapply staged_assets_archive; eassumption.
Qed.

Lemma stream_then_assemble_witness :
  let run := @Vector.generate_glyphs sample_platform vector_sample_globals
               empty_world in
  (@assemble_sprite sample_platform (lit "/tmp/printer-costumes-x")
     (JObj [ (lit "costumes", JArr run.1.1) ])
     (lit "../output/Printer.sprite3") run.2).1 = Ok ().
Proof.
  intros run.
  destruct (proj1 (@stream_then_assemble sample_platform)
              vector_sample_globals (lit "../output/Printer.sprite3")
              [ (lit "costumes", JArr run.1.1) ] _ _ _ _
              (temp_apart_tmp_png (lit "/tmp/printer-costumes-x") (lit ".svg"))
              eq_refl eq_refl (triple_eta run) eq_refl)
    as (binaries & _ & _ & _ & Hassemble).
  change (Vector.temp_dir vector_sample_globals)
    with (lit "/tmp/printer-costumes-x") in Hassemble.
  rewrite Hassemble. reflexivity.
Defined.

Lemma dict_set_id {V} k (v : V) d : dict_get k d = Some v → dict_set k v d = d.
Proof.
  induction d as [|[k0 v0] d IH]; cbn [dict_get dict_set]; [discriminate|].
  destruct (decide (k = k0)) as [->|Hne].
  - intros [= ->]. reflexivity.
  - intros Hd. rewrite IH by exact Hd. reflexivity.
Qed.

(** X11.  What [assemble_sprite] writes, [load_sprite_code] reads: when
    the JSON reader parses the serialised manifest back, loading the output
    of a call that returned gives the manifest assembled with [costumes] and
    [sounds] emptied and [current_costume] 0, and leaves the world alone.  So
    the archive made from a loaded manifest and any descriptors appended to
    it loads as that loaded manifest again. *)
Theorem assembled_archive_loads_back `{Platform} (temp_dir out : str) :
  (∀ fields w w',
     assemble_sprite temp_dir (JObj fields) out w = (Ok (), w') →
     json_loads (json_dumps (JObj fields)) = Some (JObj fields) →
     load_sprite_code out w' =
       (Ok (JObj (dict_set (lit "sounds") (JArr [])
                    (dict_set (lit "current_costume") (JInt 0)
                       (dict_set (lit "costumes") (JArr []) fields)))), w'))
  ∧ (∀ input w0 w0' sprite ds sprite' w w',
     load_sprite_code input w0 = (Ok sprite, w0') →
     append_costumes sprite ds = Ok sprite' →
     assemble_sprite temp_dir sprite' out w = (Ok (), w') →
     json_loads (json_dumps sprite') = Some sprite' →
     load_sprite_code out w' = (Ok sprite, w')).
Proof.
  assert (Hback : ∀ fields w w',
     assemble_sprite temp_dir (JObj fields) out w = (Ok (), w') →
     json_loads (json_dumps (JObj fields)) = Some (JObj fields) →
     load_sprite_code out w' =
       (Ok (JObj (dict_set (lit "sounds") (JArr [])
                    (dict_set (lit "current_costume") (JInt 0)
                       (dict_set (lit "costumes") (JArr []) fields)))), w')).
  { intros fields w w' Hrun Hjson.
    destruct (assemble_sprite_frame _ _ _ _ _ _ Hrun)
      as (_ & Hfails & Hcreated).
    destruct (create_error out) as [e|] eqn:Hcreate.
    { destruct (Hfails e eq_refl) as [Habsurd _]. discriminate Habsurd. }
    destruct (Hcreated eq_refl) as (members & Hout & _ & Hlast).
    destruct (Hlast eq_refl) as [binaries ->].
    eapply load_sprite_code_ok; [exact Hout| |exact Hjson].
    apply zip_read_last. reflexivity. }
  split; [exact Hback|].
  intros input w0 w0' sprite ds sprite' w w' Hload Happend Hrun Hjson.
  apply load_sprite_code_inv in Hload as (members & raw & d0 & _ & _ & _ & -> & _).
  set (d1 := dict_set (lit "sounds") (JArr [])
               (dict_set (lit "current_costume") (JInt 0)
                  (dict_set (lit "costumes") (JArr []) d0))) in *.
  assert (Hcostumes : dict_get (lit "costumes") d1 = Some (JArr [])).
  { unfold d1. rewrite !dict_get_set_ne by discriminate. apply dict_get_set. }
  assert (Hcurrent : dict_get (lit "current_costume") d1 = Some (JInt 0)).
  { unfold d1. rewrite dict_get_set_ne by discriminate. apply dict_get_set. }
  assert (Hsounds : dict_get (lit "sounds") d1 = Some (JArr [])).
  { unfold d1. apply dict_get_set. }
  rewrite (append_costumes_list _ _ ds Hcostumes) in Happend.
  injection Happend as <-. cbn [app] in *.
  rewrite (Hback _ _ _ Hrun Hjson).
  rewrite dict_set_set, (dict_set_id _ _ _ Hcostumes),
    (dict_set_id _ _ _ Hcurrent), (dict_set_id _ _ _ Hsounds).
  reflexivity.
Qed.

Lemma assembled_archive_loads_back_witness :
  let P := reading_platform [JObj sample_manifest; JObj sample_assembled] in
  let run := @assemble_sprite P (lit "/tmp/") (JObj sample_assembled)
               (lit "../output/Printer.sprite3") sample_staging in
  @load_sprite_code P (lit "../input/Printer.sprite3") sample_input
    = (Ok (JObj sample_loaded), sample_input)
  ∧ @load_sprite_code P (lit "../output/Printer.sprite3") run.2
    = (Ok (JObj sample_loaded), run.2).
Proof.
  intros P run.
  assert (Hload : (@load_sprite_code P (lit "../input/Printer.sprite3")
                     sample_input).1 = Ok (JObj sample_loaded))
    by (vm_compute; reflexivity).
  apply run_eta in Hload. rewrite (@load_sprite_code_world P) in Hload.
  split; [exact Hload|].
  assert (Hrun : run.1 = Ok ()) by (vm_compute; reflexivity).
  apply run_eta in Hrun.
  apply (proj2 (@assembled_archive_loads_back P (lit "/tmp/")
                  (lit "../output/Printer.sprite3"))
           _ _ _ _ [sample_costume "sans-a" "bb.svg"] (JObj sample_assembled)
           sample_staging _ Hload).
  - vm_compute. reflexivity.
  - exact Hrun.
  - vm_compute. reflexivity.
Defined.

(** ** [main] *)

Lemma remove_tree_lookup dir w path :
  fs (remove_tree dir w) !! path = if under dir path then None else fs w !! path.
Proof.
  unfold remove_tree. cbn [fs]. destruct (under dir path) eqn:Hunder.
  - apply map_lookup_filter_None. right. intros f _. cbn [fst].
    rewrite Hunder. discriminate.
  - destruct (fs w !! path) as [f|] eqn:Hfile.
    + apply map_lookup_filter_Some. split; [exact Hfile|exact Hunder].
    + apply map_lookup_filter_None. left. exact Hfile.
Qed.

Lemma runs_within_yield (R : world → world → Prop) (m : M json) :
  (∀ w r w', m w = (r, w') → R w w') → runs_within R (gen_yield m).
Proof.
  intros Hm w ds r w' Hrun. unfold gen_yield in Hrun.
  destruct (m w) as [[d|e] w1] eqn:Hmw; injection Hrun as <- <- <-;
    exact (Hm _ _ _ Hmw).
Qed.

Lemma runs_within_seq (R : world → world → Prop) g1 g2 :
  (∀ w1 w2 w3, R w1 w2 → R w2 w3 → R w1 w3) →
  runs_within R g1 → runs_within R g2 → runs_within R (gen_seq g1 g2).
Proof.
  intros Htrans H1 H2 w ds r w' Hrun. unfold gen_seq in Hrun.
  destruct (g1 w) as [[ds1 [e|]] w1] eqn:Hg1.
  - injection Hrun as <- <- <-. exact (H1 _ _ _ _ Hg1).
  - destruct (g2 w1) as [[ds2 r2] w2] eqn:Hg2. injection Hrun as <- <- <-.
    exact (Htrans _ _ _ (H1 _ _ _ _ Hg1) (H2 _ _ _ _ Hg2)).
Qed.

Lemma runs_within_for {A} (R : world → world → Prop) (body : A → Gen) l :
  (∀ w, R w w) →
  (∀ w1 w2 w3, R w1 w2 → R w2 w3 → R w1 w3) →
  (∀ x, runs_within R (body x)) → runs_within R (gen_for body l).
Proof.
  intros Hrefl Htrans Hbody. induction l as [|x l IH]; cbn [gen_for].
  - intros w ds r w' [= <- <- <-]. apply Hrefl.
  - apply runs_within_seq; [exact Htrans|apply Hbody|exact IH].
Qed.

Section stream_outside.
Context `{Platform}.

Lemma named_glyph_within (R : world → world → Prop) (glyph : str → M json) fid ch :
  (∀ w, R w w) →
  (∀ name w r w', glyph name w = (r, w') → R w w') →
  ∀ w r w',
    (name ← lift (name_for fid ch); glyph name) w = (r, w') → R w w'.
Proof.
  intros Hrefl Hglyph w r w'. unfold mbind, M_bind, lift.
  destruct (name_for fid ch) as [name|e].
  - apply Hglyph.
  - intros [= <- <-]. apply Hrefl.
Qed.

Lemma vector_glyph_outside g font name character w r w' :
  under (Vector.temp_dir g) (Vector.temp_svg g) = true →
  Vector.generate_glyph g font name character w = (r, w') →
  outside_kept (Vector.temp_dir g) w w' ∧ processes w' = processes w.
Proof.
  intros Htemp Hrun. rewrite vector_generate_glyph_run in Hrun.
  destruct (utf8_encode _) as [content|e].
  - cbn zeta in Hrun.
    destruct (decide _) as [Hsame|Hdiff]; injection Hrun as <- <-;
      (split; [|reflexivity]); intros path Hpath.
    + apply with_file_lookup_ne. intros <-. congruence.
    + rewrite with_file_lookup_ne.
      * apply with_file_lookup_ne. intros <-. congruence.
      * intros <-.
        rewrite under_path_join in Hpath by apply staged_name_relative.
        discriminate Hpath.
  - injection Hrun as <- <-. split; [|reflexivity]. intros path Hpath.
    apply with_file_lookup_ne. intros <-. congruence.
Qed.

Lemma raster_glyph_outside g font name label w r w' :
  under (Raster.temp_dir g) (Raster.temp_png g) = true →
  Raster.generate_glyph g font name label w = (r, w') →
  outside_kept (Raster.temp_dir g) w w'.
Proof.
  intros Htemp Hrun. rewrite raster_generate_glyph_run in Hrun.
  cbn zeta in Hrun. destruct (convert _) as [png|].
  - destruct (decide _) as [Hsame|Hdiff]; injection Hrun as <- <-;
      intros path Hpath.
    + rewrite with_file_lookup_ne by (intros <-; congruence). reflexivity.
    + rewrite with_file_lookup_ne.
      * rewrite with_file_lookup_ne by (intros <-; congruence). reflexivity.
      * intros <-.
        rewrite under_path_join in Hpath by apply staged_name_relative.
        discriminate Hpath.
  - injection Hrun as <- <-. intros path Hpath.
    apply (proj1 (render_fails_frame g font label w)). intros ->. congruence.
Qed.

Lemma outside_kept_trans dir w1 w2 w3 :
  outside_kept dir w1 w2 → outside_kept dir w2 w3 → outside_kept dir w1 w3.
Proof.
  intros H1 H2 path Hpath. rewrite H2, H1 by exact Hpath. reflexivity.
Qed.

Lemma vector_stream_outside g :
  under (Vector.temp_dir g) (Vector.temp_svg g) = true →
  runs_within (λ w w', outside_kept (Vector.temp_dir g) w w' ∧
                       processes w' = processes w)
    (Vector.generate_glyphs g).
Proof.
  intros Htemp.
  assert (Hrefl : ∀ w, outside_kept (Vector.temp_dir g) w w ∧
                       processes w = processes w).
  { intros w. split; [intros path _|]; reflexivity. }
  assert (Htrans : ∀ w1 w2 w3,
            outside_kept (Vector.temp_dir g) w1 w2 ∧ processes w2 = processes w1 →
            outside_kept (Vector.temp_dir g) w2 w3 ∧ processes w3 = processes w2 →
            outside_kept (Vector.temp_dir g) w1 w3 ∧ processes w3 = processes w1).
  { intros w1 w2 w3 [H1 Hp1] [H2 Hp2].
    split; [eapply outside_kept_trans; eassumption|congruence]. }
  unfold Vector.generate_glyphs.
  apply runs_within_for; [exact Hrefl|exact Htrans|]. intros f.
  unfold Vector.generate_font. apply runs_within_seq; [exact Htrans| |].
  - apply runs_within_yield. intros w r w'. apply vector_glyph_outside, Htemp.
  - apply runs_within_for; [exact Hrefl|exact Htrans|]. intros c.
    apply runs_within_yield. apply named_glyph_within; [exact Hrefl|].
    intros name w r w'. apply vector_glyph_outside, Htemp.
Qed.

Lemma raster_stream_outside g :
  under (Raster.temp_dir g) (Raster.temp_png g) = true →
  runs_within (outside_kept (Raster.temp_dir g)) (Raster.generate_glyphs g).
Proof.
  intros Htemp.
  assert (Hrefl : ∀ w, outside_kept (Raster.temp_dir g) w w).
  { intros w path _. reflexivity. }
  unfold Raster.generate_glyphs.
  apply runs_within_for; [exact Hrefl|apply outside_kept_trans|]. intros f.
  unfold Raster.generate_font.
  apply runs_within_seq; [apply outside_kept_trans| |].
  - apply runs_within_yield. intros w r w'. apply raster_glyph_outside, Htemp.
  - apply runs_within_for; [exact Hrefl|apply outside_kept_trans|]. intros c.
    apply runs_within_yield. apply named_glyph_within; [exact Hrefl|].
    intros name w r w'. apply raster_glyph_outside, Htemp.
Qed.
End stream_outside.

Lemma tmp_png_under tmp : under tmp (path_join tmp (lit "tmp.png")) = true.
Proof. apply under_path_join. reflexivity. Qed.

Section main_facts.
Context `{Platform}.
Variables (gen : Gen) (tmp ext : str).
Hypothesis gen_stages : establishes (staged_asset tmp ext) gen.
Hypothesis gen_outside : runs_within (outside_kept tmp) gen.

(** The block of [main], whatever the stream. *)
Lemma main_block_outcome w r w' :
  under tmp (lit "../output/Printer.sprite3") = false →
  with_temporary_directory tmp
    (sprite ← load_sprite_code (lit "../input/Printer.sprite3");
     sprite ← collect_costumes gen sprite;
     assemble_sprite tmp sprite (lit "../output/Printer.sprite3")) w = (r, w') →
  main_outcome gen tmp ext w r w'.
Proof.
  intros Hout. unfold main_outcome, with_temporary_directory.
  unfold mbind at 1, M_bind at 1.
  pose proof (load_sprite_code_world (lit "../input/Printer.sprite3") w) as Hworld.
  destruct (load_sprite_code _ w) as [[sprite|e] w0] eqn:Hload;
    cbn [snd] in Hworld; subst w0.
  - apply load_sprite_code_inv in Hload as (members & raw & d0 & _ & _ & _ & -> & _).
    set (d1 := dict_set (lit "sounds") (JArr [])
                 (dict_set (lit "current_costume") (JInt 0)
                    (dict_set (lit "costumes") (JArr []) d0))).
    assert (Hcostumes : dict_get (lit "costumes") d1 = Some (JArr [])).
    { unfold d1. rewrite !dict_get_set_ne by discriminate. apply dict_get_set. }
    unfold mbind at 1, M_bind at 1, collect_costumes at 1.
    destruct (gen w) as [[ds rg] w1] eqn:Hgen.
    rewrite (append_costumes_list _ _ ds Hcostumes). cbn [app].
    pose proof (gen_outside _ _ _ _ Hgen) as Hkept.
    destruct rg as [e|].
    + intros [= <- <-]. split; [discriminate|].
      intros sprite ds' rg' w1' _ [= <- <- <-]. split; [reflexivity|].
      repeat apply conj; try discriminate.
      intros e' [= <-]. split; [reflexivity|].
      rewrite remove_tree_lookup, Hout. apply Hkept, Hout.
    + destruct (create_error (lit "../output/Printer.sprite3")) as [e|] eqn:Hcreate.
      * destruct (assemble_sprite tmp _ _ w1) as [r2 w2] eqn:Hassemble.
        destruct (assemble_sprite_frame _ _ _ _ _ _ Hassemble)
          as (_ & Hfails & _).
        destruct (Hfails e Hcreate) as [-> ->].
        intros [= <- <-]. split; [discriminate|].
        intros sprite ds' rg' w1' _ [= <- <- <-]. split; [reflexivity|].
        repeat apply conj; try discriminate.
        intros e' _ [= <-]. split; [reflexivity|].
        rewrite remove_tree_lookup, Hout. apply Hkept, Hout.
      * destruct (gen_stages _ _ _ _ Hgen) as [_ Hds].
        destruct (staged_assets_archive tmp ext (lit "../output/Printer.sprite3")
                    w1 (dict_set (lit "costumes") (JArr ds) d1) ds
                    Hcreate (dict_get_set _ _ _) Hds Hout)
          as (binaries & Hnamed & Hlen & Hfound & Hassemble).
        rewrite Hassemble. intros [= <- <-]. split; [discriminate|].
        intros sprite ds' rg' w1' [= <-] [= <- <- <-]. split; [reflexivity|].
        repeat apply conj; try discriminate.
        intros _ _. split; [reflexivity|].
        exists d1, binaries. repeat apply conj; try assumption; try reflexivity.
        rewrite remove_tree_lookup, Hout. apply with_file_lookup.
  - intros [= <- <-]. split; [|discriminate].
    intros e' [= <-]. split; [reflexivity|]. split; [reflexivity|].
    rewrite remove_tree_lookup, Hout. reflexivity.
Qed.

(** What the block of [main] leaves behind. *)
Lemma main_block_cleans w r w' :
  with_temporary_directory tmp
    (sprite ← load_sprite_code (lit "../input/Printer.sprite3");
     sprite ← collect_costumes gen sprite;
     assemble_sprite tmp sprite (lit "../output/Printer.sprite3")) w = (r, w') →
  (∀ path, under tmp path = true → fs w' !! path = None)
  ∧ (∀ path, under tmp path = false →
       path ≠ lit "../output/Printer.sprite3" →
       fs w' !! path = fs w !! path)
  ∧ ∃ ds rg w1, gen w = (ds, rg, w1) ∧
      (processes w' = processes w ∨ processes w' = processes w1).
Proof.
  unfold with_temporary_directory.
  match goal with
  | |- (let '(_, _) := ?block in _) = _ → _ =>
      destruct block as [r0 w2] eqn:Hblock
  end.
  intros [= <- <-].
  split; [intros path Hpath; rewrite remove_tree_lookup, Hpath; reflexivity|].
  revert Hblock. unfold mbind at 1, M_bind at 1.
  pose proof (load_sprite_code_world (lit "../input/Printer.sprite3") w) as Hworld.
  destruct (load_sprite_code _ w) as [[sprite|e] w0]; cbn [snd] in Hworld; subst w0.
  - unfold mbind at 1, M_bind at 1, collect_costumes at 1.
    destruct (gen w) as [[ds rg] w1] eqn:Hgen.
    pose proof (gen_outside _ _ _ _ Hgen) as Hkept.
    assert (Hraise : ∀ e, (Raise e, w1) = (r0, w2) →
      (∀ path, under tmp path = false →
         path ≠ lit "../output/Printer.sprite3" →
         fs (remove_tree tmp w2) !! path = fs w !! path)
      ∧ ∃ ds' rg' w1', (ds, rg, w1) = (ds', rg', w1') ∧
          (processes (remove_tree tmp w2) = processes w ∨
           processes (remove_tree tmp w2) = processes w1')).
    { intros e [= <- <-]. split.
      - intros path Hpath _. rewrite remove_tree_lookup, Hpath. apply Hkept, Hpath.
      - exists ds, rg, w1. split; [reflexivity|right; reflexivity]. }
    destruct (append_costumes sprite ds) as [sprite'|e]; [|apply Hraise].
    destruct rg as [e|]; [apply Hraise|].
    intros Hassemble.
    destruct (assemble_sprite_frame _ _ _ _ _ _ Hassemble) as [[Hfiles Hprocs] _].
    split.
    + intros path Hpath Hne. rewrite remove_tree_lookup, Hpath.
      rewrite Hfiles by exact Hne. apply Hkept, Hpath.
    + exists ds, None, w1. split; [reflexivity|right; exact Hprocs].
  - intros [= <- <-]. split.
    + intros path Hpath _. rewrite remove_tree_lookup, Hpath. reflexivity.
    + destruct (gen w) as [[ds rg] w1]. exists ds, rg, w1.
      split; [reflexivity|left; reflexivity].
Qed.
End main_facts.

(** X12.  A run of [main], of either script, ends in one of four ways
    (the output path lying outside the temporary directory).  If
    [load_sprite_code] raises, [main] raises that error, no glyph has been
    generated and the world is as before, but for the directory removed.  If
    the glyph stream raises, [main] raises that error.  If the glyph stream
    returns and no file can be created at the output path, [main] raises
    the error of [ZipFile].  In these three cases the output path is as
    before.  If the glyph stream returns and the output file can be
    created, [main] returns: [assemble_sprite] cannot miss a file there, and
    the output is the archive whose manifest is the loaded one with the
    descriptors yielded as [costumes], after members named by the digests
    of their bytes, among which every descriptor finds its [md5ext]. *)
Theorem main_outcomes `{Platform} :
  (∀ g tmp w r w',
     under tmp (lit "../output/Printer.sprite3") = false →
     Vector.main g tmp w = (r, w') →
     main_outcome (Vector.generate_glyphs (vector_main_globals g tmp))
       tmp (lit ".svg") w r w')
  ∧ (∀ g tmp w r w',
     under tmp (lit "../output/Printer.sprite3") = false →
     Raster.main g tmp w = (r, w') →
     main_outcome (Raster.generate_glyphs (raster_main_globals g tmp))
       tmp (lit ".png") w r w').
Proof.
  split; intros g tmp w r w' Hout Hrun.
  - apply (main_block_outcome
             (Vector.generate_glyphs (vector_main_globals g tmp)) tmp (lit ".svg")).
    + apply (vector_stream_stages (vector_main_globals g tmp)).
      apply temp_apart_tmp_png.
    + intros w0 ds rg w1 Hgen.
      apply (vector_stream_outside (vector_main_globals g tmp)
               (tmp_png_under tmp) _ _ _ _ Hgen).
    + exact Hout.
    + exact Hrun.
  - apply (main_block_outcome
             (Raster.generate_glyphs (raster_main_globals g tmp)) tmp (lit ".png")).
    + apply (raster_stream_stages (raster_main_globals g tmp)).
      apply temp_apart_tmp_png.
    + apply (raster_stream_outside (raster_main_globals g tmp)
               (tmp_png_under tmp)).
    + exact Hout.
    + exact Hrun.
Qed.

Lemma main_outcomes_witness :
  (let run := @Vector.main sample_platform vector_sample_globals
                (lit "/tmp/printer-costumes-x") sample_input in
   run.1 = Ok ()
   ∧ ∃ members,
       fs run.2 !! lit "../output/Printer.sprite3" = Some (ZipArchive members))
  ∧ (let run := @Vector.main unwritable_platform vector_sample_globals
                  (lit "/tmp/printer-costumes-x") sample_input in
     run.1 = Raise FileNotFoundError
     ∧ fs run.2 !! lit "../output/Printer.sprite3" = None).
Proof.
  split; intros run.
  - destruct (proj1 (@main_outcomes sample_platform) vector_sample_globals
                (lit "/tmp/printer-costumes-x") sample_input _ _
                eq_refl (surjective_pairing run)) as [_ Hloaded].
    set (stream := @Vector.generate_glyphs sample_platform
                     (vector_main_globals vector_sample_globals
                        (lit "/tmp/printer-costumes-x")) sample_input) in *.
    assert (Hload : (@load_sprite_code sample_platform
                       (lit "../input/Printer.sprite3") sample_input).1
                    = Ok (JObj sample_loaded)) by (vm_compute; reflexivity).
    assert (Hnone : stream.1.2 = None) by (vm_compute; reflexivity).
    destruct (Hloaded _ _ _ _ Hload (triple_eta stream))
      as (_ & _ & _ & Hreturns).
    destruct (Hreturns Hnone eq_refl)
      as (Hr & d1 & binaries & _ & _ & _ & _ & Hfile).
    split; [exact Hr|]. eexists. exact Hfile.
  - destruct (proj1 (@main_outcomes unwritable_platform) vector_sample_globals
                (lit "/tmp/printer-costumes-x") sample_input _ _
                eq_refl (surjective_pairing run)) as [_ Hloaded].
    set (stream := @Vector.generate_glyphs unwritable_platform
                     (vector_main_globals vector_sample_globals
                        (lit "/tmp/printer-costumes-x")) sample_input) in *.
    assert (Hload : (@load_sprite_code unwritable_platform
                       (lit "../input/Printer.sprite3") sample_input).1
                    = Ok (JObj sample_loaded)) by (vm_compute; reflexivity).
    assert (Hnone : stream.1.2 = None) by (vm_compute; reflexivity).
    destruct (Hloaded _ _ _ _ Hload (triple_eta stream))
      as (_ & _ & Hfails & _).
    destruct (Hfails FileNotFoundError Hnone eq_refl) as [Hr Hfile].
    split; [exact Hr|]. rewrite Hfile. reflexivity.
Defined.

(** X13.  However [main] ends, by returning or by an exception of any of
    its three steps, no file is left in the temporary directory, and no file
    outside it has changed, but for the output path; the vector script has
    started no process. *)
Theorem main_cleans_up `{Platform} :
  (∀ g tmp w r w',
     Vector.main g tmp w = (r, w') →
     (∀ path, under tmp path = true → fs w' !! path = None)
     ∧ (∀ path, under tmp path = false →
          path ≠ lit "../output/Printer.sprite3" →
          fs w' !! path = fs w !! path)
     ∧ processes w' = processes w)
  ∧ (∀ g tmp w r w',
     Raster.main g tmp w = (r, w') →
     (∀ path, under tmp path = true → fs w' !! path = None)
     ∧ (∀ path, under tmp path = false →
          path ≠ lit "../output/Printer.sprite3" →
          fs w' !! path = fs w !! path)).
Proof.
  split; intros g tmp w r w' Hrun.
  - pose proof (vector_stream_outside (vector_main_globals g tmp)
                  (tmp_png_under tmp)) as Hstream.
    destruct (main_block_cleans
                (Vector.generate_glyphs (vector_main_globals g tmp)) tmp
                (λ w0 ds rg w1 Hgen, proj1 (Hstream w0 ds rg w1 Hgen))
                w r w' Hrun)
      as (Hin & Hout & ds & rg & w1 & Hgen & Hprocs).
    repeat apply conj; [exact Hin|exact Hout|].
    destruct Hprocs as [->| ->]; [reflexivity|].
    exact (proj2 (Hstream _ _ _ _ Hgen)).
  - destruct (main_block_cleans
                (Raster.generate_glyphs (raster_main_globals g tmp)) tmp
                (raster_stream_outside (raster_main_globals g tmp)
                   (tmp_png_under tmp))
                w r w' Hrun)
      as (Hin & Hout & _).
    split; [exact Hin|exact Hout].
Qed.

Lemma main_cleans_up_witness :
  let run := @Raster.main sample_platform raster_sample_globals
               (lit "/tmp/printer-costumes-x") sample_input in
  fs run.2 !! lit "/tmp/printer-costumes-x/tmp.png" = None
  ∧ fs run.2 !! lit "../input/Printer.sprite3"
    = fs sample_input !! lit "../input/Printer.sprite3".
Proof.
  intros run.
  destruct (proj2 (@main_cleans_up sample_platform) _ _ _ _ _
              (surjective_pairing run)) as [Hin Hout].
  split.
  - apply Hin. reflexivity.
  - apply Hout; [reflexivity|discriminate].
Defined.

(** X14.  The vector script as configured runs to its end: with its six
    fonts, its 97 characters and its canvas, on a platform whose
    [unicodedata] names the special characters of the set, with an input
    archive whose [sprite.json] parses to an object, and where the output
    file can be created, [main] returns, and the output archive holds the
    loaded manifest with 588 costumes, after at most 588 members named by
    the digests of their bytes. *)
Theorem vector_main_configured `{Platform}
    (tmp : str) (w : world) (members : list zip_entry) (raw : bytes) (d0 : dict) :
  (∀ c, is_Some (assoc c special_names) → is_Some (unicodedata_name c)) →
  under tmp (lit "../output/Printer.sprite3") = false →
  create_error (lit "../output/Printer.sprite3") = None →
  fs w !! lit "../input/Printer.sprite3" = Some (ZipArchive members) →
  zip_read (lit "sprite.json") members = Ok raw →
  json_loads raw = Some (JObj d0) →
  ∃ ds binaries w',
    Vector.main Vector.module_globals tmp w = (Ok (), w')
    ∧ length ds = 588%nat
    ∧ content_named (lit ".svg") binaries
    ∧ (length binaries ≤ 588)%nat
    ∧ fs w' !! lit "../output/Printer.sprite3"
      = Some (ZipArchive
                (binaries ++
                 [manifest_member
                    (JObj (dict_set (lit "costumes") (JArr ds)
                             (dict_set (lit "sounds") (JArr [])
                                (dict_set (lit "current_costume") (JInt 0)
                                   (dict_set (lit "costumes") (JArr []) d0)))))])).
Proof.
  intros Hnames Hout Hcreate Hfile Hread Hjson.
  destruct (vector_configured_run_returns
              (vector_main_globals Vector.module_globals tmp) w
              eq_refl eq_refl eq_refl eq_refl
              (temp_apart_tmp_png tmp (lit ".svg")) Hnames)
    as (ds & w1 & Hgen & Hlen).
  destruct (Vector.main Vector.module_globals tmp w) as [r w'] eqn:Hrun.
  pose proof (main_block_outcome
                (Vector.generate_glyphs
                   (vector_main_globals Vector.module_globals tmp))
                tmp (lit ".svg")
                (vector_stream_stages
                   (vector_main_globals Vector.module_globals tmp)
                   (temp_apart_tmp_png tmp (lit ".svg")))
                (λ w0 ds0 rg w2 Hrun0,
                   proj1 (vector_stream_outside
                            (vector_main_globals Vector.module_globals tmp)
                            (tmp_png_under tmp) w0 ds0 rg w2 Hrun0))
                w r w' Hout Hrun) as [_ Hloaded].
  pose proof (load_sprite_code_ok _ _ _ _ _ Hfile Hread Hjson) as Hload.
  apply (f_equal fst) in Hload. cbn [fst] in Hload.
  destruct (Hloaded _ _ _ _ Hload Hgen) as (_ & _ & _ & Hreturns).
  destruct (Hreturns eq_refl Hcreate)
    as (-> & d1 & binaries & [= <-] & Hnamed & Hbin & _ & Hfs).
  exists ds, binaries, w'. repeat apply conj; try assumption; try reflexivity.
  lia.
Qed.

Lemma vector_main_configured_witness :
  ∃ w',
    @Vector.main sample_platform Vector.module_globals
      (lit "/tmp/printer-costumes-x") sample_input = (Ok (), w').
Proof.
  destruct (@vector_main_configured sample_platform
              (lit "/tmp/printer-costumes-x") sample_input
              [ {| arcname := lit "sprite.json";
                   data := latin1_bytes (sample_dumps (JObj sample_manifest));
                   compress_type := ZIP_DEFLATED |} ]
              (latin1_bytes (sample_dumps (JObj sample_manifest)))
              sample_manifest)
    as (ds & binaries & w' & Hrun & _).
  - intros c Hc. exact Hc.
  - reflexivity.
  - reflexivity.
  - vm_compute. reflexivity.
  - reflexivity.
  - vm_compute. reflexivity.
  - exists w'. exact Hrun.
Defined.

(** ** The names of the costumes *)

Lemma NoDup_fmap_elem {A B} (f : A → B) (l : list A) x y :
  NoDup (map f l) → x ∈ l → y ∈ l → f x = f y → x = y.
Proof.
  induction l as [|a l IH]; intros Hnd Hx Hy Heq; [set_solver|].
  cbn [map] in Hnd. apply NoDup_cons in Hnd as [Ha Hnd].
  apply elem_of_cons in Hx as [->|Hx]; apply elem_of_cons in Hy as [->|Hy].
  - reflexivity.
  - destruct Ha. rewrite Heq. apply list_elem_of_In, in_map, list_elem_of_In, Hy.
  - destruct Ha. rewrite <- Heq. apply list_elem_of_In, in_map, list_elem_of_In, Hx.
  - apply IH; assumption.
Qed.

Lemma stream_slots_inv {font} (fonts : list font) characters s :
  s ∈ stream_slots fonts characters →
  slot_font s ∈ fonts ∧
  match s with
  | Fallback _ => True
  | Glyph _ c => c ∈ characters
  end.
Proof.
  unfold stream_slots. intros Hs.
  apply list_elem_of_In, in_flat_map in Hs as (f & Hf & Hs).
  apply list_elem_of_In in Hf. destruct Hs as [<-|Hs]; [split; [exact Hf|exact I]|].
  apply in_map_iff in Hs as (c & <- & Hc). split; [exact Hf|].
  apply list_elem_of_In, Hc.
Qed.

Lemma stream_slots_NoDup {font} (fonts : list font) characters :
  NoDup fonts → NoDup characters → NoDup (stream_slots fonts characters).
Proof.
  intros Hfonts Hchars. unfold stream_slots.
  induction Hfonts as [|f fonts Hf Hfonts IH]; cbn [flat_map]; [constructor|].
  apply NoDup_app. repeat apply conj.
  - constructor.
    + intros Hin. apply list_elem_of_In, in_map_iff in Hin as (c & Hc & _).
      discriminate Hc.
    + apply NoDup_fmap_2_strong; [|exact Hchars].
      intros c1 c2 _ _ [= ->]. reflexivity.
  - intros s Hs Hrest.
    assert (Hfont : slot_font s = f).
    { apply elem_of_cons in Hs as [->|Hs]; [reflexivity|].
      apply list_elem_of_In, in_map_iff in Hs as (c & <- & _). reflexivity. }
    apply (stream_slots_inv fonts characters) in Hrest as [Hrest _].
    rewrite Hfont in Hrest. exact (Hf Hrest).
  - exact IH.
Qed.

Section names_apart.
Context `{Platform} {font : Type} (font_id : font → str).
Variables (fonts : list font) (characters : str).
Hypothesis lower_law : lower_ascii_law.
Hypothesis ascii_names :
  ∀ c n, unicodedata_name c = Some n → Forall (λ a, a < 128) n.
Hypothesis ids_apart : font_ids_apart (map font_id fonts).
Hypothesis characters_apart : NoDup characters.
Hypothesis specials_apart :
  ∀ c1 c2 n1 n2,
    c1 ∈ characters → c2 ∈ characters →
    unicodedata_name c1 = Some n1 → unicodedata_name c2 = Some n2 →
    str_replace 32 45 (str_replace 95 45 (str_lower n1))
    = str_replace 32 45 (str_replace 95 45 (str_lower n2)) →
    c1 = c2.

Lemma font_id_lower f : f ∈ fonts → lowercase_ascii (font_id f) = true.
Proof.
  intros Hf. destruct ids_apart as [_ Hids]. rewrite Forall_forall in Hids.
  apply (Hids (font_id f)). apply list_elem_of_In, in_map, list_elem_of_In, Hf.
Qed.

(** Two names split at the hyphen after their font ids. *)
Lemma font_ids_split f1 f2 t1 t2 :
  f1 ∈ fonts → f2 ∈ fonts →
  font_id f1 ++ 45 :: t1 = font_id f2 ++ 45 :: t2 →
  f1 = f2 ∧ t1 = t2.
Proof.
  intros Hf1 Hf2 Heq. destruct ids_apart as [Hnd Hids].
  assert (Hprefix : ∀ f f', f ∈ fonts → f' ∈ fonts →
            ∀ rest, font_id f' ≠ (font_id f ++ [45]) ++ rest).
  { intros f f' Hf Hf' rest Hrest. rewrite Forall_forall in Hids.
    destruct (Hids (font_id f)) as [_ Hf0].
    { apply list_elem_of_In, in_map, list_elem_of_In, Hf. }
    rewrite Forall_forall in Hf0. specialize (Hf0 (font_id f')).
    rewrite Hrest, starts_with_app in Hf0. discriminate Hf0.
    rewrite <- Hrest. apply list_elem_of_In, in_map, list_elem_of_In, Hf'. }
  assert (Hids_eq : font_id f1 = font_id f2 ∧ t1 = t2).
  { apply app_eq_app in Heq as [l [[Hl Ht]|[Hl Ht]]]; destruct l as [|c l].
    - rewrite app_nil_r in Hl. cbn [app] in Ht. injection Ht as ->. auto.
    - cbn [app] in Ht. injection Ht as <- _.
      destruct (Hprefix f2 f1 Hf2 Hf1 l). rewrite <- app_assoc. exact Hl.
    - rewrite app_nil_r in Hl. cbn [app] in Ht. injection Ht as ->. auto.
    - cbn [app] in Ht. injection Ht as <- _.
      destruct (Hprefix f1 f2 Hf1 Hf2 l). rewrite <- app_assoc. exact Hl. }
  destruct Hids_eq as [Hid Ht]. split; [|exact Ht].
  exact (NoDup_fmap_elem font_id fonts f1 f2 Hnd Hf1 Hf2 Hid).
Qed.

(** The name of a slot is its font id, a hyphen, and a token that tells the
    slot's kind and character. *)
Lemma slot_name_token s n :
  slot_font s ∈ fonts →
  slot_name font_id s = Ok n →
  ∃ t, n = font_id (slot_font s) ++ 45 :: t ∧
    match s with
    | Fallback _ => t = [114; 101; 112; 108; 97; 99; 101; 97; 98; 108; 101]
    | Glyph _ c =>
        t = [c] ∨
        t = [117; 112; 112; 101; 114; 45; c] ∨
        ∃ u, unicodedata_name c = Some u ∧
             t = [115; 112; 101; 99; 105; 97; 108; 45] ++
                 str_replace 32 45 (str_replace 95 45 (str_lower u))
    end.
Proof.
  intros Hf Hn. destruct s as [f|f c]; cbn [slot_name slot_font] in *.
  - injection Hn as <-. eexists. split; reflexivity.
  - pose proof (font_id_lower f Hf) as Hid.
    destruct (is_lower c || is_digit c) eqn:Hld.
    { rewrite (name_for_lower_digit_token lower_law) in Hn by assumption.
      injection Hn as <-. eexists. split; [reflexivity|]. left. reflexivity. }
    destruct (is_upper c) eqn:Hu.
    { rewrite name_for_upper in Hn by assumption.
      injection Hn as <-. eexists. split; [reflexivity|]. right. left. reflexivity. }
    destruct (unicodedata_name c) as [u|] eqn:Hname.
    + rewrite (name_for_special_token lower_law (font_id f) c u) in Hn
        by (try assumption; eapply ascii_names, Hname).
      injection Hn as <-. eexists. split; [reflexivity|]. right. right.
      exists u. split; [reflexivity|].
      rewrite (lower_law u) by (eapply ascii_names, Hname). reflexivity.
    + rewrite name_for_special, Hname in Hn by assumption. discriminate.
Qed.

Lemma slot_name_inj s1 s2 n :
  s1 ∈ stream_slots fonts characters → s2 ∈ stream_slots fonts characters →
  slot_name font_id s1 = Ok n → slot_name font_id s2 = Ok n → s1 = s2.
Proof.
  intros Hs1 Hs2 Hn1 Hn2.
  apply stream_slots_inv in Hs1 as [Hf1 Hc1].
  apply stream_slots_inv in Hs2 as [Hf2 Hc2].
  destruct (slot_name_token s1 n Hf1 Hn1) as (t1 & E1 & T1).
  destruct (slot_name_token s2 n Hf2 Hn2) as (t2 & E2 & T2).
  rewrite E1 in E2. apply font_ids_split in E2 as [Hfont <-]; try assumption.
  destruct s1 as [f1|f1 c1], s2 as [f2|f2 c2]; cbn [slot_font] in *; subst f2.
  - reflexivity.
  - subst t1. destruct T2 as [T2|[T2|(u & _ & T2)]]; discriminate T2.
  - subst t1. destruct T1 as [T1|[T1|(u & _ & T1)]]; discriminate T1.
  - f_equal.
    destruct T1 as [->|[->|(u1 & Hu1 & ->)]];
      destruct T2 as [T2|[T2|(u2 & Hu2 & T2)]];
      try discriminate T2; try (injection T2 as ->; reflexivity).
    injection T2 as T2.
    exact (specials_apart c1 c2 u1 u2 Hc1 Hc2 Hu1 Hu2 T2).
Qed.

Lemma slots_named_apart ds done rest :
  stream_slots fonts characters = done ++ rest →
  Forall2 (slot_named font_id) ds done →
  ∃ names, Forall2 has_name ds names ∧ NoDup names.
Proof.
  intros Hslots Hds.
  assert (Hnd : NoDup done).
  { destruct ids_apart as [Hids _]. apply NoDup_fmap_1 in Hids.
    pose proof (stream_slots_NoDup fonts characters Hids characters_apart) as Hall.
    rewrite Hslots in Hall. apply NoDup_app in Hall as [Hall _]. exact Hall. }
  assert (Hin : ∀ s, s ∈ done → s ∈ stream_slots fonts characters).
  { intros s Hs. rewrite Hslots. apply elem_of_app. left. exact Hs. }
  clear Hslots.
  assert (Hnames : ∃ names,
            Forall2 has_name ds names ∧
            Forall2 (λ s n, slot_name font_id s = Ok n) done names ∧
            NoDup names).
  { induction Hds as [|d s ds done Hd Hds IH].
    - exists []. repeat split; constructor.
    - apply NoDup_cons in Hnd as [Hs Hnd].
      destruct IH as (names & Hhave & Hslot & Hnames); [exact Hnd| |].
      { intros s' Hs'. apply Hin. right. exact Hs'. }
      assert (Hn : ∃ n, slot_name font_id s = Ok n ∧ has_name d n).
      { destruct s as [f|f c]; cbn [slot_named slot_name] in *.
        - eexists. split; [reflexivity|exact Hd].
        - destruct Hd as (n & Hn & Hd). exists n. split; assumption. }
      destruct Hn as (n & Hn & Hdn).
      exists (n :: names). repeat apply conj.
      + constructor; assumption.
      + constructor; assumption.
      + constructor; [|exact Hnames]. intros Hdup.
        apply list_elem_of_lookup in Hdup as [i Hi].
        destruct (Forall2_lookup_r _ _ _ _ _ Hslot Hi) as (s' & Hs' & Hn').
        assert (Hmember : s' ∈ done) by (apply list_elem_of_lookup; eauto).
        assert (s = s'); [|subst s'; exact (Hs Hmember)].
        apply (slot_name_inj s s' n); try assumption.
        * apply Hin. left.
        * apply Hin. right. exact Hmember. }
  destruct Hnames as (names & Hhave & _ & Hnames). eauto.
Qed.
End names_apart.

(** X15.  The costumes of a run have pairwise distinct names: when the
    font ids are distinct lower-case ASCII tokens none of which is another
    one followed by a hyphen and more, the configured characters are
    distinct, and their Unicode names are ASCII and stay distinct once
    lower-cased and hyphenated, the names of the descriptors that the glyph
    stream yields, fallbacks included, are all different, across fonts as
    within one. *)
Theorem costume_names_distinct `{Platform} :
  lower_ascii_law →
  (∀ c n, unicodedata_name c = Some n → Forall (λ a, a < 128) n) →
  (∀ g w ds r w',
     font_ids_apart (map Vector.font_id (Vector.fonts g)) →
     NoDup (Vector.characters g) →
     (∀ c1 c2 n1 n2,
        c1 ∈ Vector.characters g → c2 ∈ Vector.characters g →
        unicodedata_name c1 = Some n1 → unicodedata_name c2 = Some n2 →
        str_replace 32 45 (str_replace 95 45 (str_lower n1))
        = str_replace 32 45 (str_replace 95 45 (str_lower n2)) →
        c1 = c2) →
     Vector.generate_glyphs g w = (ds, r, w') →
     ∃ names, Forall2 has_name ds names ∧ NoDup names)
  ∧ (∀ g w ds r w',
     font_ids_apart (map Raster.font_id (Raster.fonts g)) →
     NoDup (Raster.characters g) →
     (∀ c1 c2 n1 n2,
        c1 ∈ Raster.characters g → c2 ∈ Raster.characters g →
        unicodedata_name c1 = Some n1 → unicodedata_name c2 = Some n2 →
        str_replace 32 45 (str_replace 95 45 (str_lower n1))
        = str_replace 32 45 (str_replace 95 45 (str_lower n2)) →
        c1 = c2) →
     Raster.generate_glyphs g w = (ds, r, w') →
     ∃ names, Forall2 has_name ds names ∧ NoDup names).
Proof.
  intros Hlaw Hascii. split; intros g w ds r w' Hids Hchars Hspecials Hrun.
  - assert (Hord : yields_in_order (slot_named Vector.font_id)
                     (Vector.generate_glyphs g)
                     (stream_slots (Vector.fonts g) (Vector.characters g))).
    { eapply yields_in_order_weaken; [|apply vector_stream_in_order].
      intros d [f|f c]; cbn.
      - intros (content & _ & Hname & _). exact Hname.
      - intros (name & content & Hn & _ & Hname & _). exists name. auto. }
    destruct (Hord _ _ _ _ Hrun) as (done & rest & Hslots & Hds & _).
    exact (slots_named_apart Vector.font_id _ _ Hlaw Hascii Hids Hchars
             Hspecials ds done rest Hslots Hds).
  - assert (Hord : yields_in_order (slot_named Raster.font_id)
                     (Raster.generate_glyphs g)
                     (stream_slots (Raster.fonts g) (Raster.characters g))).
    { eapply yields_in_order_weaken; [|apply raster_stream_in_order].
      intros d [f|f c]; cbn.
      - intros (name & png & -> & _ & Hname & _). exact Hname.
      - intros (name & png & Hn & _ & Hname & _). exists name. auto. }
    destruct (Hord _ _ _ _ Hrun) as (done & rest & Hslots & Hds & _).
    exact (slots_named_apart Raster.font_id _ _ Hlaw Hascii Hids Hchars
             Hspecials ds done rest Hslots Hds).
Qed.

Lemma costume_names_distinct_witness :
  let run := @Vector.generate_glyphs sample_platform vector_sample_globals
               empty_world in
  ∃ names, Forall2 has_name run.1.1 names ∧ NoDup names.
Proof.
  intros run.
  apply (proj1 (@costume_names_distinct sample_platform
                  (λ s _, eq_refl) sample_names_ascii)
           vector_sample_globals empty_world run.1.1 run.1.2 run.2).
  - split; apply (bool_decide_unpack _); vm_compute; exact I.
  - apply (bool_decide_unpack _). vm_compute. exact I.
  - intros c1 c2 n1 n2 Hc1 Hc2 Hn1 Hn2 Heq.
    change (Vector.characters vector_sample_globals) with [97; 65; 47; 32]
      in Hc1, Hc2.
    rewrite !elem_of_cons, elem_of_nil in Hc1, Hc2.
    destruct Hc1 as [->|[->|[->|[->|[]]]]];
      destruct Hc2 as [->|[->|[->|[->|[]]]]];
      try reflexivity; vm_compute in Hn1, Hn2; try discriminate;
      injection Hn1 as <-; injection Hn2 as <-; vm_compute in Heq;
      discriminate Heq.
  - apply triple_eta.
Defined.

(** ** The raster script as configured *)

(** With the fonts and characters of the script, on a platform whose
    [unicodedata] names the special characters and whose [convert] renders
    every glyph, the raster generator returns, having yielded the 4 x 98
    descriptors. *)
Lemma raster_configured_run_returns `{Platform} g w :
  Raster.fonts g = Raster.fonts Raster.module_globals →
  Raster.characters g = configured_characters →
  temp_apart (Raster.temp_png g) (Raster.temp_dir g) (lit ".png") →
  (∀ c, is_Some (assoc c special_names) → is_Some (unicodedata_name c)) →
  (∀ s, s ∈ stream_slots (Raster.fonts g) (Raster.characters g) →
        is_Some (convert (raster_command g s))) →
  ∃ ds w', Raster.generate_glyphs g w = (ds, None, w') ∧ length ds = 392%nat.
Proof.
  intros Hfonts Hchars Htemp Hnames Hconvert.
  destruct (raster_stream_returns g Htemp) with (w := w) as (ds & w' & Hrun).
  { intros s Hs. split; [|destruct (Hconvert s Hs) as [png Hpng]; eauto].
    destruct s as [f|f c]; [exact I|].
    apply stream_slots_inv in Hs as [_ Hc]. rewrite Hchars in Hc.
    apply name_for_defined.
    pose proof configured_characters_named as Hall.
    rewrite forallb_forall in Hall. apply list_elem_of_In in Hc.
    specialize (Hall c Hc).
    apply orb_true_iff in Hall as [Hall|Hall]; [left; exact Hall|right].
    apply Hnames. destruct (assoc c special_names); [eauto|discriminate]. }
  exists ds, w'. split; [exact Hrun|].
  destruct (raster_stream_in_order g _ _ _ _ Hrun)
    as (done & rest & Hslots & Hds & Hrest).
  rewrite (Hrest eq_refl), app_nil_r in Hslots.
  rewrite (Forall2_length _ _ _ Hds), <- Hslots.
  unfold stream_slots. rewrite Hfonts, Hchars. vm_compute. reflexivity.
Qed.

(** X16.  The raster script as configured runs to its end: with its four
    fonts and its 97 characters, on a platform whose [unicodedata] names the
    special characters of the set and whose [convert] renders the glyph of
    every slot, with an input archive whose [sprite.json] parses to an
    object, and where the output file can be created, [main] returns, having
    started 392 processes, and the output archive holds the loaded manifest
    with 392 costumes, after at most 392 members named by the digests of
    their bytes. *)
Theorem raster_main_configured `{Platform}
    (tmp : str) (w : world) (members : list zip_entry) (raw : bytes) (d0 : dict) :
  (∀ c, is_Some (assoc c special_names) → is_Some (unicodedata_name c)) →
  (∀ s, s ∈ stream_slots (Raster.fonts Raster.module_globals)
              configured_characters →
        is_Some (convert (raster_command
                            (raster_main_globals Raster.module_globals tmp) s))) →
  under tmp (lit "../output/Printer.sprite3") = false →
  create_error (lit "../output/Printer.sprite3") = None →
  fs w !! lit "../input/Printer.sprite3" = Some (ZipArchive members) →
  zip_read (lit "sprite.json") members = Ok raw →
  json_loads raw = Some (JObj d0) →
  ∃ ds binaries w',
    Raster.main Raster.module_globals tmp w = (Ok (), w')
    ∧ length ds = 392%nat
    ∧ length (processes w') = (length (processes w) + 392)%nat
    ∧ content_named (lit ".png") binaries
    ∧ (length binaries ≤ 392)%nat
    ∧ fs w' !! lit "../output/Printer.sprite3"
      = Some (ZipArchive
                (binaries ++
                 [manifest_member
                    (JObj (dict_set (lit "costumes") (JArr ds)
                             (dict_set (lit "sounds") (JArr [])
                                (dict_set (lit "current_costume") (JInt 0)
                                   (dict_set (lit "costumes") (JArr []) d0)))))])).
Proof.
  intros Hnames Hconvert Hout Hcreate Hfile Hread Hjson.
  set (g := raster_main_globals Raster.module_globals tmp) in *.
  destruct (raster_configured_run_returns g w eq_refl eq_refl
              (temp_apart_tmp_png tmp (lit ".png")) Hnames Hconvert)
    as (ds & w1 & Hgen & Hlen).
  destruct (Raster.main Raster.module_globals tmp w) as [r w'] eqn:Hrun.
  pose proof (main_block_outcome (Raster.generate_glyphs g) tmp (lit ".png")
                (raster_stream_stages g (temp_apart_tmp_png tmp (lit ".png")))
                (raster_stream_outside g (tmp_png_under tmp))
                w r w' Hout Hrun) as [_ Hloaded].
  pose proof (load_sprite_code_ok _ _ _ _ _ Hfile Hread Hjson) as Hload.
  apply (f_equal fst) in Hload. cbn [fst] in Hload.
  destruct (Hloaded _ _ _ _ Hload Hgen) as (Hprocs & _ & _ & Hreturns).
  destruct (Hreturns eq_refl Hcreate)
    as (-> & d1 & binaries & [= <-] & Hnamed & Hbin & _ & Hfs).
  exists ds, binaries, w'. repeat apply conj; try assumption; try reflexivity.
  - rewrite Hprocs, (raster_stream_processes g _ _ _ Hgen).
    rewrite length_app, length_map. reflexivity.
  - lia.
Qed.

Lemma raster_main_configured_witness :
  ∃ w',
    @Raster.main sample_platform Raster.module_globals
      (lit "/tmp/printer-costumes-x") sample_input = (Ok (), w').
Proof.
  destruct (@raster_main_configured sample_platform
              (lit "/tmp/printer-costumes-x") sample_input
              [ {| arcname := lit "sprite.json";
                   data := latin1_bytes (sample_dumps (JObj sample_manifest));
                   compress_type := ZIP_DEFLATED |} ]
              (latin1_bytes (sample_dumps (JObj sample_manifest)))
              sample_manifest)
    as (ds & binaries & w' & Hrun & _).
  - intros c Hc. exact Hc.
  - intros s _. eexists. reflexivity.
  - reflexivity.
  - reflexivity.
  - vm_compute. reflexivity.
  - reflexivity.
  - vm_compute. reflexivity.
  - exists w'. exact Hrun.
Defined.
